(** * E-commerce recommendation backend: recommendation, trending and
      behaviour-profile engine

    A shallow embedding of the Django application code under
    [apps/interactions] and [apps/recommendations].

    Conventions of the embedding:
    - database tables are lists of rows; a table that the code inserts into
      also carries the next value of its primary-key sequence;
    - Python [float] and [Decimal] values are exact rationals ([Q]); equations
      between computed numbers are stated with [==];
    - timestamps are integers (microseconds); [timezone.now()] is an explicit
      argument [now], read once by a run of an operation;
    - a [Decimal] column keeps the exact value it is given, without rounding
      to the scale of the column;
    - an ORM call that may raise returns an [outcome]; operations that write
      are functions in the store monad [M];
    - [order_by] of a queryset fixes the order of rows only up to ties; the
      order the database picks is a parameter of the embedding, constrained to
      be a sorted permutation. *)

From Stdlib Require Import ZArith QArith Qminmax Qfield Lqa Lia List String Ascii Bool.
From Stdlib Require Import DecimalString.
From Stdlib Require Import Permutation Sorted.
Import ListNotations.

Set Implicit Arguments.
Open Scope string_scope.
Open Scope list_scope.
Open Scope Z_scope.

(* ------------------------------------------------------------------ *)
(** ** Python helpers *)

(** Python dicts, kept in insertion order; [eqb] compares keys. *)
Section Dict.
Context {K V : Type} (eqb : K -> K -> bool).

(** [d.get(k)] *)
Fixpoint dict_find (d : list (K * V)) (k : K) : option V :=
  match d with
  | [] => None
  | (k', v) :: d' => if eqb k k' then Some v else dict_find d' k
  end.

(** [d.get(k, default)] *)
Definition dict_get (d : list (K * V)) (k : K) (default : V) : V :=
  match dict_find d k with
  | Some v => v
  | None => default
  end.

(** [k in d] *)
Definition dict_mem (d : list (K * V)) (k : K) : bool :=
  match dict_find d k with
  | Some _ => true
  | None => false
  end.

(** [d[k] = v]: an existing key keeps its position, a new key goes last. *)
Fixpoint dict_set (d : list (K * V)) (k : K) (v : V) : list (K * V) :=
  match d with
  | [] => [(k, v)]
  | (k', v') :: d' =>
      if eqb k k' then (k', v) :: d' else (k', v') :: dict_set d' k v
  end.

(** In-place change of the value stored under [k] (a mutable value). *)
Fixpoint dict_update (d : list (K * V)) (k : K) (f : V -> V) : list (K * V) :=
  match d with
  | [] => []
  | (k', v') :: d' =>
      if eqb k k' then (k', f v') :: d' else (k', v') :: dict_update d' k f
  end.
End Dict.

(** Distinct values in order of first appearance ([dict.fromkeys], and the
    groups of [values(...)]). *)
Fixpoint distinct {K : Type} (eqb : K -> K -> bool) (l : list K) : list K :=
  match l with
  | [] => []
  | x :: l' => x :: filter (fun y => negb (eqb x y)) (distinct eqb l')
  end.

(** [values(key).annotate(...)]: one group of rows per value of [key]. *)
Definition group_by {A K : Type} (eqb : K -> K -> bool) (key : A -> K)
    (l : list A) : list (K * list A) :=
  map (fun k => (k, filter (fun a => eqb (key a) k) l)) (distinct eqb (map key l)).

(** [Count('id', filter=...)] and [queryset.filter(...).count()] *)
Definition count_if {A : Type} (f : A -> bool) (l : list A) : Z :=
  Z.of_nat (List.length (filter f l)).

(** Left-to-right accumulation [acc += x]. *)
Definition sum_Q (l : list Q) : Q := fold_left Qplus l 0%Q.
Definition sum_Z (l : list Z) : Z := fold_left Z.add l 0.

Definition option_eqb {A : Type} (eqb : A -> A -> bool) (x y : option A) : bool :=
  match x, y with
  | Some a, Some b => eqb a b
  | None, None => true
  | _, _ => false
  end.

(** [enumerate(l)] paired with [idx + 1] *)
Fixpoint enumerate_from {A : Type} (start : Z) (l : list A) : list (Z * A) :=
  match l with
  | [] => []
  | x :: l' => (start, x) :: enumerate_from (start + 1) l'
  end.

(** [list.sort(key=..., reverse=True)]: stable, descending.  An element is
    placed before the first later element whose key is not larger. *)
Fixpoint insert_desc {A : Type} (key : A -> Q) (x : A) (l : list A) : list A :=
  match l with
  | [] => [x]
  | y :: l' =>
      if Qle_bool (key y) (key x) then x :: y :: l'
      else y :: insert_desc key x l'
  end.

Definition sort_desc {A : Type} (key : A -> Q) (l : list A) : list A :=
  fold_right (insert_desc key) [] l.

(** What [order_by('-key')] guarantees of its result. *)
Definition is_order_by_desc {A : Type} (key : A -> Q) (input result : list A) : Prop :=
  Permutation input result /\
  StronglySorted (fun a b => (key b <= key a)%Q) result.

(* ------------------------------------------------------------------ *)
(** ** Exceptions *)

Inductive model_name : Type :=
  | StoreModel | UserModel | ProductModel | RecommendationModel
  | UserRecommendationProfileModel | TrendingProductModel
  | UserBehaviorProfileModel.

Definition model_name_eqb (a b : model_name) : bool :=
  match a, b with
  | StoreModel, StoreModel | UserModel, UserModel
  | ProductModel, ProductModel | RecommendationModel, RecommendationModel
  | UserRecommendationProfileModel, UserRecommendationProfileModel
  | TrendingProductModel, TrendingProductModel
  | UserBehaviorProfileModel, UserBehaviorProfileModel => true
  | _, _ => false
  end.

Inductive exn : Type :=
  | DoesNotExist (m : model_name)
  | MultipleObjectsReturned (m : model_name)
  | IntegrityError
  | ValueError
  | AttributeError
  | OtherError.

Inductive outcome (A : Type) : Type :=
  | Ok (a : A)
  | Raise (e : exn).
Arguments Ok {A} a.
Arguments Raise {A} e.

(* ------------------------------------------------------------------ *)
(** ** Models *)

(** [models.Model]: every row has an integer primary key. *)
Class Model (A : Type) : Type := {
  model : model_name;
  pk : A -> Z;
  with_pk : Z -> A -> A
}.

(** A table the engine inserts into: its rows and its key sequence. *)
Record Table (A : Type) : Type := mkTable {
  rows : list A;
  next_id : Z
}.

Module User.
Record t : Type := mk {
  id : Z;
  store : Z;
  user_id : string
}.

Definition set_id (i : Z) (self : t) : t := mk i (store self) (user_id self).
End User.

#[export] Instance User_Model : Model User.t := {
  model := UserModel;
  pk := User.id;
  with_pk := User.set_id
}.

Module Product.
Record t : Type := mk {
  id : Z;
  store : Z;
  category : string;
  price : option Q
}.
End Product.

(** [UserSession] of users/models.py, which [User] reaches as
    [login_sessions], with its user, start time and duration. *)
Module Session.
Record t : Type := mk {
  user : Z;
  start_time : Z;
  duration_seconds : Z
}.
End Session.

Module Interaction.
Record t : Type := mk {
  id : Z;
  store : Z;
  user : option Z;
  product : option Z;
  interaction_type : string;
  value : Q;
  weight : Q;
  product_price : option Q;
  product_category : string;
  created_at : Z
}.

Definition set_product_context (c : string) (p : option Q) (self : t) : t :=
  mk (id self) (store self) (user self) (product self)
     (interaction_type self) (value self) (weight self) p c (created_at self).

Definition set_weight (w : Q) (self : t) : t :=
  mk (id self) (store self) (user self) (product self)
     (interaction_type self) (value self) w
     (product_price self) (product_category self) (created_at self).

Definition weight_map : list (string * Q) :=
  [ ("view", 0.1%Q);
    ("click", 0.3%Q);
    ("detail_view", 0.5%Q);
    ("cart_add", 2.0%Q);
    ("wishlist_add", 1.5%Q);
    ("purchase", 5.0%Q);
    ("review", 3.0%Q);
    ("like", 1.0%Q);
    ("dislike", 0.5%Q) ].

(** [Interaction.save], up to the call of [super().save()]: the field
    values the row is written with.  [products] resolves [self.product]. *)
Definition save (products : list Product.t) (self : t) : t :=
  let self1 :=
    match product self with
    | Some pid =>
        match find (fun p => Product.id p =? pid) products with
        | Some p =>
            if String.eqb (product_category self) EmptyString
            then set_product_context (Product.category p) (Product.price p) self
            else self
        | None => self
        end
    | None => self
    end in
  set_weight (dict_get String.eqb weight_map (interaction_type self1) 1.0%Q) self1.
End Interaction.

Module Recommendation.
Record t : Type := mk {
  id : Z;
  store : Z;
  user : option Z;
  session_id : string;
  product : Z;
  algorithm : string;
  score : Q;
  rank : Z;
  context : list (string * string);
  explanation : string;
  shown_count : Z;
  click_count : Z;
  purchase_count : Z;
  created_at : Z;
  expires_at : option Z
}.

Definition set_id (i : Z) (self : t) : t :=
  mk i (store self) (user self) (session_id self) (product self)
     (algorithm self) (score self) (rank self) (context self)
     (explanation self) (shown_count self) (click_count self)
     (purchase_count self) (created_at self) (expires_at self).

Definition set_ranking (s : Q) (r : Z) (e : string)
    (c : list (string * string)) (x : option Z) (self : t) : t :=
  mk (id self) (store self) (user self) (session_id self) (product self)
     (algorithm self) s r c e (shown_count self) (click_count self)
     (purchase_count self) (created_at self) x.

Definition set_shown_count (n : Z) (self : t) : t :=
  mk (id self) (store self) (user self) (session_id self) (product self)
     (algorithm self) (score self) (rank self) (context self)
     (explanation self) n (click_count self)
     (purchase_count self) (created_at self) (expires_at self).

Definition set_click_count (n : Z) (self : t) : t :=
  mk (id self) (store self) (user self) (session_id self) (product self)
     (algorithm self) (score self) (rank self) (context self)
     (explanation self) (shown_count self) n
     (purchase_count self) (created_at self) (expires_at self).

Definition set_purchase_count (n : Z) (self : t) : t :=
  mk (id self) (store self) (user self) (session_id self) (product self)
     (algorithm self) (score self) (rank self) (context self)
     (explanation self) (shown_count self) (click_count self)
     n (created_at self) (expires_at self).

(** [@property click_through_rate] *)
Definition click_through_rate (self : t) : Q :=
  if shown_count self =? 0 then 0.0%Q
  else ((inject_Z (click_count self) / inject_Z (shown_count self)) * 100)%Q.

(** [@property conversion_rate] *)
Definition conversion_rate (self : t) : Q :=
  if shown_count self =? 0 then 0.0%Q
  else ((inject_Z (purchase_count self) / inject_Z (shown_count self)) * 100)%Q.
End Recommendation.

#[export] Instance Recommendation_Model : Model Recommendation.t := {
  model := RecommendationModel;
  pk := Recommendation.id;
  with_pk := Recommendation.set_id
}.

Module UserRecommendationProfile.
Record t : Type := mk {
  id : Z;
  store : Z;
  user : Z;
  total_recommendations_shown : Z;
  total_recommendations_clicked : Z;
  total_recommendations_purchased : Z;
  overall_ctr : Q;
  overall_conversion_rate : Q;
  last_recommendation_at : option Z
}.

Definition set_id (i : Z) (self : t) : t :=
  mk i (store self) (user self) (total_recommendations_shown self)
     (total_recommendations_clicked self)
     (total_recommendations_purchased self) (overall_ctr self)
     (overall_conversion_rate self) (last_recommendation_at self).

Definition set_totals (s c p : Z) (at_ : option Z) (self : t) : t :=
  mk (id self) (store self) (user self) s c p (overall_ctr self)
     (overall_conversion_rate self) at_.

Definition set_rates (ctr conv : Q) (self : t) : t :=
  mk (id self) (store self) (user self) (total_recommendations_shown self)
     (total_recommendations_clicked self)
     (total_recommendations_purchased self) ctr conv
     (last_recommendation_at self).

(** The row [get_or_create(store=..., user=...)] inserts: field defaults. *)
Definition default (store_ user_ : Z) : t :=
  mk 0 store_ user_ 0 0 0 0.0%Q 0.0%Q None.
End UserRecommendationProfile.

#[export] Instance UserRecommendationProfile_Model : Model UserRecommendationProfile.t := {
  model := UserRecommendationProfileModel;
  pk := UserRecommendationProfile.id;
  with_pk := UserRecommendationProfile.set_id
}.

Module TrendingProduct.
Record t : Type := mk {
  id : Z;
  store : Z;
  product : Z;
  score : Q;
  velocity : Q;
  rank : Z;
  calculation_window : string;
  calculated_at : Z
}.

Definition set_id (i : Z) (self : t) : t :=
  mk i (store self) (product self) (score self) (velocity self) (rank self)
     (calculation_window self) (calculated_at self).

Definition set_defaults (s v : Q) (r : Z) (self : t) : t :=
  mk (id self) (store self) (product self) s v r
     (calculation_window self) (calculated_at self).
End TrendingProduct.

#[export] Instance TrendingProduct_Model : Model TrendingProduct.t := {
  model := TrendingProductModel;
  pk := TrendingProduct.id;
  with_pk := TrendingProduct.set_id
}.

Module UserBehaviorProfile.
Record t : Type := mk {
  id : Z;
  store : Z;
  user : Z;
  total_interactions : Z;
  total_views : Z;
  total_purchases : Z;
  total_cart_adds : Z;
  avg_session_duration : Q;
  avg_time_between_sessions : Q;
  last_active_date : option Z;
  preferred_categories : list (string * Q);
  price_preference : list (string * Q);
  browsing_pattern : string;
  purchase_frequency : string;
  avg_order_value : Q
}.

Definition set_id (i : Z) (self : t) : t :=
  mk i (store self) (user self) (total_interactions self) (total_views self)
     (total_purchases self) (total_cart_adds self)
     (avg_session_duration self) (avg_time_between_sessions self)
     (last_active_date self) (preferred_categories self)
     (price_preference self) (browsing_pattern self)
     (purchase_frequency self) (avg_order_value self).

(** The row [get_or_create(store=..., user=...)] inserts: field defaults. *)
Definition default (store_ user_ : Z) : t :=
  mk 0 store_ user_ 0 0 0 0 0.0%Q 0.0%Q None [] [] EmptyString EmptyString 0.0%Q.
End UserBehaviorProfile.

#[export] Instance UserBehaviorProfile_Model : Model UserBehaviorProfile.t := {
  model := UserBehaviorProfileModel;
  pk := UserBehaviorProfile.id;
  with_pk := UserBehaviorProfile.set_id
}.

(* ------------------------------------------------------------------ *)
(** ** The database and the store monad *)

Record Database : Type := mkDatabase {
  stores : list Z;
  users : list User.t;
  products : list Product.t;
  sessions : list Session.t;
  interactions : list Interaction.t;
  recommendations : Table Recommendation.t;
  user_recommendation_profiles : Table UserRecommendationProfile.t;
  trending_products : Table TrendingProduct.t;
  user_behavior_profiles : Table UserBehaviorProfile.t
}.

Definition set_recommendations (t : Table Recommendation.t) (db : Database) : Database :=
  mkDatabase (stores db) (users db) (products db) (sessions db) (interactions db)
             t (user_recommendation_profiles db) (trending_products db)
             (user_behavior_profiles db).

Definition set_user_recommendation_profiles
    (t : Table UserRecommendationProfile.t) (db : Database) : Database :=
  mkDatabase (stores db) (users db) (products db) (sessions db) (interactions db)
             (recommendations db) t (trending_products db)
             (user_behavior_profiles db).

Definition set_trending_products (t : Table TrendingProduct.t) (db : Database) : Database :=
  mkDatabase (stores db) (users db) (products db) (sessions db) (interactions db)
             (recommendations db) (user_recommendation_profiles db) t
             (user_behavior_profiles db).

Definition set_user_behavior_profiles
    (t : Table UserBehaviorProfile.t) (db : Database) : Database :=
  mkDatabase (stores db) (users db) (products db) (sessions db) (interactions db)
             (recommendations db) (user_recommendation_profiles db)
             (trending_products db) t.

Definition set_interactions (l : list Interaction.t) (db : Database) : Database :=
  mkDatabase (stores db) (users db) (products db) (sessions db) l
             (recommendations db) (user_recommendation_profiles db)
             (trending_products db) (user_behavior_profiles db).

Definition M (A : Type) : Type := Database -> outcome A * Database.

Definition ret {A : Type} (a : A) : M A := fun db => (Ok a, db).

Definition bind {A B : Type} (m : M A) (k : A -> M B) : M B :=
  fun db =>
    match m db with
    | (Ok a, db') => k a db'
    | (Raise e, db') => (Raise e, db')
    end.

Definition get_db : M Database := fun db => (Ok db, db).
Definition put_db (db' : Database) : M unit := fun _ => (Ok tt, db').
Definition lift {A : Type} (o : outcome A) : M A := fun db => (o, db).

(** [try: m  except E: handler] *)
Definition try_except {A : Type} (m : M A) (caught : exn -> bool) (handler : M A) : M A :=
  fun db =>
    match m db with
    | (Ok a, db') => (Ok a, db')
    | (Raise e, db') => if caught e then handler db' else (Raise e, db')
    end.

Declare Scope store_scope.
Delimit Scope store_scope with store.
Notation "x <- m ;; k" := (bind m (fun x => k))
  (at level 61, m at next level, right associativity) : store_scope.
Notation "m ;;; k" := (bind m (fun _ => k))
  (at level 61, right associativity) : store_scope.
Open Scope store_scope.

(** [for x in l: body(x)], stopping at the first exception. *)
Fixpoint for_each {A : Type} (l : list A) (body : A -> M unit) : M unit :=
  match l with
  | [] => ret tt
  | x :: l' => body x ;;; for_each l' body
  end.

(** [[body(x) for x in l]], stopping at the first exception. *)
Fixpoint map_M {A B : Type} (body : A -> M B) (l : list A) : M (list B) :=
  match l with
  | [] => ret []
  | x :: l' => y <- body x ;; ys <- map_M body l' ;; ret (y :: ys)
  end.

(* ------------------------------------------------------------------ *)
(** ** ORM operations on a table *)

Section ORM.
Context {A : Type} `{Model A}.

(** [objects.get(...)] *)
Definition objects_get (lookup : A -> bool) (l : list A) : outcome A :=
  match filter lookup l with
  | [] => Raise (DoesNotExist model)
  | [r] => Ok r
  | _ :: _ :: _ => Raise (MultipleObjectsReturned model)
  end.

(** [objects.create(...)]: the row gets the next key of the sequence. *)
Definition objects_create (new_row : A) (t : Table A) : A * Table A :=
  let r := with_pk (next_id t) new_row in
  (r, mkTable (rows t ++ [r]) (next_id t + 1)).

(** [row.save(update_fields=[...])]: [write] copies the listed fields of
    the instance into the stored row with the same key. *)
Definition save_fields (key : Z) (write : A -> A) (t : Table A) : Table A :=
  mkTable (map (fun r => if pk r =? key then write r else r) (rows t)) (next_id t).

(** [row.save()]: every field of the instance is written. *)
Definition save_row (self : A) (t : Table A) : Table A :=
  save_fields (pk self) (fun _ => self) t.

(** [objects.get_or_create(<lookup>, defaults=...)].  [fk_ok] tells whether
    the foreign keys of [new_row] point at existing rows. *)
Definition get_or_create (lookup : A -> bool) (fk_ok : bool) (new_row : A)
    (t : Table A) : outcome (A * bool) * Table A :=
  match objects_get lookup (rows t) with
  | Ok r => (Ok (r, false), t)
  | Raise (DoesNotExist _) =>
      if fk_ok then
        let '(r, t') := objects_create new_row t in (Ok (r, true), t')
      else (Raise IntegrityError, t)
  | Raise e => (Raise e, t)
  end.

(** [objects.update_or_create(<lookup>, defaults=...)] *)
Definition update_or_create (lookup : A -> bool) (set_defaults : A -> A)
    (new_row : A) (t : Table A) : outcome (A * bool) * Table A :=
  match objects_get lookup (rows t) with
  | Ok r => let r' := set_defaults r in (Ok (r', false), save_row r' t)
  | Raise (DoesNotExist _) =>
      let '(r, t') := objects_create (set_defaults new_row) t in (Ok (r, true), t')
  | Raise e => (Raise e, t)
  end.
End ORM.

(** Following a foreign key to [User]. *)
Definition related_user (uid : Z) (db : Database) : outcome User.t :=
  match find (fun u => User.id u =? uid) (users db) with
  | Some u => Ok u
  | None => Raise (DoesNotExist UserModel)
  end.

(* ------------------------------------------------------------------ *)
(** ** recommendations/models.py: counters and profile metrics *)

Definition increment_shown (self : Recommendation.t) : M Recommendation.t :=
  let self' := Recommendation.set_shown_count (Recommendation.shown_count self + 1) self in
  db <- get_db ;;
  put_db (set_recommendations
            (save_fields (pk self')
               (Recommendation.set_shown_count (Recommendation.shown_count self'))
               (recommendations db)) db) ;;;
  ret self'.

Definition increment_click (self : Recommendation.t) : M Recommendation.t :=
  let self' := Recommendation.set_click_count (Recommendation.click_count self + 1) self in
  db <- get_db ;;
  put_db (set_recommendations
            (save_fields (pk self')
               (Recommendation.set_click_count (Recommendation.click_count self'))
               (recommendations db)) db) ;;;
  ret self'.

Definition increment_purchase (self : Recommendation.t) : M Recommendation.t :=
  let self' := Recommendation.set_purchase_count (Recommendation.purchase_count self + 1) self in
  db <- get_db ;;
  put_db (set_recommendations
            (save_fields (pk self')
               (Recommendation.set_purchase_count (Recommendation.purchase_count self'))
               (recommendations db)) db) ;;;
  ret self'.

(** [UserRecommendationProfile.update_performance_metrics] *)
Definition update_performance_metrics (self : UserRecommendationProfile.t) : M unit :=
  if 0 <? UserRecommendationProfile.total_recommendations_shown self then
    let shown := inject_Z (UserRecommendationProfile.total_recommendations_shown self) in
    let self' :=
      UserRecommendationProfile.set_rates
        ((inject_Z (UserRecommendationProfile.total_recommendations_clicked self) / shown) * 100)%Q
        ((inject_Z (UserRecommendationProfile.total_recommendations_purchased self) / shown) * 100)%Q
        self in
    db <- get_db ;;
    put_db (set_user_recommendation_profiles
              (save_row self' (user_recommendation_profiles db)) db)
  else ret tt.

(* ------------------------------------------------------------------ *)
(** ** recommendations/services.py: the feedback loop *)

(** [RecommendationService._update_user_profile] *)
Definition _update_user_profile (now : Z) (user : User.t) : M unit :=
  db <- get_db ;;
  let '(res, t) :=
    get_or_create
      (fun p => (UserRecommendationProfile.store p =? User.store user)
                && (UserRecommendationProfile.user p =? User.id user))
      true
      (UserRecommendationProfile.default (User.store user) (User.id user))
      (user_recommendation_profiles db) in
  put_db (set_user_recommendation_profiles t db) ;;;
  created <- lift res ;;
  let profile := fst created in
  db <- get_db ;;
  let recs :=
    filter (fun r => option_eqb Z.eqb (Recommendation.user r) (Some (User.id user)))
           (rows (recommendations db)) in
  let profile :=
    UserRecommendationProfile.set_totals
      (sum_Z (map Recommendation.shown_count recs))
      (sum_Z (map Recommendation.click_count recs))
      (sum_Z (map Recommendation.purchase_count recs))
      (Some now) profile in
  update_performance_metrics profile.

Definition is_DoesNotExist (m : model_name) (e : exn) : bool :=
  match e with
  | DoesNotExist m' => model_name_eqb m m'
  | _ => false
  end.

(** [RecommendationService.record_impression] *)
Definition record_impression (now : Z) (recommendation_id : Z) : M unit :=
  try_except
    (db <- get_db ;;
     recommendation <- lift (objects_get (fun r => Recommendation.id r =? recommendation_id)
                                         (rows (recommendations db))) ;;
     recommendation <- increment_shown recommendation ;;
     match Recommendation.user recommendation with
     | Some uid =>
         db <- get_db ;;
         user <- lift (related_user uid db) ;;
         _update_user_profile now user
     | None => ret tt
     end)
    (is_DoesNotExist RecommendationModel)
    (ret tt).

(** [RecommendationService.record_click] *)
Definition record_click (now : Z) (recommendation_id : Z) : M unit :=
  try_except
    (db <- get_db ;;
     recommendation <- lift (objects_get (fun r => Recommendation.id r =? recommendation_id)
                                         (rows (recommendations db))) ;;
     recommendation <- increment_click recommendation ;;
     match Recommendation.user recommendation with
     | Some uid =>
         db <- get_db ;;
         user <- lift (related_user uid db) ;;
         _update_user_profile now user
     | None => ret tt
     end)
    (is_DoesNotExist RecommendationModel)
    (ret tt).

(* ------------------------------------------------------------------ *)
(** ** recommendations/services.py: candidate generators *)

(** An entry of the list an engine returns:
    [{'product': ..., 'score': ..., 'rank': ..., 'explanation': ...}]. *)
Module Candidate.
Record t : Type := mk {
  product : Product.t;
  score : Q;
  rank : Z;
  explanation : string
}.
End Candidate.

(** The per-product entry of [all_recommendations] in the hybrid engine. *)
Module Merged.
Record t : Type := mk {
  product : Product.t;
  scores : list (string * Q);
  explanations : list string
}.
End Merged.

(** A row of [values('product').annotate(interaction_count=...,
    purchase_count=..., velocity=...)]. *)
Module TrendingRow.
Record t : Type := mk {
  product : option Z;
  interaction_count : Z;
  purchase_count : Z;
  velocity : Z
}.
End TrendingRow.

(** [MLModel], with the columns [activate] reads or writes and the version
    that tells two models of a type apart; the metrics, the file and the
    configuration of a model are left out. *)
Module MLModel.
Record t : Type := mk {
  id : Z;
  store : Z;
  model_type : string;
  version : string;
  status : string;
  is_active : bool
}.

Definition set_is_active (b : bool) (self : t) : t :=
  mk (id self) (store self) (model_type self) (version self) (status self) b.

(** [MLModel.activate] on the table of models: the other active models of
    the store and type are switched off by one [update], then the instance
    is saved as the active one (written over the row with its key, or
    inserted when the table has no such row). *)
Definition activate (self : t) (table : list t) : t * list t :=
  let table1 :=
    map (fun r => if (store r =? store self)
                     && String.eqb (model_type r) (model_type self)
                     && is_active r
                  then set_is_active false r else r)
        table in
  let self' := mk (id self) (store self) (model_type self) (version self) "active" true in
  (self',
   if existsb (fun r => id r =? id self) table1
   then map (fun r => if id r =? id self then self' else r) table1
   else table1 ++ [self']).
End MLModel.

Definition string_of_Z (z : Z) : string := NilZero.string_of_int (Z.to_int z).

Definition lower_ascii (c : ascii) : ascii :=
  let n := nat_of_ascii c in
  if ((65 <=? n) && (n <=? 90))%nat then ascii_of_nat (n + 32) else c.

(** [str.lower()] on ASCII text *)
Fixpoint lower (s : string) : string :=
  match s with
  | EmptyString => EmptyString
  | String c s' => String (lower_ascii c) (lower s')
  end.

(** [timedelta(hours=n)] and [timedelta(days=n)] in microseconds *)
Definition hours (n : Z) : Z := n * 3600000000.
Definition days (n : Z) : Z := n * 86400000000.

Definition is_some {A : Type} (x : option A) : bool :=
  match x with Some _ => true | None => false end.

Definition is_purchase (i : Interaction.t) : bool :=
  String.eqb (Interaction.interaction_type i) "purchase".

(** [Count('id')] over the rows of a group *)
Definition count_all {A : Type} (l : list A) : Z := Z.of_nat (List.length l).

(** [Product.objects.get(id=...)]: [None] stands for [Product.DoesNotExist];
    the lookup is by primary key, so it never meets two rows. *)
Definition get_product (pid : option Z) (db : Database) : option Product.t :=
  match pid with
  | Some k => find (fun p => Product.id p =? k) (products db)
  | None => None
  end.

(** SQL [x IN (...)]: a NULL is in no list, and a NULL in the list matches
    nothing. *)
Definition product_in (p : option Z) (s : list (option Z)) : bool :=
  match p with
  | Some pid => existsb (fun q => option_eqb Z.eqb q (Some pid)) s
  | None => false
  end.

Definition Qlt_bool (a b : Q) : bool := negb (Qle_bool b a).

(** [s or default] for an optional string *)
Definition or_default (s : option string) (default : string) : string :=
  match s with
  | None => default
  | Some EmptyString => default
  | Some x => x
  end.

(** Arguments of [get_recommendations(user_id, session_id, max_results,
    context)], preceded by the clock and followed by the database read. *)
Definition Engine : Type :=
  Z -> option string -> option string -> nat -> list (string * string) ->
  Database -> outcome (list Candidate.t).

Section Queries.

(** The order in which the database returns the rows of
    [order_by('-key')]: descending in [key], any order among ties. *)
Variable order_by_desc : forall A : Type, (A -> Q) -> list A -> list A.
Hypothesis order_by_desc_spec :
  forall (A : Type) (key : A -> Q) (l : list A),
    is_order_by_desc key l (order_by_desc key l).

(** [ContentBasedEngine(store)].  No property below depends on what it
    returns or raises, so it stays a parameter of the embedding. *)
Variable ContentBasedEngine : Z -> Engine.

(** [PopularityBasedEngine.get_recommendations] *)
Definition PopularityBasedEngine (store : Z) : Engine :=
  fun now user_id session_id max_results context db =>
    let since_date := now - days 30 in
    let popular_products :=
      firstn (max_results * 2)
        (order_by_desc (fun item => inject_Z (snd item))
           (map (fun g => (fst g, count_all (snd g) + count_if is_purchase (snd g) * 5))
              (group_by (option_eqb Z.eqb) Interaction.product
                 (filter (fun i => (Interaction.store i =? store)
                                   && (since_date <=? Interaction.created_at i)
                                   && is_some (Interaction.product i))
                         (interactions db))))) in
    Ok (flat_map
          (fun entry : Z * (option Z * Z) =>
             let '(rank, item) := entry in
             match get_product (fst item) db with
             | Some product =>
                 let score := (inject_Z (snd item) / inject_Z rank)%Q in
                 [Candidate.mk product (Qmin (score / 100) 1.0) rank
                    (String.concat EmptyString
                       ["Popular item with "; string_of_Z (snd item); " interactions"])]
             | None => []
             end)
          (enumerate_from 1 (firstn max_results popular_products))).

(** [CollaborativeFilteringEngine.get_recommendations] *)
Definition CollaborativeFilteringEngine (store : Z) : Engine :=
  fun now user_id session_id max_results context db =>
    match user_id with
    | None => Ok []
    | Some EmptyString => Ok []
    | Some uid =>
        match objects_get (fun u => (User.store u =? store)
                                    && String.eqb (User.user_id u) uid) (users db) with
        | Raise (DoesNotExist _) => Ok []
        | Raise e => Raise e
        | Ok user =>
            let user_interactions :=
              distinct (option_eqb Z.eqb)
                (map Interaction.product
                   (filter (fun i => option_eqb Z.eqb (Interaction.user i) (Some (User.id user)))
                           (interactions db))) in
            match user_interactions with
            | [] => Ok []
            | _ :: _ =>
                let similar_users :=
                  firstn 10
                    (order_by_desc (fun us => inject_Z (snd us))
                       (filter (fun us => 0 <? snd us)
                          (map (fun u =>
                                  (u, count_if
                                        (fun i => option_eqb Z.eqb (Interaction.user i) (Some (User.id u))
                                                  && product_in (Interaction.product i) user_interactions)
                                        (interactions db)))
                             (filter (fun u => (User.store u =? store)
                                               && negb (User.id u =? User.id user))
                                     (users db))))) in
                let similar_user_products :=
                  firstn max_results
                    (order_by_desc (fun item => inject_Z (snd item))
                       (map (fun g => (fst g, count_all (snd g) + count_if is_purchase (snd g) * 3))
                          (group_by (option_eqb Z.eqb) Interaction.product
                             (filter (fun i =>
                                        (Interaction.store i =? store)
                                        && existsb (fun us => option_eqb Z.eqb (Interaction.user i)
                                                                (Some (User.id (fst us))))
                                                   similar_users
                                        && negb (product_in (Interaction.product i) user_interactions))
                                     (interactions db))))) in
                Ok (flat_map
                      (fun entry : Z * (option Z * Z) =>
                         let '(rank, item) := entry in
                         match get_product (fst item) db with
                         | Some product =>
                             [Candidate.mk product (Qmin (inject_Z (snd item) / 10) 1.0) rank
                                "Users with similar interests also liked this"]
                         | None => []
                         end)
                      (enumerate_from 1 similar_user_products))
            end
        end
    end.

(* ------------------------------------------------------------------ *)
(** ** recommendations/services.py: the hybrid engine *)

(** The body of [for rec in engine_recommendations]. *)
Definition add_recommendation (engine_name : string)
    (all_recommendations : list (Z * Merged.t)) (rec : Candidate.t)
    : list (Z * Merged.t) :=
  let product_id := Product.id (Candidate.product rec) in
  let all1 :=
    if dict_mem Z.eqb all_recommendations product_id then all_recommendations
    else dict_set Z.eqb all_recommendations product_id
           (Merged.mk (Candidate.product rec) [] []) in
  dict_update Z.eqb all1 product_id
    (fun data =>
       Merged.mk (Merged.product data)
         (dict_set String.eqb (Merged.scores data) engine_name (Candidate.score rec))
         (Merged.explanations data ++ [Candidate.explanation rec])).

(** The body of [for engine_name, engine in self.engines.items()]: an
    engine that raised contributes nothing. *)
Definition add_engine (all_recommendations : list (Z * Merged.t))
    (result : string * outcome (list Candidate.t)) : list (Z * Merged.t) :=
  match snd result with
  | Ok engine_recommendations =>
      fold_left (add_recommendation (fst result)) engine_recommendations all_recommendations
  | Raise _ => all_recommendations
  end.

Definition weights : list (string * Q) :=
  [ ("collaborative", 0.4%Q); ("content", 0.35%Q); ("popularity", 0.25%Q) ].

(** The loop [for engine_name, score in data['scores'].items()], returning
    [(combined_score, total_weight)]. *)
Definition weighted_sums (scores : list (string * Q)) : Q * Q :=
  fold_left
    (fun acc entry =>
       let weight := dict_get String.eqb weights (fst entry) 0.1%Q in
       ((fst acc + snd entry * weight)%Q, (snd acc + weight)%Q))
    scores (0%Q, 0%Q).

Definition combined_score (scores : list (string * Q)) : Q :=
  let '(combined, total_weight) := weighted_sums scores in
  if Qlt_bool 0 total_weight then (combined / total_weight)%Q else combined.

(** [HybridRecommendationEngine._combine_explanations] *)
Definition _combine_explanations (explanations : list string) : string :=
  match explanations with
  | [] => "Recommended for you"
  | _ :: _ =>
      match distinct String.eqb explanations with
      | [] => EmptyString
      | [e] => e
      | e1 :: e2 :: _ => String.concat EmptyString [e1; " and "; lower e2]
      end
  end.

(** [HybridRecommendationEngine.get_recommendations] over the dict
    [self.engines]. *)
Definition HybridRecommendationEngine (engines : list (string * Engine)) : Engine :=
  fun now user_id session_id max_results context db =>
    let all_recommendations :=
      fold_left add_engine
        (map (fun e => (fst e, snd e now user_id session_id (max_results * 2)%nat context db))
             engines)
        [] in
    let final_recommendations :=
      sort_desc (fun rec => fst (snd rec))
        (map (fun entry =>
                (Merged.product (snd entry),
                 (combined_score (Merged.scores (snd entry)),
                  Merged.explanations (snd entry))))
             all_recommendations) in
    Ok (map (fun entry : Z * (Product.t * (Q * list string)) =>
               let '(rank, rec) := entry in
               Candidate.mk (fst rec) (fst (snd rec)) rank
                 (_combine_explanations (snd (snd rec))))
            (enumerate_from 1 (firstn max_results final_recommendations))).

(** [self.engines] as built by [HybridRecommendationEngine.__init__] *)
Definition engines (store : Z) : list (string * Engine) :=
  [ ("popularity", PopularityBasedEngine store);
    ("collaborative", CollaborativeFilteringEngine store);
    ("content", ContentBasedEngine store) ].

(* ------------------------------------------------------------------ *)
(** ** recommendations/services.py: the recommendation service *)

(** The engine [RecommendationService.get_recommendations] runs for
    [algorithm]. *)
Definition select_engine (store : Z) (algorithm : option string) : Engine :=
  let a := or_default algorithm "hybrid" in
  if String.eqb a "hybrid" then HybridRecommendationEngine (engines store)
  else if String.eqb a "popularity" then PopularityBasedEngine store
  else if String.eqb a "collaborative_filtering" then CollaborativeFilteringEngine store
  else if String.eqb a "content_based" then ContentBasedEngine store
  else HybridRecommendationEngine (engines store).

(** The lookup of [Recommendation.objects.get_or_create]: the five columns
    of [unique_together]. *)
Definition same_key (store : Z) (user_id : option Z) (session_id : string)
    (product : Z) (algorithm : string) (r : Recommendation.t) : bool :=
  (Recommendation.store r =? store)
  && option_eqb Z.eqb (Recommendation.user r) user_id
  && String.eqb (Recommendation.session_id r) session_id
  && (Recommendation.product r =? product)
  && String.eqb (Recommendation.algorithm r) algorithm.

(** Does the foreign key [user_id] point at a stored user? *)
Definition user_fk_ok (user_id : option Z) (db : Database) : bool :=
  match user_id with
  | None => true
  | Some k => existsb (fun u => User.id u =? k) (users db)
  end.

(** The body of [for rec in recommendations] in
    [RecommendationService.get_recommendations]: the upsert of one ranked
    candidate.  [user_id] is the value of the [user] foreign-key column. *)
Definition store_recommendation (now store : Z) (user_id : option Z)
    (session_id algorithm : option string) (context : list (string * string))
    (rec : Candidate.t) : M Recommendation.t :=
  let session := or_default session_id EmptyString in
  let algo := or_default algorithm "hybrid" in
  let product_id := Product.id (Candidate.product rec) in
  db <- get_db ;;
  let '(res, t) :=
    get_or_create (same_key store user_id session product_id algo)
      (user_fk_ok user_id db)
      (Recommendation.mk 0 store user_id session product_id algo
         (Candidate.score rec) (Candidate.rank rec) context
         (Candidate.explanation rec) 0 0 0 now (Some (now + hours 24)))
      (recommendations db) in
  put_db (set_recommendations t db) ;;;
  found <- lift res ;;
  let '(stored_rec, created) := found in
  if created : bool then ret stored_rec
  else
    let stored_rec :=
      Recommendation.set_ranking (Candidate.score rec) (Candidate.rank rec)
        (Candidate.explanation rec) context (Some (now + hours 24)) stored_rec in
    db <- get_db ;;
    put_db (set_recommendations (save_row stored_rec (recommendations db)) db) ;;;
    ret stored_rec.

(** The value the ORM gives the [user] column for the argument [user_id]:
    the text is read as an integer key. *)
Definition user_column (user_id : option string) : outcome (option Z) :=
  match user_id with
  | None => Ok None
  | Some s =>
      match NilZero.int_of_string s with
      | Some k => Ok (Some (Z.of_int k))
      | None => Raise ValueError
      end
  end.

(** [RecommendationService.get_recommendations] *)
Definition get_recommendations (store now : Z) (user_id session_id : option string)
    (max_results : nat) (context : list (string * string))
    (algorithm : option string) : M (list Recommendation.t) :=
  db <- get_db ;;
  recommendations <-
    lift (select_engine store algorithm now user_id session_id max_results context db) ;;
  map_M (fun rec =>
           user <- lift (user_column user_id) ;;
           store_recommendation now store user session_id algorithm context rec)
        recommendations.

(* ------------------------------------------------------------------ *)
(** ** recommendations/tasks.py: trending products *)

Definition windows : list (string * Z) :=
  [ ("1h", hours 1); ("6h", hours 6); ("24h", hours 24); ("7d", days 7) ].

(** The queryset [trending_data] of one window. *)
Definition trending_data (now store time_delta : Z) (db : Database) : list TrendingRow.t :=
  let since_date := now - time_delta in
  firstn 50
    (order_by_desc (fun item => inject_Z (TrendingRow.interaction_count item))
       (map (fun g =>
               TrendingRow.mk (fst g)
                 (count_all (snd g))
                 (count_if is_purchase (snd g))
                 (count_if (fun i => now - time_delta / 2 <=? Interaction.created_at i) (snd g)))
          (group_by (option_eqb Z.eqb) Interaction.product
             (filter (fun i => (Interaction.store i =? store)
                               && (since_date <=? Interaction.created_at i)
                               && is_some (Interaction.product i))
                     (interactions db))))).

Definition trending_score (item : TrendingRow.t) : Z :=
  let base_score := TrendingRow.interaction_count item in
  let purchase_boost := TrendingRow.purchase_count item * 5 in
  let velocity_boost := TrendingRow.velocity item * 2 in
  base_score + purchase_boost + velocity_boost.

Definition trending_velocity (item : TrendingRow.t) : Q :=
  (inject_Z (TrendingRow.velocity item)
   / inject_Z (Z.max (TrendingRow.interaction_count item) 1))%Q.

(** The lookup of [TrendingProduct.objects.update_or_create]: the three
    columns of [unique_together]. *)
Definition trending_key (store product : Z) (window_name : string)
    (r : TrendingProduct.t) : bool :=
  (TrendingProduct.store r =? store)
  && (TrendingProduct.product r =? product)
  && String.eqb (TrendingProduct.calculation_window r) window_name.

(** The body of [for idx, item in enumerate(trending_data)]; [rank] is
    [idx + 1]. *)
Definition store_trending (now store : Z) (window_name : string)
    (entry : Z * TrendingRow.t) : M unit :=
  let '(rank, item) := entry in
  db <- get_db ;;
  match get_product (TrendingRow.product item) db with
  | None => ret tt
  | Some product =>
      let '(res, t) :=
        update_or_create
          (trending_key store (Product.id product) window_name)
          (TrendingProduct.set_defaults (inject_Z (trending_score item))
             (trending_velocity item) rank)
          (TrendingProduct.mk 0 store (Product.id product) 0 0 0 window_name now)
          (trending_products db) in
      put_db (set_trending_products t db) ;;;
      _ <- lift res ;;
      ret tt
  end.

(** [calculate_trending_products(store_id)] *)
Definition calculate_trending_products (now store_id : Z) : M string :=
  db <- get_db ;;
  if existsb (Z.eqb store_id) (stores db) then
    for_each windows
      (fun w =>
         db <- get_db ;;
         for_each (enumerate_from 1 (trending_data now store_id (snd w) db))
                  (store_trending now store_id (fst w))) ;;;
    ret (String.concat EmptyString ["Trending products calculated for store "; string_of_Z store_id])
  else
    ret (String.concat EmptyString ["Store "; string_of_Z store_id; " not found"]).

(* ------------------------------------------------------------------ *)
(** ** interactions/tasks.py: the behaviour profile *)

(** The lookup of [UserBehaviorProfile.objects.get_or_create]. *)
Definition profile_key (user : User.t) (p : UserBehaviorProfile.t) : bool :=
  (UserBehaviorProfile.store p =? User.store user)
  && (UserBehaviorProfile.user p =? User.id user).

(** [user.sessions], line 30 of the task.  [User] has no field of that
    name, and the foreign keys to [User] under [src/] name its reverse
    accessors [login_sessions], [preferences], [interactions_sessions],
    [interactions], [behavior_profile], [recommendations],
    [recommendation_profile] and [recommendation_feedback]: the attribute
    lookup raises [AttributeError], and there is no related manager it
    could return. *)
Definition user_sessions (user : User.t) : outcome Empty_set :=
  Raise AttributeError.

(** [update_user_behavior_profile(user_id)].  The counts of lines 24-27 are
    assigned to the instance in memory only.  The one [except] clause
    catches [User.DoesNotExist], so the [AttributeError] of line 30 leaves
    the task, and lines 31-100 (session metrics, preferences, labels and
    [profile.save()]) are not reached on any run. *)
Definition update_user_behavior_profile (user_id : Z) : M unit :=
  db <- get_db ;;
  match objects_get (fun u => User.id u =? user_id) (users db) with
  | Raise (DoesNotExist UserModel) => ret tt
  | Raise e => lift (Raise e)
  | Ok user =>
      let '(res, t) :=
        get_or_create (profile_key user) true
          (UserBehaviorProfile.default (User.store user) (User.id user))
          (user_behavior_profiles db) in
      put_db (set_user_behavior_profiles t db) ;;;
      found <- lift res ;;
      sessions <- lift (user_sessions user) ;;
      match sessions return M unit with end
  end.

(* ------------------------------------------------------------------ *)
(** ** recommendations/tasks.py: garbage collection *)

(** The filter of [cleanup_old_recommendations]:
    [Q(created_at__lt=cutoff_date) | Q(expires_at__lt=timezone.now())];
    a row without expiry date never satisfies the second test. *)
Definition is_old_or_expired (now : Z) (r : Recommendation.t) : bool :=
  (Recommendation.created_at r <? now - days 30)
  || match Recommendation.expires_at r with
     | Some e => e <? now
     | None => false
     end.

(** [cleanup_old_recommendations()], as it acts on the recommendations
    table.  Deleting a recommendation also deletes, by cascade, the
    [RecommendationFeedback] rows that point at it
    ([on_delete=models.CASCADE]); that table is not part of this embedding,
    and the message, which counts the rows deleted in both tables, is left
    out. *)
Definition cleanup_old_recommendations (now : Z) : M unit :=
  db <- get_db ;;
  put_db (set_recommendations
            (mkTable (filter (fun r => negb (is_old_or_expired now r))
                             (rows (recommendations db)))
                     (next_id (recommendations db)))
            db).

(** [cleanup_old_interactions()] of interactions/tasks.py: the interactions
    older than 730 days are deleted and counted in the message.  No model
    has a foreign key to [Interaction], so nothing else is deleted. *)
Definition cleanup_old_interactions (now : Z) : M string :=
  db <- get_db ;;
  let cutoff_date := now - days 730 in
  let old := fun i => Interaction.created_at i <? cutoff_date in
  let deleted_count := count_if old (interactions db) in
  put_db (set_interactions (filter (fun i => negb (old i)) (interactions db)) db) ;;;
  ret (String.concat EmptyString
         ["Deleted "; string_of_Z deleted_count; " old interactions"]).

(* ------------------------------------------------------------------ *)
(** ** recommendations/views.py: reading recommendations *)

(** The test [Q(expires_at__isnull=True) | Q(expires_at__gt=timezone.now())] *)
Definition is_active_at (now : Z) (r : Recommendation.t) : bool :=
  match Recommendation.expires_at r with
  | None => true
  | Some e => now <? e
  end.

(** [RecommendationViewSet.get_queryset]: [active_only] is the query
    parameter of that name, absent or a text.  The rows come in the order of
    [Meta.ordering], score descending first. *)
Definition get_queryset (now store : Z) (active_only : option string) (db : Database)
    : list Recommendation.t :=
  let queryset :=
    filter (fun r => Recommendation.store r =? store) (rows (recommendations db)) in
  let active_only :=
    String.eqb (lower (match active_only with Some v => v | None => "true" end)) "true" in
  order_by_desc Recommendation.score
    (if active_only then filter (is_active_at now) queryset else queryset).

(* ------------------------------------------------------------------ *)
(** ** Reference definitions, written from the specification *)

(** The engagement-weight table of the data model, as the specification
    lists it. *)
Definition spec_engagement_weight (interaction_type : string) : Q :=
  if String.eqb interaction_type "purchase" then 5.0%Q
  else if String.eqb interaction_type "cart_add" then 2.0%Q
  else if String.eqb interaction_type "review" then 3.0%Q
  else if String.eqb interaction_type "wishlist_add" then 1.5%Q
  else if String.eqb interaction_type "detail_view" then 0.5%Q
  else if String.eqb interaction_type "click" then 0.3%Q
  else if String.eqb interaction_type "like" then 1.0%Q
  else if String.eqb interaction_type "dislike" then 0.5%Q
  else if String.eqb interaction_type "view" then 0.1%Q
  else 1.0%Q.

(** Invariant of a table: primary keys are unique and below the next
    value of the sequence. *)
Definition table_wf {A : Type} `{Model A} (t : Table A) : Prop :=
  NoDup (map pk (rows t)) /\ forall r, In r (rows t) -> pk r < next_id t.

Definition same_counters (r r' : Recommendation.t) : Prop :=
  Recommendation.shown_count r' = Recommendation.shown_count r
  /\ Recommendation.click_count r' = Recommendation.click_count r
  /\ Recommendation.purchase_count r' = Recommendation.purchase_count r.

Definition zero_counters (r : Recommendation.t) : Prop :=
  Recommendation.shown_count r = 0
  /\ Recommendation.click_count r = 0
  /\ Recommendation.purchase_count r = 0.

(** The ranking fields of [r] are those of the candidate [rec], stored at
    time [now]. *)
Definition ranked_as (rec : Candidate.t) (context : list (string * string))
    (now : Z) (r : Recommendation.t) : Prop :=
  Recommendation.score r = Candidate.score rec
  /\ Recommendation.rank r = Candidate.rank rec
  /\ Recommendation.explanation r = Candidate.explanation rec
  /\ Recommendation.context r = context
  /\ Recommendation.expires_at r = Some (now + hours 24).

(** The score an engine's output gives product [pid]: of several entries
    for one product the last is kept. *)
Definition engine_score (pid : Z) (recs : list Candidate.t) : option Q :=
  fold_left (fun acc rec =>
               if Product.id (Candidate.product rec) =? pid
               then Some (Candidate.score rec) else acc)
            recs None.

(** The generators that proposed product [pid], in the order of the engine
    dict, each with its score; a generator that raised contributes nothing. *)
Definition contributions (pid : Z)
    (results : list (string * outcome (list Candidate.t))) : list (string * Q) :=
  flat_map (fun res =>
              match snd res with
              | Ok recs =>
                  match engine_score pid recs with
                  | Some s => [(fst res, s)]
                  | None => []
                  end
              | Raise _ => []
              end)
           results.

(** The combiner weights, as the specification lists them. *)
Definition spec_weight (generator : string) : Q :=
  if String.eqb generator "collaborative" then 0.40%Q
  else if String.eqb generator "content" then 0.35%Q
  else if String.eqb generator "popularity" then 0.25%Q
  else 0.1%Q.

(** Weighted average of the contributing scores, normalised by the weights
    present. *)
Definition spec_weighted_average (scores : list (string * Q)) : Q :=
  (sum_Q (map (fun e => snd e * spec_weight (fst e)) scores)
   / sum_Q (map (fun e => spec_weight (fst e)) scores))%Q.

(** The [scores] dict [all_recommendations] holds for product [pid]. *)
Definition scores_of (all_recommendations : list (Z * Merged.t)) (pid : Z)
    : list (string * Q) :=
  match dict_find Z.eqb all_recommendations pid with
  | Some data => Merged.scores data
  | None => []
  end.

(** Invariant of [all_recommendations]: one entry per product id, filed
    under the id of its product, with at least one score. *)
Definition merged_inv (all_recommendations : list (Z * Merged.t)) : Prop :=
  NoDup (map fst all_recommendations)
  /\ forall pid data,
       dict_find Z.eqb all_recommendations pid = Some data ->
       Product.id (Merged.product data) = pid /\ Merged.scores data <> [].

(** The trending entries stored under a key. *)
Definition trending_entries (t : Table TrendingProduct.t) (store product : Z)
    (window_name : string) : list TrendingProduct.t :=
  filter (trending_key store product window_name) (rows t).

(** Invariant of the trending table: well-formed keys, and at most one
    entry per (store, product, window). *)
Definition trending_inv (t : Table TrendingProduct.t) : Prop :=
  table_wf t
  /\ forall store product window_name,
       (List.length (trending_entries t store product window_name) <= 1)%nat.

(** Every product an interaction points at is stored. *)
Definition referential_integrity (db : Database) : Prop :=
  forall i pid,
    In i (interactions db) -> Interaction.product i = Some pid ->
    exists p, In p (products db) /\ Product.id p = pid.

(** The interactions of a store with product [pid] inside the window that
    starts at [since_date]. *)
Definition window_interactions (store since_date pid : Z) (db : Database)
    : list Interaction.t :=
  filter (fun i => option_eqb Z.eqb (Interaction.product i) (Some pid))
    (filter (fun i => (Interaction.store i =? store)
                      && (since_date <=? Interaction.created_at i)
                      && is_some (Interaction.product i))
            (interactions db)).

(** The products of a store that have an interaction inside the window
    that starts at [since_date], each once. *)
Definition window_products (store since_date : Z) (db : Database) : list (option Z) :=
  distinct (option_eqb Z.eqb)
    (map Interaction.product
       (filter (fun i => (Interaction.store i =? store)
                         && (since_date <=? Interaction.created_at i)
                         && is_some (Interaction.product i))
               (interactions db))).

(* ------------------------------------------------------------------ *)
(** ** Vocabulary of the properties *)

(** An ASCII letter, and a text that holds one: Python's [int] rejects
    such a text. *)
Definition is_letter (c : ascii) : bool :=
  let n := nat_of_ascii c in
  ((65 <=? n) && (n <=? 90) || (97 <=? n) && (n <=? 122))%nat.

Fixpoint has_letter (s : string) : bool :=
  match s with
  | EmptyString => false
  | String c s' => is_letter c || has_letter s'
  end.

(** Invariant of a table with a unique key: well-formed primary keys, and
    at most one row under each value of the key. *)
Definition keyed_inv {A K : Type} `{Model A} (lookup : K -> A -> bool)
    (t : Table A) : Prop :=
  table_wf t /\ forall k, (List.length (filter (lookup k) (rows t)) <= 1)%nat.

(** The key of [Recommendation]: [unique_together]. *)
Definition recommendation_lookup (k : Z * option Z * string * Z * string)
    (r : Recommendation.t) : bool :=
  let '(store, user_id, session_id, product, algorithm) := k in
  same_key store user_id session_id product algorithm r.

(** The key of [UserRecommendationProfile]: [unique_together]. *)
Definition recommendation_profile_lookup (k : Z * Z)
    (p : UserRecommendationProfile.t) : bool :=
  (UserRecommendationProfile.store p =? fst k)
  && (UserRecommendationProfile.user p =? snd k).

(** The key of [UserBehaviorProfile]: [unique_together]. *)
Definition behavior_profile_lookup (k : Z * Z) (p : UserBehaviorProfile.t) : bool :=
  (UserBehaviorProfile.store p =? fst k) && (UserBehaviorProfile.user p =? snd k).

(** The recommendations of a user, as [user.recommendations] selects them. *)
Definition recommendations_of (user : User.t) (db : Database) : list Recommendation.t :=
  filter (fun r => option_eqb Z.eqb (Recommendation.user r) (Some (User.id user)))
         (rows (recommendations db)).

(** The foreign keys from recommendations to users resolve. *)
Definition users_resolve (db : Database) : Prop :=
  forall r uid,
    In r (rows (recommendations db)) -> Recommendation.user r = Some uid ->
    exists u, In u (users db) /\ User.id u = uid.

(* ------------------------------------------------------------------ *)
(** ** Concrete stores used as examples *)

(** One order the database may return: the stable sort of the rows as
    grouped. *)
Definition stable_order : forall A : Type, (A -> Q) -> list A -> list A :=
  fun A => @sort_desc A.

(** Another order the database may return: ties come back in the reverse
    of the order in which the rows were grouped. *)
Definition reversed_order : forall A : Type, (A -> Q) -> list A -> list A :=
  fun A key l => sort_desc key (rev l).

Definition empty_table {A : Type} : Table A := mkTable [] 1.

Definition example_user : User.t := User.mk 7 1 "u7".
Definition P1 : Product.t := Product.mk 1 1 "books" (Some 50%Q).
Definition P2 : Product.t := Product.mk 2 1 "toys" None.

Definition example_interaction (id : Z) (user : option Z) (product : Z)
    (interaction_type : string) (value : Q) (created_at : Z) : Interaction.t :=
  Interaction.save [P1; P2]
    (Interaction.mk id 1 user (Some product) interaction_type value 1.0%Q
       None EmptyString created_at).

Definition example_db (l : list Interaction.t) : Database :=
  mkDatabase [1] [example_user] [P1; P2] [] l
             empty_table empty_table empty_table empty_table.

(** The user of the scenario: two views and one purchase of 50 on P1. *)
Definition scenario_db : Database :=
  example_db [ example_interaction 1 (Some 7) 1 "view" 1.0%Q 100;
               example_interaction 2 (Some 7) 1 "view" 1.0%Q 200;
               example_interaction 3 (Some 7) 1 "purchase" 50%Q 300 ].

(** Two users of tenant 1: user 7 viewed P1; user 8 viewed P1 and bought
    P2. *)
Definition neighbour_db : Database :=
  mkDatabase [1] [example_user; User.mk 8 1 "u8"] [P1; P2] []
    [ example_interaction 1 (Some 7) 1 "view" 1.0%Q 100;
      example_interaction 2 (Some 8) 1 "view" 1.0%Q 200;
      example_interaction 3 (Some 8) 2 "purchase" 30%Q 300 ]
    empty_table empty_table empty_table empty_table.

Definition example_now : Z := 1000000000000.

(** Three views of P1 fifty minutes ago, two purchases of P2 ten minutes
    ago. *)
Definition trending_db : Database :=
  example_db [ example_interaction 1 None 1 "view" 1.0%Q (example_now - 3000000000);
               example_interaction 2 None 1 "view" 1.0%Q (example_now - 3000000000);
               example_interaction 3 None 1 "view" 1.0%Q (example_now - 3000000000);
               example_interaction 4 None 2 "purchase" 30%Q (example_now - 600000000);
               example_interaction 5 None 2 "purchase" 30%Q (example_now - 600000000) ].

(** Three years after the trending example. *)
Definition later_now : Z := example_now + days 1095.

(** The store of the trending example by then, with one more view of P2
    made ninety-five days before. *)
Definition aged_db : Database :=
  example_db
    (interactions trending_db
     ++ [example_interaction 6 None 2 "view" 1.0%Q (later_now - days 95)]).

(** Eleven products in eleven categories, liked once each by user 7, the
    categories met in the order k, j, ..., a. *)
Definition tie_categories : list string :=
  ["k"; "j"; "i"; "h"; "g"; "f"; "e"; "d"; "c"; "b"; "a"].

Definition ties_db : Database :=
  mkDatabase [1] [example_user]
    (map (fun e => Product.mk (fst e) 1 (snd e) None) (enumerate_from 1 tie_categories))
    []
    (map (fun e => Interaction.mk (fst e) 1 (Some 7) (Some (fst e)) "like" 1.0%Q 1.0%Q
                     None (snd e) (100 + fst e))
         (enumerate_from 1 tie_categories))
    empty_table empty_table empty_table empty_table.

(** A recommendation shown three times and clicked once. *)
Definition shown_thrice : Recommendation.t :=
  Recommendation.mk 1 1 None "s1" 1 "hybrid" 0.5%Q 1 [] EmptyString 3 1 0 0 None.

Definition example_candidate : Candidate.t :=
  Candidate.mk P1 0.5%Q 1 "Popular item with 3 interactions".

Definition constant_engine (out : outcome (list Candidate.t)) : Engine :=
  fun _ _ _ _ _ _ => out.

Definition example_engines : list (string * Engine) :=
  [ ("popularity", constant_engine (Ok [Candidate.mk P1 0.5%Q 1 "Popular";
                                        Candidate.mk P2 0.2%Q 2 "Popular"]));
    ("collaborative", constant_engine (Ok [Candidate.mk P2 0.9%Q 1 "Similar users"]));
    ("content", constant_engine (Raise OtherError)) ].

(** A recommendation of user 7 that has not been shown yet, and a store
    that holds it. *)
Definition user_recommendation : Recommendation.t :=
  Recommendation.mk 1 1 (Some 7) EmptyString 1 "hybrid" 0.5%Q 1 [] EmptyString
    0 0 0 0 None.

Definition feedback_db : Database :=
  mkDatabase [1] [example_user] [P1; P2] [] []
             (mkTable [user_recommendation] 2) empty_table empty_table empty_table.

(** Two models of one tenant and type, the first active, and a model of
    another tenant. *)
Definition example_models : list MLModel.t :=
  [ MLModel.mk 1 1 "collaborative_filtering" "20240101_000000" "active" true;
    MLModel.mk 2 1 "collaborative_filtering" "20240201_000000" "ready" false;
    MLModel.mk 3 2 "collaborative_filtering" "20240101_000000" "active" true ].

(** A content engine that proposes nothing. *)
Definition no_content_engine : Z -> Engine := fun _ => constant_engine (Ok []).

(** A view of P1 by user 7, before its first save. *)
Definition unsaved_view : Interaction.t :=
  Interaction.mk 1 1 (Some 7) (Some 1) "view" 1.0%Q 1.0%Q None EmptyString 100.

(* ================================================================== *)
(** * Properties *)

(* ------------------------------------------------------------------ *)
(** ** Engagement weights *)

Lemma weight_map_is_spec_table :
  forall ty : string,
    dict_get String.eqb Interaction.weight_map ty 1.0%Q = spec_engagement_weight ty.
Proof.
  intros ty. unfold dict_get, spec_engagement_weight, Interaction.weight_map.
  cbn [dict_find].
  repeat match goal with
         | |- context [String.eqb ty ?s] =>
             destruct (String.eqb_spec ty s) as [-> | _]; [reflexivity |]
         end.
  reflexivity.
Qed.

Lemma save_keeps_interaction_type :
  forall products self,
    Interaction.interaction_type (Interaction.save products self)
    = Interaction.interaction_type self.
Proof.
  intros products self. unfold Interaction.save.
  destruct (Interaction.product self) as [pid |]; [| reflexivity].
  destruct (find _ products); [| reflexivity].
  destruct (String.eqb _ _); reflexivity.
Qed.

Lemma save_weight :
  forall products self,
    Interaction.weight (Interaction.save products self)
    = dict_get String.eqb Interaction.weight_map (Interaction.interaction_type self) 1.0%Q.
Proof.
  intros products self. unfold Interaction.save.
  destruct (Interaction.product self) as [pid |]; [| reflexivity].
  destruct (find _ products); [| reflexivity].
  destruct (String.eqb _ _); reflexivity.
Qed.

(** C4. The weight [Interaction.save] stores is the table value of the
    interaction type (purchase 5.0, cart_add 2.0, review 3.0, wishlist_add
    1.5, detail_view 0.5, click 0.3, like 1.0, dislike 0.5, view 0.1, any
    other type 1.0); it is recomputed by every save, whatever weight the
    instance carried before, and two saves of interactions of the same type
    store the same weight. *)
Theorem engagement_weight_function_of_type :
  forall products self,
    Interaction.weight (Interaction.save products self)
    = spec_engagement_weight (Interaction.interaction_type self)
    /\ Interaction.interaction_type (Interaction.save products self)
       = Interaction.interaction_type self
    /\ (forall w, Interaction.weight
                    (Interaction.save products (Interaction.set_weight w self))
                  = Interaction.weight (Interaction.save products self))
    /\ (forall products' self',
          Interaction.interaction_type self' = Interaction.interaction_type self ->
          Interaction.weight (Interaction.save products' self')
          = Interaction.weight (Interaction.save products self)).
Proof.
  intros products self. repeat split.
  - rewrite save_weight. apply weight_map_is_spec_table.
  - apply save_keeps_interaction_type.
  - intros w. rewrite !save_weight. reflexivity.
  - intros products' self' Hty. rewrite !save_weight, Hty. reflexivity.
Qed.

(* ------------------------------------------------------------------ *)
(** ** Click-through and conversion rates *)

(** C6 (as amended). The rates read from a recommendation are percentages:
    [click_count / shown_count * 100] and [purchase_count / shown_count *
    100]; both are 0 when [shown_count = 0], where no division takes
    place. *)
Theorem rates_are_percentages :
  forall r : Recommendation.t,
    (Recommendation.shown_count r = 0 ->
       Recommendation.click_through_rate r = 0.0%Q
       /\ Recommendation.conversion_rate r = 0.0%Q)
    /\ (Recommendation.shown_count r <> 0 ->
          (Recommendation.click_through_rate r
           == inject_Z (Recommendation.click_count r)
              / inject_Z (Recommendation.shown_count r) * 100)%Q
          /\ (Recommendation.conversion_rate r
              == inject_Z (Recommendation.purchase_count r)
                 / inject_Z (Recommendation.shown_count r) * 100)%Q).
Proof.
  intros r. unfold Recommendation.click_through_rate, Recommendation.conversion_rate.
  split; intros H.
  - rewrite H. split; reflexivity.
  - apply Z.eqb_neq in H. rewrite H. split; reflexivity.
Qed.

(* ------------------------------------------------------------------ *)
(** ** Feedback on an unknown recommendation *)

Lemma filter_none :
  forall (A : Type) (f : A -> bool) (l : list A),
    (forall x, In x l -> f x = false) -> filter f l = [].
Proof.
  intros A f l. induction l as [| x l IH]; intros H; [reflexivity |].
  cbn. rewrite (H x (or_introl eq_refl)). apply IH.
  intros y Hy. apply H. right. exact Hy.
Qed.

Lemma unknown_recommendation :
  forall (recommendation_id : Z) (db : Database),
    (forall r, In r (rows (recommendations db)) ->
               Recommendation.id r <> recommendation_id) ->
    objects_get (fun r => Recommendation.id r =? recommendation_id)
                (rows (recommendations db))
    = Raise (DoesNotExist RecommendationModel).
Proof.
  intros rid db H. unfold objects_get.
  rewrite filter_none; [reflexivity |].
  intros r Hr. apply Z.eqb_neq. apply H. exact Hr.
Qed.

(** C10. For an id that matches no stored recommendation,
    [record_impression] and [record_click] return normally and leave the
    whole database (every recommendation with its counters, every user
    recommendation profile) as it was. *)
Theorem feedback_on_unknown_id_is_noop :
  forall (now recommendation_id : Z) (db : Database),
    (forall r, In r (rows (recommendations db)) ->
               Recommendation.id r <> recommendation_id) ->
    record_impression now recommendation_id db = (Ok tt, db)
    /\ record_click now recommendation_id db = (Ok tt, db).
Proof.
  intros now rid db H.
  unfold record_impression, record_click, try_except, bind, get_db, lift.
  rewrite unknown_recommendation by exact H. cbn. split; reflexivity.
Qed.

(* ------------------------------------------------------------------ *)
(** ** Collaborative filtering without history *)

(** C9. The collaborative generator returns the empty list, and raises
    nothing, when no user id is given, when the id names no user of the
    store, and when it names a user who has no interaction. *)
Theorem collaborative_empty_without_history :
  forall (store now : Z) (user_id session_id : option string) (max_results : nat)
         (context : list (string * string)) (db : Database),
    user_id = None
    \/ (exists uid, user_id = Some uid
                    /\ forall u, In u (users db) -> User.store u = store ->
                                 User.user_id u <> uid)
    \/ (exists uid user,
          user_id = Some uid
          /\ filter (fun u => (User.store u =? store) && String.eqb (User.user_id u) uid)
                    (users db) = [user]
          /\ forall i, In i (interactions db) ->
                       Interaction.user i <> Some (User.id user)) ->
    CollaborativeFilteringEngine store now user_id session_id max_results context db
    = Ok [].
Proof.
  intros store now user_id session_id max_results context db H.
  unfold CollaborativeFilteringEngine.
  destruct H as [-> | [(uid & -> & Hnone) | (uid & user & -> & Hone & Hno)]].
  - reflexivity.
  - destruct uid as [| a s]; [reflexivity |].
    unfold objects_get. rewrite filter_none; [reflexivity |].
    intros u Hu. apply andb_false_iff.
    destruct (Z.eqb_spec (User.store u) store) as [Hs | Hs]; [right | left; reflexivity].
    apply String.eqb_neq. apply Hnone; assumption.
  - destruct uid as [| a s]; [reflexivity |].
    unfold objects_get. rewrite Hone.
    rewrite filter_none; [reflexivity |].
    intros i Hi. specialize (Hno i Hi).
    destruct (Interaction.user i) as [k |]; cbn; [| reflexivity].
    apply Z.eqb_neq. intros ->. apply Hno. reflexivity.
Qed.

(* ------------------------------------------------------------------ *)
(** ** The recommendation upsert *)

Lemma map_unchanged :
  forall (A : Type) (f : A -> A) (l : list A),
    (forall x, In x l -> f x = x) -> map f l = l.
Proof.
  intros A f l. induction l as [| x l IH]; intros H; [reflexivity |].
  cbn. rewrite (H x (or_introl eq_refl)). f_equal. apply IH.
  intros y Hy. apply H. right. exact Hy.
Qed.

Lemma filter_singleton_In :
  forall (A : Type) (f : A -> bool) (l : list A) (r : A),
    filter f l = [r] -> In r l /\ f r = true.
Proof.
  intros A f l r H. apply filter_In. rewrite H. left. reflexivity.
Qed.

Section SaveRow.
Context {A : Type} `{Model A}.

Lemma save_row_rows :
  forall (self : A) (t : Table A),
    rows (save_row self t)
    = map (fun r => if pk r =? pk self then self else r) (rows t).
Proof. reflexivity. Qed.

(** Writing back a row leaves it the only row of its lookup. *)
Lemma save_row_filter :
  forall (key : A -> bool) (l : list A) (r r' : A),
    NoDup (map pk l) ->
    filter key l = [r] ->
    key r' = true ->
    pk r' = pk r ->
    filter key (map (fun x => if pk x =? pk r' then r' else x) l) = [r'].
Proof.
  intros key l r r' Hnd Hf Hk Hpk. rewrite Hpk.
  induction l as [| x l IH]; [discriminate |].
  inversion Hnd as [| ? ? Hnotin Hnd']; subst.
  cbn in Hf. cbn [map].
  destruct (key x) eqn:Hkx.
  - injection Hf as -> Hrest.
    rewrite Z.eqb_refl. cbn. rewrite Hk. f_equal.
    rewrite map_unchanged; [exact Hrest |].
    intros y Hy. destruct (Z.eqb_spec (pk y) (pk r)) as [E | _]; [| reflexivity].
    exfalso. apply Hnotin. rewrite <- E. apply in_map. exact Hy.
  - destruct (filter_singleton_In _ _ Hf) as [Hin _].
    destruct (Z.eqb_spec (pk x) (pk r)) as [E | _].
    + exfalso. apply Hnotin. rewrite E. apply in_map. exact Hin.
    + cbn. rewrite Hkx. apply IH; assumption.
Qed.

Lemma save_row_wf :
  forall (t : Table A) (r r' : A),
    table_wf t -> pk r' = pk r -> In r (rows t) -> table_wf (save_row r' t).
Proof.
  intros t r r' [Hnd Hlt] Hpk Hin. split.
  - rewrite save_row_rows, map_map.
    erewrite map_ext; [exact Hnd |].
    intros x. cbn. destruct (Z.eqb_spec (pk x) (pk r')) as [E | _]; congruence.
  - intros x Hx. rewrite save_row_rows in Hx. apply in_map_iff in Hx.
    destruct Hx as (y & Hy & Hyin). cbn.
    destruct (Z.eqb_spec (pk y) (pk r')) as [E | _]; subst x.
    + rewrite Hpk. apply Hlt. exact Hin.
    + apply Hlt. exact Hyin.
Qed.

Lemma objects_create_wf :
  forall (t : Table A) (new_row : A),
    (forall k a, pk (with_pk k a) = k) ->
    table_wf t ->
    table_wf (mkTable (rows t ++ [with_pk (next_id t) new_row]) (next_id t + 1)).
Proof.
  intros t new_row Hpk [Hnd Hlt]. split; cbn.
  - rewrite map_app. cbn. rewrite Hpk.
    apply NoDup_app; [exact Hnd | constructor; [intros [] | constructor] |].
    intros k Hk [E | []]. subst k.
    apply in_map_iff in Hk. destruct Hk as (y & Hy & Hyin).
    specialize (Hlt y Hyin). lia.
  - intros x Hx. apply in_app_or in Hx. destruct Hx as [Hx | [<- | []]].
    + specialize (Hlt x Hx). lia.
    + rewrite Hpk. lia.
Qed.
End SaveRow.

Lemma same_key_refl_new :
  forall store user_id session product algo k s r c e sc cc pc ca x,
    same_key store user_id session product algo
      (Recommendation.set_id k
         (Recommendation.mk 0 store user_id session product algo s r c e sc cc pc ca x))
    = true.
Proof.
  intros. unfold same_key. cbn.
  rewrite !Z.eqb_refl, !String.eqb_refl.
  destruct user_id as [u |]; cbn; [rewrite Z.eqb_refl |]; reflexivity.
Qed.

Lemma same_key_set_ranking :
  forall store user_id session product algo s k e c x r,
    same_key store user_id session product algo
      (Recommendation.set_ranking s k e c x r)
    = same_key store user_id session product algo r.
Proof. reflexivity. Qed.

(** One upsert on a well-formed table whose lookup meets at most one row. *)
Lemma store_recommendation_spec :
  forall (now store : Z) (user_id : option Z) (session_id algorithm : option string)
         (context : list (string * string)) (rec : Candidate.t) (db : Database),
    let key := same_key store user_id (or_default session_id EmptyString)
                 (Product.id (Candidate.product rec)) (or_default algorithm "hybrid") in
    table_wf (recommendations db) ->
    user_fk_ok user_id db = true ->
    (List.length (filter key (rows (recommendations db))) <= 1)%nat ->
    exists r1 t1,
      store_recommendation now store user_id session_id algorithm context rec db
      = (Ok r1, set_recommendations t1 db)
      /\ table_wf t1
      /\ filter key (rows t1) = [r1]
      /\ ranked_as rec context now r1
      /\ (forall r, filter key (rows (recommendations db)) = [r] ->
            same_counters r r1
            /\ Recommendation.id r1 = Recommendation.id r
            /\ Recommendation.created_at r1 = Recommendation.created_at r
            /\ rows t1 = map (fun x => if Recommendation.id x =? Recommendation.id r
                                       then r1 else x)
                             (rows (recommendations db)))
      /\ (filter key (rows (recommendations db)) = [] ->
            zero_counters r1 /\ rows t1 = rows (recommendations db) ++ [r1]).
Proof.
  intros now store user_id session_id algorithm context rec db key Hwf Hfk Hlen.
  unfold store_recommendation, bind, get_db, put_db, lift, ret, get_or_create, objects_get.
  fold key.
  destruct db as [st us ps ss ints recs urp tp ubp]. cbn in *.
  destruct (filter key (rows recs)) as [| r [| r0 l]] eqn:Hf.
  - (* no row: insert *)
    cbn. rewrite Hfk. cbn.
    eexists. eexists. split; [reflexivity |].
    split; [| split; [| split; [| split]]].
    + apply (@objects_create_wf _ Recommendation_Model recs); [reflexivity | exact Hwf].
    + cbn. rewrite filter_app, Hf. cbn. unfold key at 1.
      rewrite same_key_refl_new. reflexivity.
    + repeat split.
    + intros r Hr. discriminate.
    + intros _. split; [repeat split | reflexivity].
  - (* one row: overwrite *)
    cbn.
    destruct (filter_singleton_In _ _ Hf) as [Hin Hkr].
    eexists. eexists. split; [reflexivity |].
    split; [| split; [| split; [| split]]].
    + apply save_row_wf with (r := r); [exact Hwf | reflexivity | exact Hin].
    + rewrite save_row_rows.
      apply save_row_filter with (r := r);
        [apply Hwf | exact Hf | exact Hkr | reflexivity].
    + repeat split.
    + intros r' Hr'. injection Hr' as <-.
      split; [repeat split |]. split; [reflexivity |]. split; reflexivity.
    + intros Hr. discriminate.
  - cbn in Hlen. lia.
Qed.

Lemma uint_of_letter :
  forall (c : ascii) (d : option Decimal.uint),
    is_letter c = true -> uint_of_char c d = None.
Proof.
  intros c [d |] H; [| reflexivity].
  destruct c as [[|] [|] [|] [|] [|] [|] [|] [|]];
    first [reflexivity | vm_compute in H; discriminate].
Qed.

Lemma has_letter_not_uint :
  forall s : string, has_letter s = true -> NilEmpty.uint_of_string s = None.
Proof.
  induction s as [| c s IH]; cbn [has_letter NilEmpty.uint_of_string];
    [discriminate |].
  intros H. apply orb_true_iff in H as [H | H].
  - apply uint_of_letter. exact H.
  - rewrite (IH H). reflexivity.
Qed.

(** A text with a letter in it is not the text of an integer. *)
Lemma has_letter_not_int :
  forall s : string, has_letter s = true -> NilZero.int_of_string s = None.
Proof.
  intros [| c s] H; [reflexivity |].
  unfold NilZero.int_of_string.
  destruct (Ascii.eqb_spec c "-"%char) as [-> | _].
  - cbn [has_letter] in H. apply orb_true_iff in H as [H | H]; [discriminate |].
    destruct s as [| c' s']; [discriminate |].
    unfold NilZero.uint_of_string. rewrite (has_letter_not_uint _ H). reflexivity.
  - unfold NilZero.uint_of_string. rewrite (has_letter_not_uint _ H). reflexivity.
Qed.

(** C1 (the code departs from the claim).  The service hands the user id
    of the request, a text, to [get_or_create] as the key of the [user]
    column.  For a user id with a letter in it the first upsert raises
    [ValueError]: the call fails and no entry is inserted or overwritten,
    whatever the engine proposed. *)
Theorem named_user_upsert_raises :
  forall (store now : Z) (uid : string) (session_id : option string)
         (max_results : nat) (context : list (string * string))
         (algorithm : option string) (db : Database)
         (rec : Candidate.t) (recs : list Candidate.t),
    has_letter uid = true ->
    select_engine store algorithm now (Some uid) session_id max_results context db
    = Ok (rec :: recs) ->
    get_recommendations store now (Some uid) session_id max_results context algorithm db
    = (Raise ValueError, db).
Proof.
  intros store now uid session_id max_results context algorithm db rec recs Hid Hengine.
  unfold get_recommendations, bind at 1, get_db.
  unfold bind at 1, lift at 1. rewrite Hengine.
  cbn [map_M]. unfold bind at 1, bind at 1, lift at 1, user_column.
  rewrite (has_letter_not_int _ Hid). reflexivity.
Qed.

(* ------------------------------------------------------------------ *)
(** ** Dicts *)

Section DictFacts.
Context {K V : Type} (eqb : K -> K -> bool).
Hypothesis eqb_spec : forall a b : K, reflect (a = b) (eqb a b).

Lemma dict_find_set :
  forall (d : list (K * V)) (k k' : K) (v : V),
    dict_find eqb (dict_set eqb d k v) k'
    = if eqb k' k then Some v else dict_find eqb d k'.
Proof.
  intros d k k' v. induction d as [| [k0 v0] d IH]; cbn; [reflexivity |].
  destruct (eqb_spec k k0) as [-> | Hk]; cbn.
  - destruct (eqb_spec k' k0); reflexivity.
  - rewrite IH. destruct (eqb_spec k' k0) as [-> | Hk0]; [| reflexivity].
    destruct (eqb_spec k0 k); [congruence | reflexivity].
Qed.

Lemma dict_find_update :
  forall (d : list (K * V)) (k k' : K) (f : V -> V),
    dict_find eqb (dict_update eqb d k f) k'
    = if eqb k' k then option_map f (dict_find eqb d k) else dict_find eqb d k'.
Proof.
  intros d k k' f. induction d as [| [k0 v0] d IH]; cbn.
  - destruct (eqb k' k); reflexivity.
  - destruct (eqb_spec k k0) as [-> | Hk]; cbn.
    + destruct (eqb_spec k' k0); reflexivity.
    + rewrite IH. destruct (eqb_spec k' k0) as [-> | Hk0]; [| reflexivity].
      destruct (eqb_spec k0 k); [congruence | reflexivity].
Qed.

Lemma dict_keys_update :
  forall (d : list (K * V)) (k : K) (f : V -> V),
    map fst (dict_update eqb d k f) = map fst d.
Proof.
  intros d k f. induction d as [| [k0 v0] d IH]; cbn; [reflexivity |].
  destruct (eqb k k0); cbn; [reflexivity | rewrite IH; reflexivity].
Qed.

Lemma dict_find_None_keys :
  forall (d : list (K * V)) (k : K),
    dict_find eqb d k = None <-> ~ In k (map fst d).
Proof.
  intros d k. induction d as [| [k0 v0] d IH]; cbn.
  - split; [intros _ [] | reflexivity].
  - destruct (eqb_spec k k0) as [-> | Hk].
    + split; [discriminate | intros H; exfalso; apply H; left; reflexivity].
    + rewrite IH. split; [intros H [E | Hin]; [congruence | exact (H Hin)] |].
      intros H Hin. apply H. right. exact Hin.
Qed.

(** A key not yet present is appended. *)
Lemma dict_set_fresh :
  forall (d : list (K * V)) (k : K) (v : V),
    ~ In k (map fst d) -> dict_set eqb d k v = d ++ [(k, v)].
Proof.
  intros d k v. induction d as [| [k0 v0] d IH]; cbn; intros H; [reflexivity |].
  destruct (eqb_spec k k0) as [-> | Hk].
  - exfalso. apply H. left. reflexivity.
  - rewrite IH; [reflexivity |]. intros Hin. apply H. right. exact Hin.
Qed.

(** A second assignment to a key replaces the first. *)
Lemma dict_set_set :
  forall (d : list (K * V)) (k : K) (v v' : V),
    dict_set eqb (dict_set eqb d k v) k v' = dict_set eqb d k v'.
Proof.
  intros d k v v'. induction d as [| [k0 v0] d IH]; cbn.
  - destruct (eqb_spec k k); [reflexivity | congruence].
  - destruct (eqb_spec k k0) as [-> | Hk]; cbn.
    + destruct (eqb_spec k0 k0); [reflexivity | congruence].
    + destruct (eqb_spec k k0); [congruence |]. rewrite IH. reflexivity.
Qed.

Lemma dict_set_not_nil :
  forall (d : list (K * V)) (k : K) (v : V), dict_set eqb d k v <> [].
Proof.
  intros [| [k0 v0] d] k v; cbn; [discriminate |].
  destruct (eqb k k0); discriminate.
Qed.

Lemma dict_find_In :
  forall (d : list (K * V)) (k : K) (v : V),
    NoDup (map fst d) -> In (k, v) d -> dict_find eqb d k = Some v.
Proof.
  intros d k v. induction d as [| [k0 v0] d IH]; cbn; intros Hnd Hin; [contradiction |].
  inversion Hnd as [| ? ? Hnotin Hnd']; subst.
  destruct Hin as [E | Hin].
  - injection E as -> ->. destruct (eqb_spec k k); [reflexivity | congruence].
  - destruct (eqb_spec k k0) as [-> | _]; [| apply IH; assumption].
    exfalso. apply Hnotin. change k0 with (fst (k0, v)). apply in_map. exact Hin.
Qed.
Lemma dict_find_Some_In :
  forall (d : list (K * V)) (k : K) (v : V),
    dict_find eqb d k = Some v -> In (k, v) d.
Proof.
  intros d k v. induction d as [| [k0 v0] d IH]; cbn; [discriminate |].
  destruct (eqb_spec k k0) as [-> | _].
  - intros E. injection E as ->. left. reflexivity.
  - intros H. right. apply IH. exact H.
Qed.

End DictFacts.

(* ------------------------------------------------------------------ *)
(** ** Sorting *)

Section Sorting.
Context {A : Type} (key : A -> Q).

Lemma insert_desc_perm :
  forall (x : A) (l : list A), Permutation (x :: l) (insert_desc key x l).
Proof.
  intros x l. induction l as [| y l IH]; cbn; [reflexivity |].
  destruct (Qle_bool (key y) (key x)); [reflexivity |].
  rewrite perm_swap. constructor. exact IH.
Qed.

Lemma sort_desc_perm : forall l : list A, Permutation l (sort_desc key l).
Proof.
  induction l as [| x l IH]; cbn; [constructor |].
  rewrite <- insert_desc_perm. constructor. exact IH.
Qed.

Lemma insert_desc_sorted :
  forall (x : A) (l : list A),
    StronglySorted (fun a b => (key b <= key a)%Q) l ->
    StronglySorted (fun a b => (key b <= key a)%Q) (insert_desc key x l).
Proof.
  intros x l. induction l as [| y l IH]; intros Hs; cbn.
  - constructor; constructor.
  - inversion Hs as [| ? ? Hs' Hall]; subst.
    destruct (Qle_bool (key y) (key x)) eqn:Hle.
    + apply Qle_bool_iff in Hle. constructor; [exact Hs |].
      constructor; [exact Hle |].
      eapply Forall_impl; [| exact Hall]. cbn. intros z Hz.
      apply Qle_trans with (key y); assumption.
    + constructor; [apply IH; exact Hs' |].
      rewrite <- insert_desc_perm. constructor; [| exact Hall].
      apply Qlt_le_weak. apply Qnot_le_lt. intros H.
      apply Qle_bool_iff in H. congruence.
Qed.

Lemma sort_desc_sorted :
  forall l : list A, StronglySorted (fun a b => (key b <= key a)%Q) (sort_desc key l).
Proof.
  induction l as [| x l IH]; cbn; [constructor |].
  apply insert_desc_sorted. exact IH.
Qed.

(** The stable sort is one of the orders [order_by] may return. *)
Lemma sort_desc_is_order_by_desc :
  forall l : list A, is_order_by_desc key l (sort_desc key l).
Proof.
  intros l. split; [apply sort_desc_perm | apply sort_desc_sorted].
Qed.
End Sorting.

Lemma StronglySorted_firstn :
  forall (A : Type) (R : A -> A -> Prop) (n : nat) (l : list A),
    StronglySorted R l -> StronglySorted R (firstn n l).
Proof.
  intros A R n. induction n as [| n IH]; intros l Hs; [constructor |].
  destruct l as [| x l]; [constructor |].
  inversion Hs as [| ? ? Hs' Hall]; subst. cbn. constructor; [apply IH; exact Hs' |].
  apply Forall_forall. intros y Hy.
  rewrite Forall_forall in Hall. apply Hall.
  rewrite <- (firstn_skipn n l). apply in_or_app. left. exact Hy.
Qed.

Lemma In_firstn :
  forall (A : Type) (n : nat) (l : list A) (x : A), In x (firstn n l) -> In x l.
Proof.
  intros A n l x H. rewrite <- (firstn_skipn n l). apply in_or_app. left. exact H.
Qed.

Lemma StronglySorted_app_In :
  forall (A : Type) (R : A -> A -> Prop) (l1 l2 : list A),
    StronglySorted R (l1 ++ l2) ->
    forall a b, In a l1 -> In b l2 -> R a b.
Proof.
  intros A R. induction l1 as [| x l1 IH]; intros l2 Hs a b Ha Hb; [contradiction |].
  cbn in Hs. inversion Hs as [| ? ? Hs' Hall]; subst.
  destruct Ha as [-> | Ha]; [| eapply IH; eassumption].
  rewrite Forall_forall in Hall. apply Hall. apply in_or_app. right. exact Hb.
Qed.

Lemma StronglySorted_map :
  forall (A B : Type) (R : A -> A -> Prop) (S : B -> B -> Prop) (f : A -> B) (l : list A),
    (forall a b, R a b -> S (f a) (f b)) ->
    StronglySorted R l -> StronglySorted S (map f l).
Proof.
  intros A B R S f l HRS Hs. induction Hs as [| x l Hs IH Hall]; cbn; constructor.
  - exact IH.
  - apply Forall_forall. intros y Hy. apply in_map_iff in Hy.
    destruct Hy as (z & <- & Hz). apply HRS.
    rewrite Forall_forall in Hall. apply Hall. exact Hz.
Qed.

Lemma StronglySorted_weaken :
  forall (A : Type) (R S : A -> A -> Prop) (l : list A),
    (forall a b, R a b -> S a b) -> StronglySorted R l -> StronglySorted S l.
Proof.
  intros A R S l HRS Hs. induction Hs as [| x l Hs IH Hall]; constructor.
  - exact IH.
  - eapply Forall_impl; [| exact Hall]. intros y. apply HRS.
Qed.

Lemma enumerate_from_snd :
  forall (A : Type) (l : list A) (start : Z), map snd (enumerate_from start l) = l.
Proof.
  intros A l. induction l as [| x l IH]; intros start; cbn; [reflexivity |].
  rewrite IH. reflexivity.
Qed.

Lemma enumerate_from_nth :
  forall (A : Type) (l : list A) (start : Z) (k : nat) (e : Z * A),
    nth_error (enumerate_from start l) k = Some e ->
    fst e = start + Z.of_nat k /\ nth_error l k = Some (snd e).
Proof.
  intros A l. induction l as [| x l IH]; intros start k e H.
  - destruct k; discriminate.
  - destruct k as [| k]; cbn in H.
    + injection H as <-. cbn. split; [lia | reflexivity].
    + apply IH in H. destruct H as [H1 H2]. split; [lia | exact H2].
Qed.

Lemma enumerate_from_StronglySorted :
  forall (A : Type) (R : A -> A -> Prop) (l : list A) (start : Z),
    StronglySorted R l ->
    StronglySorted (fun a b => R (snd a) (snd b)) (enumerate_from start l).
Proof.
  intros A R l. induction l as [| x l IH]; intros start Hs; cbn; [constructor |].
  inversion Hs as [| ? ? Hs' Hall]; subst. constructor; [apply IH; exact Hs' |].
  apply Forall_forall. intros e He. rewrite Forall_forall in Hall. apply Hall.
  rewrite <- (enumerate_from_snd l (start + 1)). apply in_map. exact He.
Qed.

(* ------------------------------------------------------------------ *)
(** ** The hybrid combiner *)

Lemma add_recommendation_find :
  forall (name : string) (all : list (Z * Merged.t)) (rec : Candidate.t) (pid : Z),
    dict_find Z.eqb (add_recommendation name all rec) pid
    = if pid =? Product.id (Candidate.product rec) then
        let data :=
          match dict_find Z.eqb all (Product.id (Candidate.product rec)) with
          | Some d => d
          | None => Merged.mk (Candidate.product rec) [] []
          end in
        Some (Merged.mk (Merged.product data)
                (dict_set String.eqb (Merged.scores data) name (Candidate.score rec))
                (Merged.explanations data ++ [Candidate.explanation rec]))
      else dict_find Z.eqb all pid.
Proof.
  intros name all rec pid. unfold add_recommendation, dict_mem.
  destruct (dict_find Z.eqb all (Product.id (Candidate.product rec))) as [d |] eqn:Hd.
  - rewrite (dict_find_update Z.eqb Z.eqb_spec), Hd. reflexivity.
  - rewrite (dict_find_update Z.eqb Z.eqb_spec), !(dict_find_set Z.eqb Z.eqb_spec).
    rewrite Z.eqb_refl. destruct (pid =? _); reflexivity.
Qed.

Lemma add_recommendation_scores :
  forall (name : string) (all : list (Z * Merged.t)) (rec : Candidate.t) (pid : Z),
    scores_of (add_recommendation name all rec) pid
    = if pid =? Product.id (Candidate.product rec)
      then dict_set String.eqb (scores_of all pid) name (Candidate.score rec)
      else scores_of all pid.
Proof.
  intros name all rec pid. unfold scores_of. rewrite add_recommendation_find.
  destruct (Z.eqb_spec pid (Product.id (Candidate.product rec))) as [-> | _];
    [| reflexivity].
  cbn. destruct (dict_find Z.eqb all _); reflexivity.
Qed.

Lemma add_recommendation_inv :
  forall (name : string) (all : list (Z * Merged.t)) (rec : Candidate.t),
    merged_inv all -> merged_inv (add_recommendation name all rec).
Proof.
  intros name all rec [Hnd Hent]. split.
  - unfold add_recommendation, dict_mem. rewrite dict_keys_update.
    destruct (dict_find Z.eqb all (Product.id (Candidate.product rec))) eqn:Hd;
      [exact Hnd |].
    apply (dict_find_None_keys Z.eqb Z.eqb_spec) in Hd.
    rewrite (dict_set_fresh Z.eqb Z.eqb_spec) by exact Hd.
    rewrite map_app. cbn.
    apply NoDup_app; [exact Hnd | constructor; [intros [] | constructor] |].
    intros k Hk [E | []]. subst k. exact (Hd Hk).
  - intros pid data. rewrite add_recommendation_find.
    destruct (Z.eqb_spec pid (Product.id (Candidate.product rec))) as [-> | _].
    + cbn. intros H. injection H as <-. cbn.
      split; [| apply dict_set_not_nil].
      destruct (dict_find Z.eqb all _) as [d |] eqn:Hd; [| reflexivity].
      apply Hent in Hd. apply Hd.
    + apply Hent.
Qed.

Lemma engine_score_snoc :
  forall (pid : Z) (recs : list Candidate.t) (rec : Candidate.t),
    engine_score pid (recs ++ [rec])
    = if Product.id (Candidate.product rec) =? pid
      then Some (Candidate.score rec) else engine_score pid recs.
Proof.
  intros pid recs rec. unfold engine_score. rewrite fold_left_app. reflexivity.
Qed.

Lemma add_engine_recs_scores :
  forall (name : string) (recs : list Candidate.t) (all : list (Z * Merged.t)) (pid : Z),
    scores_of (fold_left (add_recommendation name) recs all) pid
    = match engine_score pid recs with
      | Some s => dict_set String.eqb (scores_of all pid) name s
      | None => scores_of all pid
      end.
Proof.
  intros name recs all pid. induction recs as [| rec recs IH] using rev_ind;
    [reflexivity |].
  rewrite fold_left_app, engine_score_snoc. cbn.
  rewrite add_recommendation_scores, IH, (Z.eqb_sym pid).
  destruct (Product.id (Candidate.product rec) =? pid); [| reflexivity].
  destruct (engine_score pid recs); [apply (dict_set_set String.eqb String.eqb_spec) |].
  reflexivity.
Qed.

Lemma add_engine_recs_inv :
  forall (name : string) (recs : list Candidate.t) (all : list (Z * Merged.t)),
    merged_inv all -> merged_inv (fold_left (add_recommendation name) recs all).
Proof.
  intros name recs. induction recs as [| rec recs IH]; intros all H; [exact H |].
  cbn. apply IH. apply add_recommendation_inv. exact H.
Qed.

Lemma add_engine_inv :
  forall (all : list (Z * Merged.t)) (res : string * outcome (list Candidate.t)),
    merged_inv all -> merged_inv (add_engine all res).
Proof.
  intros all [name [recs | e]] H; unfold add_engine; cbn; [| exact H].
  apply add_engine_recs_inv. exact H.
Qed.

Lemma collect_inv :
  forall (results : list (string * outcome (list Candidate.t)))
         (all : list (Z * Merged.t)),
    merged_inv all -> merged_inv (fold_left add_engine results all).
Proof.
  induction results as [| res results IH]; intros all H; [exact H |].
  cbn. apply IH. apply add_engine_inv. exact H.
Qed.

(** What the nested loops leave in [data['scores']]: the contributions of
    the engines, in the order of the engine dict. *)
Lemma collect_scores :
  forall (results : list (string * outcome (list Candidate.t)))
         (all : list (Z * Merged.t)) (pid : Z),
    NoDup (map fst results) ->
    (forall name, In name (map fst results) ->
                  ~ In name (map fst (scores_of all pid))) ->
    scores_of (fold_left add_engine results all) pid
    = scores_of all pid ++ contributions pid results.
Proof.
  induction results as [| [name res] results IH]; intros all pid Hnd Hfresh.
  - cbn. rewrite app_nil_r. reflexivity.
  - cbn [fold_left]. inversion Hnd as [| ? ? Hnotin Hnd']; subst.
    assert (Hstep : scores_of (add_engine all (name, res)) pid
                    = scores_of all pid
                      ++ contributions pid [(name, res)]).
    { unfold add_engine, contributions. cbn.
      destruct res as [recs | e]; [| rewrite app_nil_r; reflexivity].
      rewrite add_engine_recs_scores.
      destruct (engine_score pid recs) as [s |]; cbn;
        [| rewrite app_nil_r; reflexivity].
      apply (dict_set_fresh String.eqb String.eqb_spec).
      apply Hfresh. left. reflexivity. }
    rewrite IH; [| exact Hnd' |].
    + rewrite Hstep, <- app_assoc. f_equal.
      unfold contributions. cbn. rewrite app_nil_r. reflexivity.
    + intros n Hn. rewrite Hstep, map_app. intros Hin.
      apply in_app_or in Hin. destruct Hin as [Hin | Hin].
      * revert Hin. apply Hfresh. right. exact Hn.
      * unfold contributions in Hin. cbn in Hin.
        destruct res as [recs | e]; [| contradiction].
        destruct (engine_score pid recs); [| contradiction].
        destruct Hin as [E | []]. cbn in E. subst n. exact (Hnotin Hn).
Qed.

Lemma weights_are_spec :
  forall name : string,
    (dict_get String.eqb weights name 0.1 == spec_weight name)%Q.
Proof.
  intros name. unfold dict_get, weights, spec_weight. cbn [dict_find].
  repeat match goal with
         | |- context [String.eqb name ?s] =>
             destruct (String.eqb_spec name s) as [-> | _]; [reflexivity |]
         end.
  reflexivity.
Qed.

Lemma spec_weight_pos : forall name : string, (0 < spec_weight name)%Q.
Proof.
  intros name. unfold spec_weight.
  repeat match goal with
         | |- context [String.eqb name ?s] => destruct (String.eqb name s)
         end; reflexivity.
Qed.

Lemma sum_Q_shift :
  forall (l : list Q) (a : Q), (fold_left Qplus l a == a + sum_Q l)%Q.
Proof.
  unfold sum_Q. induction l as [| x l IH]; intros a; cbn.
  - ring.
  - rewrite (IH (a + x)%Q), (IH (0 + x)%Q). ring.
Qed.

Lemma sum_Q_cons : forall (x : Q) (l : list Q), (sum_Q (x :: l) == x + sum_Q l)%Q.
Proof.
  intros x l. unfold sum_Q at 1. cbn. rewrite sum_Q_shift. ring.
Qed.

Lemma sum_Q_pos :
  forall l : list Q, l <> [] -> (forall x, In x l -> (0 < x)%Q) -> (0 < sum_Q l)%Q.
Proof.
  induction l as [| x l IH]; intros Hne Hpos; [congruence |].
  rewrite sum_Q_cons.
  assert (Hx : (0 < x)%Q) by (apply Hpos; left; reflexivity).
  destruct l as [| y l].
  - unfold sum_Q. cbn. lra.
  - assert (0 < sum_Q (y :: l))%Q; [| lra].
    apply IH; [discriminate |]. intros z Hz. apply Hpos. right. exact Hz.
Qed.

Lemma weighted_sums_spec :
  forall (scores : list (string * Q)) (acc : Q * Q),
    let r :=
      fold_left
        (fun acc entry =>
           let weight := dict_get String.eqb weights (fst entry) 0.1%Q in
           ((fst acc + snd entry * weight)%Q, (snd acc + weight)%Q))
        scores acc in
    (fst r == fst acc + sum_Q (map (fun e => snd e * spec_weight (fst e)) scores))%Q
    /\ (snd r == snd acc + sum_Q (map (fun e => spec_weight (fst e)) scores))%Q.
Proof.
  induction scores as [| [name s] scores IH]; intros acc; cbn zeta.
  - cbn. unfold sum_Q. cbn. split; ring.
  - cbn [fold_left map]. destruct (IH ((fst acc + snd (name, s)
                                          * dict_get String.eqb weights (fst (name, s)) 0.1)%Q,
                                       (snd acc + dict_get String.eqb weights (fst (name, s)) 0.1)%Q))
      as [H1 H2].
    cbn zeta in H1, H2. cbn [fst snd] in *.
    rewrite H1, H2, !sum_Q_cons, !weights_are_spec. split; ring.
Qed.

(** The combined score is the weighted average over the scores present. *)
Lemma combined_score_spec :
  forall scores : list (string * Q),
    scores <> [] ->
    (combined_score scores == spec_weighted_average scores)%Q.
Proof.
  intros scores Hne. unfold combined_score, weighted_sums, spec_weighted_average.
  pose proof (weighted_sums_spec scores (0%Q, 0%Q)) as H. cbn zeta in H.
  destruct (fold_left _ scores (0%Q, 0%Q)) as [combined total] eqn:E.
  cbn [fst snd] in H. destruct H as [Hc Ht].
  assert (Hpos : (0 < sum_Q (map (fun e => spec_weight (fst e)) scores))%Q).
  { apply sum_Q_pos.
    - destruct scores; [congruence | discriminate].
    - intros x Hx. apply in_map_iff in Hx. destruct Hx as (e & <- & _).
      apply spec_weight_pos. }
  assert (Hlt : Qlt_bool 0 total = true).
  { unfold Qlt_bool. apply negb_true_iff.
    destruct (Qle_bool total 0) eqn:Hle; [| reflexivity].
    apply Qle_bool_iff in Hle. lra. }
  rewrite Hlt, Hc, Ht. apply Qdiv_comp; ring.
Qed.

(** A product only the popularity generator proposed keeps its popularity
    score. *)
Lemma combined_score_popularity_only :
  forall s : Q, (combined_score [("popularity", s)] == s)%Q.
Proof.
  intros s. unfold combined_score, weighted_sums. cbn. field.
Qed.

(** The engine dict built by [__init__] has distinct names. *)
Lemma engines_names_distinct :
  forall store : Z, NoDup (map fst (engines store)).
Proof.
  intros store. cbn. repeat constructor; cbn; intuition discriminate.
Qed.

(* ------------------------------------------------------------------ *)
(** ** Grouping *)

Lemma option_Z_eqb_spec :
  forall x y : option Z, reflect (x = y) (option_eqb Z.eqb x y).
Proof.
  intros [a |] [b |]; cbn; try (constructor; congruence).
  destruct (Z.eqb_spec a b); constructor; congruence.
Qed.

Section Grouping.
Context {A K : Type} (eqb : K -> K -> bool) (key : A -> K).
Hypothesis eqb_spec : forall a b : K, reflect (a = b) (eqb a b).

Lemma distinct_In :
  forall (l : list K) (x : K), In x (distinct eqb l) <-> In x l.
Proof.
  induction l as [| y l IH]; intros x; cbn; [reflexivity |].
  rewrite filter_In, IH. split.
  - intros [H | [H _]]; [left | right]; assumption.
  - intros [H | H]; [left; exact H |].
    destruct (eqb_spec y x) as [E | E]; [left; exact E | right].
    split; [exact H | reflexivity].
Qed.

Lemma distinct_NoDup : forall l : list K, NoDup (distinct eqb l).
Proof.
  induction l as [| y l IH]; cbn; constructor.
  - rewrite filter_In. intros [_ H].
    destruct (eqb_spec y y); [discriminate | congruence].
  - apply NoDup_filter. exact IH.
Qed.

Lemma group_by_keys :
  forall l : list A, map fst (group_by eqb key l) = distinct eqb (map key l).
Proof.
  intros l. unfold group_by. rewrite map_map. cbn. apply map_id.
Qed.

Lemma group_by_In :
  forall (l : list A) (k : K) (g : list A),
    In (k, g) (group_by eqb key l) ->
    g = filter (fun a => eqb (key a) k) l /\ In k (map key l).
Proof.
  intros l k g H. unfold group_by in H. apply in_map_iff in H.
  destruct H as (k' & E & Hin). injection E as -> <-.
  split; [reflexivity |]. apply distinct_In. exact Hin.
Qed.
End Grouping.

Lemma NoDup_firstn :
  forall (A : Type) (n : nat) (l : list A), NoDup l -> NoDup (firstn n l).
Proof.
  intros A n. induction n as [| n IH]; intros l H; [constructor |].
  destruct l as [| x l]; [constructor |].
  inversion H as [| ? ? Hnotin H']; subst. cbn. constructor; [| apply IH; exact H'].
  intros Hin. apply Hnotin. apply In_firstn with (n := n). exact Hin.
Qed.

Lemma map_firstn_comm :
  forall (A B : Type) (f : A -> B) (n : nat) (l : list A),
    map f (firstn n l) = firstn n (map f l).
Proof.
  intros A B f n. induction n as [| n IH]; intros [| x l]; cbn; try reflexivity.
  rewrite IH. reflexivity.
Qed.

(* ------------------------------------------------------------------ *)
(** ** Trending: the query *)

Lemma trending_data_length :
  forall now store time_delta db,
    (List.length (trending_data now store time_delta db) <= 50)%nat.
Proof. intros. unfold trending_data. apply firstn_le_length. Qed.

Lemma trending_data_sorted :
  forall now store time_delta db,
    StronglySorted
      (fun a b => TrendingRow.interaction_count b <= TrendingRow.interaction_count a)
      (trending_data now store time_delta db).
Proof.
  intros. unfold trending_data. apply StronglySorted_firstn.
  eapply StronglySorted_weaken; [| apply order_by_desc_spec].
  cbn. intros a b H. rewrite <- Zle_Qle in H. exact H.
Qed.

Lemma trending_data_NoDup :
  forall now store time_delta db,
    NoDup (map TrendingRow.product (trending_data now store time_delta db)).
Proof.
  intros. unfold trending_data. rewrite map_firstn_comm. apply NoDup_firstn.
  eapply Permutation_NoDup;
    [apply Permutation_map; apply order_by_desc_spec |].
  rewrite map_map. cbn.
  rewrite <- (map_map fst (fun k : option Z => k)), map_id.
  rewrite (group_by_keys (option_eqb Z.eqb)).
  apply distinct_NoDup. apply option_Z_eqb_spec.
Qed.

(** A row of the query carries the counts of its product over the window. *)
Lemma trending_data_rows :
  forall now store time_delta db item,
    In item (trending_data now store time_delta db) ->
    exists pid,
      let g := window_interactions store (now - time_delta) pid db in
      item = TrendingRow.mk (Some pid) (count_all g) (count_if is_purchase g)
               (count_if (fun i => now - time_delta / 2 <=? Interaction.created_at i) g)
      /\ exists i, In i (interactions db) /\ Interaction.product i = Some pid
                   /\ In i g.
Proof.
  intros now store time_delta db item H. unfold trending_data in H.
  apply In_firstn in H.
  apply (Permutation_in _ (Permutation_sym (proj1 (order_by_desc_spec _ _)))) in H.
  apply in_map_iff in H. destruct H as ([k g] & <- & Hg).
  apply (group_by_In (option_eqb Z.eqb) Interaction.product option_Z_eqb_spec) in Hg.
  destruct Hg as [-> Hk]. apply in_map_iff in Hk. destruct Hk as (i & <- & Hi).
  pose proof Hi as Hi'. apply filter_In in Hi. destruct Hi as [Hi Hcond].
  apply andb_true_iff in Hcond. destruct Hcond as [_ Hsome].
  destruct (Interaction.product i) as [pid |] eqn:Hp; [| discriminate].
  exists pid. cbn. split; [reflexivity |]. exists i.
  split; [exact Hi |]. split; [exact Hp |].
  unfold window_interactions. apply filter_In. split; [exact Hi' |].
  rewrite Hp. cbn. apply Z.eqb_refl.
Qed.

(** Every product with an interaction in the window has a row in the
    ordered grouping, among the first 50 or behind all of them. *)
Lemma trending_data_top :
  forall now store time_delta db pid i,
    In i (window_interactions store (now - time_delta) pid db) ->
    In (Some pid) (map TrendingRow.product (trending_data now store time_delta db))
    \/ forall item, In item (trending_data now store time_delta db) ->
                    count_all (window_interactions store (now - time_delta) pid db)
                    <= TrendingRow.interaction_count item.
Proof.
  intros now store time_delta db pid i Hi. unfold trending_data.
  set (key := fun item : TrendingRow.t => inject_Z (TrendingRow.interaction_count item)).
  set (groups := map _ (group_by _ _ _)).
  destruct (order_by_desc_spec key groups) as [Hperm Hsorted].
  set (g := window_interactions store (now - time_delta) pid db) in *.
  assert (Hrow : In (TrendingRow.mk (Some pid) (count_all g) (count_if is_purchase g)
                       (count_if (fun i => now - time_delta / 2 <=? Interaction.created_at i) g))
                    (order_by_desc key groups)).
  { apply (Permutation_in _ Hperm). unfold groups. apply in_map_iff.
    exists (Some pid, g). split; [reflexivity |].
    unfold group_by. apply in_map_iff. exists (Some pid). split; [reflexivity |].
    apply (distinct_In (option_eqb Z.eqb) option_Z_eqb_spec).
    unfold g, window_interactions in Hi. apply filter_In in Hi.
    destruct Hi as [Hi Hp]. apply in_map_iff. exists i. split; [| exact Hi].
    destruct (option_Z_eqb_spec (Interaction.product i) (Some pid)); congruence. }
  rewrite <- (firstn_skipn 50 (order_by_desc key groups)) in Hrow, Hsorted.
  apply in_app_or in Hrow. destruct Hrow as [Hrow | Hrow].
  - left. apply in_map_iff. eexists. split; [| exact Hrow]. reflexivity.
  - right. intros item Hitem.
    assert (H : forall l1 l2 : list TrendingRow.t,
               StronglySorted (fun a b => (key b <= key a)%Q) (l1 ++ l2) ->
               forall a b, In a l1 -> In b l2 -> (key b <= key a)%Q).
    { clear. induction l1 as [| x l1 IH]; intros l2 Hs a b Ha Hb; [contradiction |].
      cbn in Hs. inversion Hs as [| ? ? Hs' Hall]; subst.
      destruct Ha as [-> | Ha]; [| eapply IH; eassumption].
      rewrite Forall_forall in Hall. apply Hall. apply in_or_app. right. exact Hb. }
    specialize (H _ _ Hsorted item _ Hitem Hrow). unfold key in H. cbn in H.
    rewrite <- Zle_Qle in H. exact H.
Qed.

Lemma trending_data_count :
  forall now store time_delta db,
    List.length (trending_data now store time_delta db)
    = Nat.min 50 (List.length (window_products store (now - time_delta) db)).
Proof.
  intros. unfold trending_data, window_products.
  rewrite length_firstn.
  rewrite <- (Permutation_length (proj1 (order_by_desc_spec _ _))).
  unfold group_by. rewrite !length_map. reflexivity.
Qed.

Lemma trending_data_products :
  forall now store time_delta db item,
    In item (trending_data now store time_delta db) ->
    In (TrendingRow.product item) (window_products store (now - time_delta) db).
Proof.
  intros now store time_delta db item H. unfold trending_data in H.
  apply In_firstn in H.
  apply (Permutation_in _ (Permutation_sym (proj1 (order_by_desc_spec _ _)))) in H.
  apply in_map_iff in H. destruct H as ([k g] & <- & Hg).
  cbn [TrendingRow.product fst].
  unfold group_by in Hg. apply in_map_iff in Hg as (k' & E & Hk).
  injection E as -> _. exact Hk.
Qed.

(** When the window has at most 50 products, each of them has a row. *)
Lemma trending_data_covers :
  forall now store time_delta db pid i,
    (List.length (window_products store (now - time_delta) db) <= 50)%nat ->
    In i (window_interactions store (now - time_delta) pid db) ->
    In (Some pid) (map TrendingRow.product (trending_data now store time_delta db)).
Proof.
  intros now store time_delta db pid i Hlen Hi.
  assert (Hincl : incl (window_products store (now - time_delta) db)
                       (map TrendingRow.product (trending_data now store time_delta db))).
  { apply NoDup_length_incl.
    - apply trending_data_NoDup.
    - rewrite length_map, trending_data_count. lia.
    - intros p Hp. apply in_map_iff in Hp as (item & <- & Hitem).
      apply trending_data_products. exact Hitem. }
  apply Hincl. unfold window_products.
  apply (distinct_In (option_eqb Z.eqb) option_Z_eqb_spec).
  unfold window_interactions in Hi. apply filter_In in Hi as [Hi Hp].
  apply in_map_iff. exists i. split; [| exact Hi].
  destruct (option_Z_eqb_spec (Interaction.product i) (Some pid)); congruence.
Qed.

(* ------------------------------------------------------------------ *)
(** ** Trending: the stored entries *)

Lemma trending_key_inj :
  forall s1 p1 w1 s2 p2 w2 r,
    trending_key s1 p1 w1 r = true -> trending_key s2 p2 w2 r = true ->
    (s1, p1, w1) = (s2, p2, w2).
Proof.
  unfold trending_key. intros s1 p1 w1 s2 p2 w2 r H1 H2.
  apply andb_true_iff in H1. destruct H1 as [H1 Hw1].
  apply andb_true_iff in H1. destruct H1 as [Hs1 Hp1].
  apply andb_true_iff in H2. destruct H2 as [H2 Hw2].
  apply andb_true_iff in H2. destruct H2 as [Hs2 Hp2].
  apply Z.eqb_eq in Hs1, Hp1, Hs2, Hp2. apply String.eqb_eq in Hw1, Hw2.
  congruence.
Qed.

Lemma trending_key_dec :
  forall (k k' : Z * Z * string), {k = k'} + {k <> k'}.
Proof.
  intros [[s p] w] [[s' p'] w'].
  destruct (Z.eq_dec s s'); [| right; congruence].
  destruct (Z.eq_dec p p'); [| right; congruence].
  destruct (string_dec w w'); [left | right]; congruence.
Qed.

Lemma pk_unique :
  forall (A : Type) (M : Model A) (l : list A) (x y : A),
    NoDup (map pk l) -> In x l -> In y l -> pk x = pk y -> x = y.
Proof.
  intros A M l x y. induction l as [| z l IH]; cbn; intros Hnd Hx Hy E;
    [contradiction |].
  inversion Hnd as [| ? ? Hnotin Hnd']; subst.
  destruct Hx as [-> | Hx], Hy as [-> | Hy].
  - reflexivity.
  - exfalso. apply Hnotin. rewrite E. apply in_map. exact Hy.
  - exfalso. apply Hnotin. rewrite <- E. apply in_map. exact Hx.
  - apply IH; assumption.
Qed.

(** Writing back a row does not change the rows of a lookup that matches
    neither its old nor its new value. *)
Lemma save_row_filter_other :
  forall (A : Type) (M : Model A) (key : A -> bool) (l : list A) (r r' : A),
    NoDup (map pk l) -> In r l -> pk r' = pk r ->
    key r = false -> key r' = false ->
    filter key (map (fun x => if pk x =? pk r' then r' else x) l) = filter key l.
Proof.
  intros A M key l r r' Hnd Hin Hpk Hk Hk'.
  assert (H : forall x, In x l -> pk x = pk r -> key x = false).
  { intros x Hx E. rewrite (pk_unique M l x r Hnd Hx Hin E). exact Hk. }
  clear Hnd Hin. rewrite Hpk. induction l as [| x l IH]; [reflexivity |].
  cbn. destruct (Z.eqb_spec (pk x) (pk r)) as [E | _].
  - rewrite Hk', (H x (or_introl eq_refl) E). apply IH.
    intros y Hy. apply H. right. exact Hy.
  - destruct (key x); [f_equal |]; apply IH; intros y Hy; apply H; right; exact Hy.
Qed.

Lemma get_product_id :
  forall pid db p, get_product (Some pid) db = Some p ->
                   Product.id p = pid /\ In p (products db).
Proof.
  intros pid db p H. cbn in H. apply find_some in H. destruct H as [Hin H].
  apply Z.eqb_eq in H. split; assumption.
Qed.

(** One iteration of the trending loop on a product that resolves. *)
Lemma store_trending_spec :
  forall (now store : Z) (w : string) (rank : Z) (item : TrendingRow.t)
         (db : Database) (pid : Z) (p : Product.t),
    trending_inv (trending_products db) ->
    TrendingRow.product item = Some pid ->
    get_product (Some pid) db = Some p ->
    exists t',
      store_trending now store w (rank, item) db = (Ok tt, set_trending_products t' db)
      /\ trending_inv t'
      /\ (exists e,
            trending_entries t' store pid w = [e]
            /\ TrendingProduct.score e = inject_Z (trending_score item)
            /\ TrendingProduct.velocity e = trending_velocity item
            /\ TrendingProduct.rank e = rank)
      /\ (forall store' pid' w',
            (store', pid', w') <> (store, pid, w) ->
            trending_entries t' store' pid' w'
            = trending_entries (trending_products db) store' pid' w').
Proof.
  intros now store w rank item db pid p [Hwf Huniq] Hitem Hget.
  destruct (get_product_id _ _ Hget) as [Hid _].
  unfold store_trending, bind, get_db, put_db, lift, ret, update_or_create, objects_get.
  rewrite Hitem, Hget, Hid.
  specialize (Huniq store pid w) as Hlen. unfold trending_entries in Hlen.
  destruct (filter (trending_key store pid w) (rows (trending_products db)))
    as [| r [| r0 l]] eqn:Hf.
  - (* no entry yet: create *)
    cbn. eexists. split; [reflexivity |].
    assert (Hnew : forall store' pid' w',
               trending_entries
                 (mkTable (rows (trending_products db)
                           ++ [TrendingProduct.set_id (next_id (trending_products db))
                                 (TrendingProduct.set_defaults (inject_Z (trending_score item))
                                    (trending_velocity item) rank
                                    (TrendingProduct.mk 0 store pid 0 0 0 w now))])
                          (next_id (trending_products db) + 1))
                 store' pid' w'
               = trending_entries (trending_products db) store' pid' w'
                 ++ (if trending_key_dec (store', pid', w') (store, pid, w)
                     then [TrendingProduct.set_id (next_id (trending_products db))
                             (TrendingProduct.set_defaults (inject_Z (trending_score item))
                                (trending_velocity item) rank
                                (TrendingProduct.mk 0 store pid 0 0 0 w now))]
                     else [])).
    { intros store' pid' w'. unfold trending_entries. cbn. rewrite filter_app. f_equal.
      cbn. destruct (trending_key_dec _ _) as [E | E].
      - injection E as -> -> ->. unfold trending_key. cbn.
        rewrite !Z.eqb_refl, String.eqb_refl. reflexivity.
      - destruct (trending_key store' pid' w' _) eqn:Hk; [| reflexivity].
        exfalso. apply E. eapply trending_key_inj; [exact Hk |].
        unfold trending_key. cbn. rewrite !Z.eqb_refl, String.eqb_refl. reflexivity. }
    split; [split |]; [| | split].
    + apply (@objects_create_wf _ TrendingProduct_Model (trending_products db));
        [reflexivity | exact Hwf].
    + intros store' pid' w'. rewrite Hnew.
      destruct (trending_key_dec _ _) as [E | E].
      * injection E as -> -> ->. unfold trending_entries. rewrite Hf. cbn. lia.
      * rewrite app_nil_r. apply Huniq.
    + eexists. split; [| split; [| split]].
      * rewrite Hnew. unfold trending_entries at 1. rewrite Hf.
        destruct (trending_key_dec _ _); [reflexivity | congruence].
      * reflexivity.
      * reflexivity.
      * reflexivity.
    + intros store' pid' w' Hne. rewrite Hnew.
      destruct (trending_key_dec _ _); [congruence | apply app_nil_r].
  - (* an entry exists: overwrite *)
    cbn. destruct (filter_singleton_In _ _ Hf) as [Hin Hkr].
    set (r' := TrendingProduct.set_defaults (inject_Z (trending_score item))
                 (trending_velocity item) rank r).
    assert (Hkr' : forall store' pid' w',
               trending_key store' pid' w' r' = trending_key store' pid' w' r)
      by reflexivity.
    assert (Hother : forall store' pid' w',
               (store', pid', w') <> (store, pid, w) ->
               trending_entries (save_row r' (trending_products db)) store' pid' w'
               = trending_entries (trending_products db) store' pid' w').
    { intros store' pid' w' Hne. unfold trending_entries. rewrite save_row_rows.
      assert (Hk : trending_key store' pid' w' r = false).
      { destruct (trending_key store' pid' w' r) eqn:Hk; [| reflexivity].
        exfalso. apply Hne. eapply trending_key_inj; eassumption. }
      apply save_row_filter_other with (r := r);
        [apply Hwf | exact Hin | reflexivity | exact Hk | rewrite Hkr'; exact Hk]. }
    assert (Hthis : trending_entries (save_row r' (trending_products db)) store pid w = [r']).
    { unfold trending_entries. rewrite save_row_rows.
      apply save_row_filter with (r := r);
        [apply Hwf | exact Hf | rewrite Hkr'; exact Hkr | reflexivity]. }
    exists (save_row r' (trending_products db)).
    split; [reflexivity |]. split; [split |]; [| | split].
    + apply save_row_wf with (r := r); [exact Hwf | reflexivity | exact Hin].
    + intros store' pid' w'.
      destruct (trending_key_dec (store', pid', w') (store, pid, w)) as [E | E].
      * injection E as -> -> ->. rewrite Hthis. cbn. lia.
      * rewrite Hother by exact E. apply Huniq.
    + exists r'. split; [exact Hthis |]. repeat split.
    + exact Hother.
  - cbn in Hlen. lia.
Qed.

Lemma bind_ok :
  forall (A B : Type) (m : M A) (k : A -> M B) (db db' : Database) (a : A),
    m db = (Ok a, db') -> bind m k db = k a db'.
Proof.
  intros A B m k db db' a H. unfold bind. rewrite H. reflexivity.
Qed.

Lemma for_each_cons_ok :
  forall (A : Type) (body : A -> M unit) (x : A) (l : list A) (db db1 : Database),
    body x db = (Ok tt, db1) ->
    for_each (x :: l) body db = for_each l body db1.
Proof.
  intros A body x l db db1 H. cbn. unfold bind. rewrite H. reflexivity.
Qed.

Lemma set_trending_products_same :
  forall db, set_trending_products (trending_products db) db = db.
Proof. intros []. reflexivity. Qed.

Lemma find_exists :
  forall (A : Type) (f : A -> bool) (l : list A) (x : A),
    In x l -> f x = true -> exists y, find f l = Some y.
Proof.
  intros A f l x. induction l as [| z l IH]; cbn; intros Hin Hf; [contradiction |].
  destruct (f z) eqn:Hz; [eexists; reflexivity |].
  destruct Hin as [-> | Hin]; [congruence | apply IH; assumption].
Qed.

(** The loop over one window: every row is stored under its key with its
    score, its velocity and its position as rank; other keys are left
    alone. *)
Lemma trending_window_spec :
  forall (now store : Z) (w : string) (data : list TrendingRow.t) (start : Z)
         (db : Database),
    trending_inv (trending_products db) ->
    NoDup (map TrendingRow.product data) ->
    (forall item, In item data ->
       exists pid p, TrendingRow.product item = Some pid
                     /\ get_product (Some pid) db = Some p) ->
    exists t',
      for_each (enumerate_from start data) (store_trending now store w) db
      = (Ok tt, set_trending_products t' db)
      /\ trending_inv t'
      /\ (forall k item,
            nth_error data k = Some item ->
            exists pid e,
              TrendingRow.product item = Some pid
              /\ trending_entries t' store pid w = [e]
              /\ TrendingProduct.score e = inject_Z (trending_score item)
              /\ TrendingProduct.velocity e = trending_velocity item
              /\ TrendingProduct.rank e = start + Z.of_nat k)
      /\ (forall store' pid' w',
            ~ (store' = store /\ w' = w
               /\ In (Some pid') (map TrendingRow.product data)) ->
            trending_entries t' store' pid' w'
            = trending_entries (trending_products db) store' pid' w').
Proof.
  intros now store w data. induction data as [| item data IH];
    intros start db Hinv Hnd Hres.
  - exists (trending_products db). cbn. unfold ret.
    rewrite set_trending_products_same.
    split; [reflexivity |]. split; [exact Hinv |]. split.
    + intros [| k] item H; discriminate.
    + reflexivity.
  - inversion Hnd as [| ? ? Hnotin Hnd']; subst.
    destruct (Hres item (or_introl eq_refl)) as (pid & p & Hitem & Hget).
    destruct (store_trending_spec now store w start item db Hinv Hitem Hget)
      as (t1 & Hrun1 & Hinv1 & (e1 & He1 & Hs1 & Hv1 & Hr1) & Hframe1).
    destruct (IH (start + 1) (set_trending_products t1 db) Hinv1 Hnd')
      as (t2 & Hrun2 & Hinv2 & Hrows2 & Hframe2).
    { intros it Hit. apply Hres. right. exact Hit. }
    exists t2. cbn [enumerate_from].
    rewrite for_each_cons_ok with (db1 := set_trending_products t1 db) by exact Hrun1.
    rewrite Hrun2.
    split; [reflexivity |]. split; [exact Hinv2 |]. split.
    + intros [| k] it Hk; cbn in Hk.
      * injection Hk as <-. exists pid, e1.
        split; [exact Hitem |]. split; [| repeat split; [exact Hs1 | exact Hv1 | lia]].
        rewrite Hframe2; [exact He1 |].
        intros (_ & _ & Hin). apply Hnotin. rewrite Hitem. exact Hin.
      * destruct (Hrows2 k it Hk) as (pid' & e & Hp & He & Hs & Hv & Hr).
        exists pid', e. repeat split; try assumption. lia.
    + intros store' pid' w' Hne. rewrite Hframe2.
      * apply Hframe1. intros E. injection E as -> -> ->. apply Hne.
        repeat split. left. exact Hitem.
      * intros (H1 & H2 & H3). apply Hne. repeat split; try assumption.
        right. exact H3.
Qed.

(** The loop over the windows. *)
Lemma trending_windows_spec :
  forall (now store : Z) (ws : list (string * Z)) (db : Database),
    trending_inv (trending_products db) ->
    referential_integrity db ->
    NoDup (map fst ws) ->
    exists t',
      for_each ws
        (fun w =>
           db <- get_db ;;
           for_each (enumerate_from 1 (trending_data now store (snd w) db))
                    (store_trending now store (fst w))) db
      = (Ok tt, set_trending_products t' db)
      /\ trending_inv t'
      /\ (forall w time_delta k item,
            In (w, time_delta) ws ->
            nth_error (trending_data now store time_delta db) k = Some item ->
            exists pid e,
              TrendingRow.product item = Some pid
              /\ trending_entries t' store pid w = [e]
              /\ TrendingProduct.score e = inject_Z (trending_score item)
              /\ TrendingProduct.velocity e = trending_velocity item
              /\ TrendingProduct.rank e = Z.of_nat k + 1)
      /\ (forall store' pid' w',
            ~ In w' (map fst ws) ->
            trending_entries t' store' pid' w'
            = trending_entries (trending_products db) store' pid' w').
Proof.
  intros now store ws. induction ws as [| [w time_delta] ws IH];
    intros db Hinv Href Hnd.
  - exists (trending_products db). cbn. unfold ret.
    rewrite set_trending_products_same.
    split; [reflexivity |]. split; [exact Hinv |]. split.
    + intros w time_delta k item [].
    + reflexivity.
  - inversion Hnd as [| ? ? Hnotin Hnd']; subst.
    destruct (trending_window_spec now store w
                (trending_data now store time_delta db) 1 db Hinv
                (trending_data_NoDup now store time_delta db))
      as (t1 & Hrun1 & Hinv1 & Hrows1 & Hframe1).
    { intros item Hitem.
      destruct (trending_data_rows _ _ _ _ _ Hitem) as (pid & -> & i & Hi & Hp & _).
      destruct (Href i pid Hi Hp) as (p & Hpin & Hpid).
      destruct (find_exists (fun q => Product.id q =? pid) (products db) p Hpin)
        as (p' & Hfind); [apply Z.eqb_eq; exact Hpid |].
      exists pid, p'. split; [reflexivity | exact Hfind]. }
    destruct (IH (set_trending_products t1 db) Hinv1 Href Hnd')
      as (t2 & Hrun2 & Hinv2 & Hrows2 & Hframe2).
    exists t2.
    assert (Hfirst :
              (db0 <- get_db ;;
               for_each (enumerate_from 1 (trending_data now store (snd (w, time_delta)) db0))
                        (store_trending now store (fst (w, time_delta)))) db
              = (Ok tt, set_trending_products t1 db)) by exact Hrun1.
    rewrite for_each_cons_ok with (db1 := set_trending_products t1 db) by exact Hfirst.
    rewrite Hrun2.
    split; [reflexivity |]. split; [exact Hinv2 |]. split.
    + intros w' delta' k item [E | Hin] Hk.
      * injection E as <- <-.
        destruct (Hrows1 k item Hk) as (pid & e & Hp & He & Hs & Hv & Hr).
        exists pid, e. repeat split; try assumption; [| lia].
        rewrite Hframe2; [exact He | exact Hnotin].
      * apply (Hrows2 w' delta' k item Hin Hk).
    + intros store' pid' w' Hne. rewrite Hframe2.
      * apply Hframe1. intros (_ & E & _). apply Hne. left. symmetry. exact E.
      * intros Hin. apply Hne. right. exact Hin.
Qed.

Lemma windows_NoDup : NoDup (map fst windows).
Proof.
  cbn. repeat constructor; cbn; intuition discriminate.
Qed.

(** What one run of the trending task leaves in the trending table. *)
Lemma calculate_trending_products_spec :
  forall (now store_id : Z) (db : Database),
    In store_id (stores db) ->
    trending_inv (trending_products db) ->
    referential_integrity db ->
    exists msg t',
      calculate_trending_products now store_id db
      = (Ok msg, set_trending_products t' db)
      /\ trending_inv t'
      /\ (forall w time_delta k item,
            In (w, time_delta) windows ->
            nth_error (trending_data now store_id time_delta db) k = Some item ->
            exists pid e,
              TrendingRow.product item = Some pid
              /\ trending_entries t' store_id pid w = [e]
              /\ TrendingProduct.score e = inject_Z (trending_score item)
              /\ TrendingProduct.velocity e = trending_velocity item
              /\ TrendingProduct.rank e = Z.of_nat k + 1).
Proof.
  intros now store_id db Hstore Hinv Href.
  destruct (@trending_windows_spec now store_id windows db Hinv Href windows_NoDup)
    as (t' & Hrun & Hinv' & Hrows & _).
  assert (Hex : existsb (Z.eqb store_id) (stores db) = true).
  { apply existsb_exists. exists store_id. split; [exact Hstore | apply Z.eqb_refl]. }
  unfold calculate_trending_products.
  rewrite bind_ok with (a := db) (db' := db) by reflexivity.
  rewrite Hex.
  rewrite bind_ok with (a := tt) (db' := set_trending_products t' db) by exact Hrun.
  unfold ret. eexists. exists t'. split; [reflexivity |]. split; assumption.
Qed.

Lemma trending_data_resolves :
  forall now store time_delta db item,
    referential_integrity db ->
    In item (trending_data now store time_delta db) ->
    exists pid p, TrendingRow.product item = Some pid
                  /\ get_product (Some pid) db = Some p.
Proof.
  intros now store time_delta db item Href Hitem.
  destruct (trending_data_rows _ _ _ _ _ Hitem) as (pid & -> & i & Hi & Hp & _).
  destruct (Href i pid Hi Hp) as (p & Hpin & Hpid).
  destruct (find_exists (fun q => Product.id q =? pid) (products db) p Hpin)
    as (p' & Hfind); [apply Z.eqb_eq; exact Hpid |].
  exists pid, p'. split; [reflexivity | exact Hfind].
Qed.

Lemma trending_windows_frame :
  forall (now store : Z) (ws : list (string * Z)) (db : Database),
    trending_inv (trending_products db) ->
    referential_integrity db ->
    exists t',
      for_each ws
        (fun w =>
           db <- get_db ;;
           for_each (enumerate_from 1 (trending_data now store (snd w) db))
                    (store_trending now store (fst w))) db
      = (Ok tt, set_trending_products t' db)
      /\ (forall store' pid' w',
            ~ (store' = store
               /\ exists time_delta,
                    In (w', time_delta) ws
                    /\ In (Some pid')
                          (map TrendingRow.product
                               (trending_data now store time_delta db))) ->
            trending_entries t' store' pid' w'
            = trending_entries (trending_products db) store' pid' w')
      /\ (List.length (rows (trending_products db)) <= List.length (rows t'))%nat.
Proof.
  intros now store ws. induction ws as [| [w time_delta] ws IH]; intros db Hinv Href.
  - exists (trending_products db). cbn [for_each]. unfold ret.
    rewrite set_trending_products_same. repeat split. lia.
  - destruct (trending_window_spec now store w
                (trending_data now store time_delta db) 1 db Hinv
                (trending_data_NoDup now store time_delta db))
      as (t1 & Hrun1 & Hinv1 & _ & Hframe1).
    { intros item Hitem. eapply trending_data_resolves; eassumption. }
    destruct (IH (set_trending_products t1 db) Hinv1 Href) as (t2 & Hrun2 & Hframe2 & Hlen2).
    assert (Hlen1 : (List.length (rows (trending_products db)) <= List.length (rows t1))%nat).
    { clear - Hrun1 order_by_desc_spec.
      revert Hrun1. generalize (trending_data now store time_delta db) as data.
      generalize 1 as start. intros start data. revert start db t1.
      induction data as [| item data IHd]; intros start db t1 Hrun.
      - cbn in Hrun. unfold ret in Hrun. injection Hrun as E.
        apply (f_equal trending_products) in E. cbn in E. rewrite <- E. lia.
      - cbn [enumerate_from for_each] in Hrun. unfold bind at 1 in Hrun.
        destruct (store_trending now store w (start, item) db) as [[[] | ex] db1] eqn:Hstep;
          [| discriminate].
        assert (Hgrow : (List.length (rows (trending_products db))
                         <= List.length (rows (trending_products db1)))%nat
                        /\ db1 = set_trending_products (trending_products db1) db).
        { clear - Hstep.
          unfold store_trending, bind, get_db, put_db, lift, ret, update_or_create,
            objects_get in Hstep.
          destruct (get_product (TrendingRow.product item) db) as [p |].
          - destruct (filter _ (rows (trending_products db))) as [| r [| r0 l]];
              cbn in Hstep; try discriminate; injection Hstep as <-;
                cbn [trending_products set_trending_products rows].
            + rewrite length_app. cbn. split; [lia | reflexivity].
            + unfold save_row, save_fields. cbn [rows].
              rewrite length_map. split; [lia | reflexivity].
          - injection Hstep as <-. split; [lia |].
            rewrite set_trending_products_same. reflexivity. }
        destruct Hgrow as [Hgrow Hdb1].
        assert (Hrun' : for_each (enumerate_from (start + 1) data)
                          (store_trending now store w) db1
                        = (Ok tt, set_trending_products t1 db1)).
        { rewrite Hrun, Hdb1. reflexivity. }
        specialize (IHd _ _ _ Hrun'). lia. }
    exists t2.
    assert (Hfirst :
              (db0 <- get_db ;;
               for_each (enumerate_from 1 (trending_data now store (snd (w, time_delta)) db0))
                        (store_trending now store (fst (w, time_delta)))) db
              = (Ok tt, set_trending_products t1 db)) by exact Hrun1.
    rewrite for_each_cons_ok with (db1 := set_trending_products t1 db) by exact Hfirst.
    rewrite Hrun2. split; [reflexivity |]. split.
    + intros store' pid' w' Hne. rewrite Hframe2.
      * apply Hframe1. intros (Es & Ew & Hin). apply Hne. split; [exact Es |].
        exists time_delta. split; [left; rewrite Ew; reflexivity | exact Hin].
      * intros (Es & d & Hd & Hin). apply Hne. split; [exact Es |].
        exists d. split; [right; exact Hd | exact Hin].
    + cbn [trending_products set_trending_products] in Hlen2. lia.
Qed.

Lemma calculate_trending_products_full :
  forall (now store_id : Z) (db : Database),
    In store_id (stores db) ->
    trending_inv (trending_products db) ->
    referential_integrity db ->
    exists msg t',
      calculate_trending_products now store_id db
      = (Ok msg, set_trending_products t' db)
      /\ trending_inv t'
      /\ (forall w time_delta k item,
            In (w, time_delta) windows ->
            nth_error (trending_data now store_id time_delta db) k = Some item ->
            exists pid e,
              TrendingRow.product item = Some pid
              /\ trending_entries t' store_id pid w = [e]
              /\ TrendingProduct.score e = inject_Z (trending_score item)
              /\ TrendingProduct.velocity e = trending_velocity item
              /\ TrendingProduct.rank e = Z.of_nat k + 1)
      /\ (forall store' pid' w',
            ~ (store' = store_id
               /\ exists time_delta,
                    In (w', time_delta) windows
                    /\ In (Some pid')
                          (map TrendingRow.product
                               (trending_data now store_id time_delta db))) ->
            trending_entries t' store' pid' w'
            = trending_entries (trending_products db) store' pid' w').
Proof.
  intros now store_id db Hstore Hinv Href.
  destruct (@trending_windows_spec now store_id windows db Hinv Href windows_NoDup)
    as (t' & Hrun & Hinv' & Hrows & _).
  destruct (trending_windows_frame now store_id windows Hinv Href)
    as (t2 & Hrun2 & Hframe & _).
  rewrite Hrun in Hrun2. injection Hrun2 as E. subst t2.
  assert (Hex : existsb (Z.eqb store_id) (stores db) = true).
  { apply existsb_exists. exists store_id. split; [exact Hstore | apply Z.eqb_refl]. }
  unfold calculate_trending_products.
  rewrite bind_ok with (a := db) (db' := db) by reflexivity.
  rewrite Hex.
  rewrite bind_ok with (a := tt) (db' := set_trending_products t' db) by exact Hrun.
  unfold ret. eexists. exists t'. split; [reflexivity |].
  split; [exact Hinv' |]. split; [exact Hrows | exact Hframe].
Qed.

(** C2 (as amended). A run of the trending task writes, for every window,
    one entry for each of the first N products in descending order of
    interaction count, N being the smaller of 50 and the number of products
    with an interaction in the window; the ranks of these entries are 1, 2,
    ..., N without gaps in that order, so the interaction count never
    increases with the rank; a product of the window that is left out has
    an interaction count no higher than any product kept.  The entries the
    run does not write, those of earlier runs for products outside the
    current rows among them, stay as they were. *)
Theorem trending_ranks_follow_interaction_count :
  forall (now store_id : Z) (db : Database),
    In store_id (stores db) ->
    trending_inv (trending_products db) ->
    referential_integrity db ->
    exists msg db',
      calculate_trending_products now store_id db = (Ok msg, db')
      /\ (forall w time_delta,
            In (w, time_delta) windows ->
            let data := trending_data now store_id time_delta db in
            List.length data
            = Nat.min 50 (List.length (window_products store_id (now - time_delta) db))
            /\ StronglySorted
                 (fun a b => TrendingRow.interaction_count b
                             <= TrendingRow.interaction_count a) data
            /\ NoDup (map TrendingRow.product data)
            /\ (forall k item,
                  nth_error data k = Some item ->
                  exists pid e,
                    TrendingRow.product item = Some pid
                    /\ TrendingRow.interaction_count item
                       = count_all (window_interactions store_id (now - time_delta) pid db)
                    /\ trending_entries (trending_products db') store_id pid w = [e]
                    /\ TrendingProduct.rank e = Z.of_nat k + 1)
            /\ (forall pid i,
                  In i (window_interactions store_id (now - time_delta) pid db) ->
                  In (Some pid) (map TrendingRow.product data)
                  \/ forall item, In item data ->
                        count_all (window_interactions store_id (now - time_delta) pid db)
                        <= TrendingRow.interaction_count item))
      /\ (forall store' pid' w',
            ~ (store' = store_id
               /\ exists time_delta,
                    In (w', time_delta) windows
                    /\ In (Some pid')
                          (map TrendingRow.product
                               (trending_data now store_id time_delta db))) ->
            trending_entries (trending_products db') store' pid' w'
            = trending_entries (trending_products db) store' pid' w').
Proof.
  intros now store_id db Hstore Hinv Href.
  destruct (@calculate_trending_products_full now store_id db Hstore Hinv Href)
    as (msg & t' & Hrun & _ & Hrows & Hframe).
  exists msg, (set_trending_products t' db). split; [exact Hrun |].
  split; [| exact Hframe].
  intros w time_delta Hw data.
  split; [apply trending_data_count |].
  split; [apply trending_data_sorted |].
  split; [apply trending_data_NoDup |].
  split.
  - intros k item Hk.
    destruct (Hrows w time_delta k item Hw Hk) as (pid & e & Hp & He & _ & _ & Hr).
    destruct (trending_data_rows _ _ _ _ _ (nth_error_In _ _ Hk))
      as (pid' & Hitem & _).
    cbn zeta in Hitem. rewrite Hitem in Hp. injection Hp as ->.
    exists pid, e. split; [rewrite Hitem; reflexivity |].
    split; [rewrite Hitem; reflexivity |]. split; assumption.
  - intros pid i Hi. eapply trending_data_top. exact Hi.
Qed.

(** C5. A run of the trending task stores, for every product in a
    window's result, the score
    interaction_count + 5 * purchase_count + 2 * velocity_count, the counts
    being taken over the product's interactions in the window and
    velocity_count over those in its most recent half, and the velocity
    velocity_count / interaction_count.  When the window has at most 50
    products, every product with an interaction in it is in the result and
    has such an entry.  The divisor is max(interaction_count, 1): a row
    whose total is 0 is divided by 1, and has velocity 0. *)
Theorem trending_score_and_velocity :
  forall (now store_id : Z) (db : Database),
    In store_id (stores db) ->
    trending_inv (trending_products db) ->
    referential_integrity db ->
    exists msg db',
      calculate_trending_products now store_id db = (Ok msg, db')
      /\ (forall w time_delta k item,
            In (w, time_delta) windows ->
            nth_error (trending_data now store_id time_delta db) k = Some item ->
            exists pid e,
              let g := window_interactions store_id (now - time_delta) pid db in
              let interaction_count := count_all g in
              let purchase_count := count_if is_purchase g in
              let velocity_count :=
                count_if (fun i => now - time_delta / 2 <=? Interaction.created_at i) g in
              TrendingRow.product item = Some pid
              /\ trending_entries (trending_products db') store_id pid w = [e]
              /\ 0 < interaction_count
              /\ TrendingProduct.score e
                 = inject_Z (interaction_count + 5 * purchase_count + 2 * velocity_count)
              /\ (TrendingProduct.velocity e
                  == inject_Z velocity_count / inject_Z interaction_count)%Q)
      /\ (forall w time_delta pid i,
            In (w, time_delta) windows ->
            (List.length (window_products store_id (now - time_delta) db) <= 50)%nat ->
            In i (window_interactions store_id (now - time_delta) pid db) ->
            exists e,
              let g := window_interactions store_id (now - time_delta) pid db in
              let interaction_count := count_all g in
              let purchase_count := count_if is_purchase g in
              let velocity_count :=
                count_if (fun i => now - time_delta / 2 <=? Interaction.created_at i) g in
              trending_entries (trending_products db') store_id pid w = [e]
              /\ TrendingProduct.score e
                 = inject_Z (interaction_count + 5 * purchase_count + 2 * velocity_count)
              /\ (TrendingProduct.velocity e
                  == inject_Z velocity_count / inject_Z interaction_count)%Q)
      /\ (forall item,
            TrendingRow.interaction_count item <= 0 ->
            (trending_velocity item == inject_Z (TrendingRow.velocity item))%Q)
      /\ (forall item,
            TrendingRow.interaction_count item = 0 ->
            0 <= TrendingRow.velocity item <= TrendingRow.interaction_count item ->
            (trending_velocity item == 0)%Q).
Proof.
  intros now store_id db Hstore Hinv Href.
  destruct (@calculate_trending_products_spec now store_id db Hstore Hinv Href)
    as (msg & t' & Hrun & _ & Hrows).
  exists msg, (set_trending_products t' db). split; [exact Hrun |].
  assert (Hentry : forall w time_delta k item,
            In (w, time_delta) windows ->
            nth_error (trending_data now store_id time_delta db) k = Some item ->
            exists pid e,
              let g := window_interactions store_id (now - time_delta) pid db in
              let interaction_count := count_all g in
              let purchase_count := count_if is_purchase g in
              let velocity_count :=
                count_if (fun i => now - time_delta / 2 <=? Interaction.created_at i) g in
              TrendingRow.product item = Some pid
              /\ trending_entries t' store_id pid w = [e]
              /\ 0 < interaction_count
              /\ TrendingProduct.score e
                 = inject_Z (interaction_count + 5 * purchase_count + 2 * velocity_count)
              /\ (TrendingProduct.velocity e
                  == inject_Z velocity_count / inject_Z interaction_count)%Q).
  { intros w time_delta k item Hw Hk.
    destruct (Hrows w time_delta k item Hw Hk) as (pid & e & Hp & He & Hs & Hv & _).
    destruct (trending_data_rows _ _ _ _ _ (nth_error_In _ _ Hk))
      as (pid' & Hitem & i & _ & _ & Hi).
    cbn zeta in Hitem. rewrite Hitem in Hp. injection Hp as ->.
    exists pid, e. cbn zeta.
    assert (Hpos : 0 < count_all (window_interactions store_id (now - time_delta) pid db)).
    { unfold count_all.
      destruct (window_interactions store_id (now - time_delta) pid db);
        [contradiction | cbn; lia]. }
    split; [rewrite Hitem; reflexivity |]. split; [exact He |]. split; [exact Hpos |].
    split.
    + rewrite Hs, Hitem. unfold trending_score.
      cbn [TrendingRow.interaction_count TrendingRow.purchase_count TrendingRow.velocity].
      f_equal. lia.
    + rewrite Hv, Hitem. unfold trending_velocity.
      cbn [TrendingRow.interaction_count TrendingRow.velocity].
      rewrite Z.max_l by lia. reflexivity. }
  split; [exact Hentry |]. split; [| split].
  - intros w time_delta pid i Hw Hlen Hi.
    pose proof (trending_data_covers now store_id time_delta db pid i Hlen Hi) as Hin.
    apply in_map_iff in Hin as (item & Hp & Hitem).
    apply In_nth_error in Hitem as (k & Hk).
    destruct (Hentry w time_delta k item Hw Hk) as (pid' & e & Hp' & He & _ & Hs & Hv).
    cbn zeta in Hp', He, Hs, Hv. rewrite Hp in Hp'. injection Hp' as <-.
    exists e. cbn zeta. split; [exact He |]. split; [exact Hs | exact Hv].
  - intros item H0. unfold trending_velocity.
    rewrite Z.max_r by lia. change (inject_Z 1) with 1%Q. field.
  - intros item H0 Hv. unfold trending_velocity.
    replace (TrendingRow.velocity item) with 0 by lia. rewrite H0. reflexivity.
Qed.

(* ================================================================== *)
(** * Further properties of the code *)

(* ------------------------------------------------------------------ *)
(** ** Tables with a unique key *)

Section KeyedTables.
Context {A K : Type} {MA : Model A} (lookup : K -> A -> bool).
Hypothesis lookup_inj :
  forall k1 k2 r, lookup k1 r = true -> lookup k2 r = true -> k1 = k2.
Hypothesis K_dec : forall k1 k2 : K, {k1 = k2} + {k1 <> k2}.
Hypothesis pk_with_pk : forall (i : Z) (a : A), pk (with_pk i a) = i.

Lemma keyed_save_row :
  forall (t : Table A) (k : K) (r r' : A),
    keyed_inv lookup t ->
    filter (lookup k) (rows t) = [r] ->
    pk r' = pk r ->
    (forall k', lookup k' r' = lookup k' r) ->
    keyed_inv lookup (save_row r' t)
    /\ filter (lookup k) (rows (save_row r' t)) = [r']
    /\ (forall k', k' <> k ->
          filter (lookup k') (rows (save_row r' t)) = filter (lookup k') (rows t))
    /\ List.length (rows (save_row r' t)) = List.length (rows t).
Proof.
  intros t k r r' [Hwf Huniq] Hf Hpk Hsame.
  destruct (filter_singleton_In _ _ Hf) as [Hin Hkr].
  assert (Hthis : filter (lookup k) (rows (save_row r' t)) = [r']).
  { rewrite save_row_rows. apply save_row_filter with (r := r);
      [apply Hwf | exact Hf | rewrite Hsame; exact Hkr | exact Hpk]. }
  assert (Hother : forall k', k' <> k ->
             filter (lookup k') (rows (save_row r' t)) = filter (lookup k') (rows t)).
  { intros k' Hne. rewrite save_row_rows.
    assert (Hk : lookup k' r = false).
    { destruct (lookup k' r) eqn:E; [| reflexivity].
      exfalso. apply Hne. eapply lookup_inj; eassumption. }
    apply save_row_filter_other with (r := r);
      [apply Hwf | exact Hin | exact Hpk | exact Hk | rewrite Hsame; exact Hk]. }
  split; [split |]; [| | split; [exact Hthis | split; [exact Hother |]]].
  - apply save_row_wf with (r := r); assumption.
  - intros k'. destruct (K_dec k' k) as [-> | Hne].
    + rewrite Hthis. cbn. lia.
    + rewrite Hother by exact Hne. apply Huniq.
  - rewrite save_row_rows. apply length_map.
Qed.

Lemma keyed_get_or_create :
  forall (t : Table A) (k : K) (new_row : A),
    keyed_inv lookup t ->
    lookup k (with_pk (next_id t) new_row) = true ->
    exists found created t1,
      get_or_create (lookup k) true new_row t = (Ok (found, created), t1)
      /\ keyed_inv lookup t1
      /\ filter (lookup k) (rows t1) = [found]
      /\ (forall k', k' <> k ->
            filter (lookup k') (rows t1) = filter (lookup k') (rows t))
      /\ ((created = false /\ t1 = t /\ filter (lookup k) (rows t) = [found])
          \/ (created = true /\ filter (lookup k) (rows t) = []
              /\ found = with_pk (next_id t) new_row
              /\ t1 = mkTable (rows t ++ [found]) (next_id t + 1))).
Proof.
  intros t k new_row [Hwf Huniq] Hnew.
  unfold get_or_create, objects_get.
  pose proof (Huniq k) as Hlen.
  destruct (filter (lookup k) (rows t)) as [| r [| r0 l]] eqn:Hf.
  - cbn.
    assert (Hfilter : forall k',
               filter (lookup k') (rows t ++ [with_pk (next_id t) new_row])
               = filter (lookup k') (rows t)
                 ++ (if K_dec k' k then [with_pk (next_id t) new_row] else [])).
    { intros k'. rewrite filter_app. f_equal. cbn.
      destruct (K_dec k' k) as [-> | Hne]; [rewrite Hnew; reflexivity |].
      destruct (lookup k' _) eqn:E; [| reflexivity].
      exfalso. apply Hne. eapply lookup_inj; eassumption. }
    eexists. eexists. eexists. split; [reflexivity |].
    split; [split |]; [| | split; [| split]].
    + apply objects_create_wf; [exact pk_with_pk | exact Hwf].
    + intros k'. cbn [rows]. rewrite Hfilter.
      destruct (K_dec k' k) as [-> | Hne].
      * rewrite Hf. cbn. lia.
      * rewrite app_nil_r. apply Huniq.
    + cbn [rows]. rewrite Hfilter, Hf.
      destruct (K_dec k k); [reflexivity | congruence].
    + intros k' Hne. cbn [rows]. rewrite Hfilter.
      destruct (K_dec k' k); [congruence | apply app_nil_r].
    + right. repeat split.
  - exists r, false, t. split; [reflexivity |].
    split; [split; assumption |]. split; [exact Hf |].
    split; [reflexivity |]. left. repeat split.
  - cbn in Hlen. lia.
Qed.
End KeyedTables.

Lemma recommendation_lookup_inj :
  forall k1 k2 r,
    recommendation_lookup k1 r = true -> recommendation_lookup k2 r = true -> k1 = k2.
Proof.
  intros [[[[s1 u1] e1] p1] a1] [[[[s2 u2] e2] p2] a2] r.
  unfold recommendation_lookup, same_key. intros H1 H2.
  repeat match goal with
         | H : (_ && _)%bool = true |- _ => apply andb_true_iff in H; destruct H
         end.
  repeat match goal with
         | H : (_ =? _) = true |- _ => apply Z.eqb_eq in H
         | H : String.eqb _ _ = true |- _ => apply String.eqb_eq in H
         | H : option_eqb Z.eqb _ _ = true |- _ =>
             apply (reflect_iff _ _ (option_Z_eqb_spec _ _)) in H
         end.
  congruence.
Qed.

Lemma recommendation_key_dec :
  forall k1 k2 : Z * option Z * string * Z * string, {k1 = k2} + {k1 <> k2}.
Proof.
  intros k1 k2. repeat decide equality; try apply Z.eq_dec; apply ascii_dec.
Qed.

Lemma profile_lookup_inj :
  forall (k1 k2 : Z * Z) p,
    recommendation_profile_lookup k1 p = true ->
    recommendation_profile_lookup k2 p = true -> k1 = k2.
Proof.
  intros [s1 u1] [s2 u2] p. unfold recommendation_profile_lookup. cbn.
  intros H1 H2.
  apply andb_true_iff in H1, H2. destruct H1 as [A1 B1], H2 as [A2 B2].
  apply Z.eqb_eq in A1, B1, A2, B2. congruence.
Qed.

Lemma behavior_profile_lookup_inj :
  forall (k1 k2 : Z * Z) p,
    behavior_profile_lookup k1 p = true ->
    behavior_profile_lookup k2 p = true -> k1 = k2.
Proof.
  intros [s1 u1] [s2 u2] p. unfold behavior_profile_lookup. cbn.
  intros H1 H2.
  apply andb_true_iff in H1, H2. destruct H1 as [A1 B1], H2 as [A2 B2].
  apply Z.eqb_eq in A1, B1, A2, B2. congruence.
Qed.

Lemma ZZ_dec : forall k1 k2 : Z * Z, {k1 = k2} + {k1 <> k2}.
Proof. intros k1 k2. decide equality; apply Z.eq_dec. Qed.

(* ------------------------------------------------------------------ *)
(** ** Garbage collection and reads of recommendations *)

Lemma NoDup_map_filter :
  forall (A B : Type) (f : A -> B) (p : A -> bool) (l : list A),
    NoDup (map f l) -> NoDup (map f (filter p l)).
Proof.
  intros A B f p l. induction l as [| a l IH]; cbn; intros H; [constructor |].
  inversion H as [| ? ? Hnotin Hnd]; subst.
  destruct (p a); cbn; [| apply IH; exact Hnd].
  constructor; [| apply IH; exact Hnd].
  intros Hin. apply Hnotin.
  apply in_map_iff in Hin as (x & E & Hx).
  apply filter_In in Hx as [Hx _]. rewrite <- E. apply in_map. exact Hx.
Qed.

Lemma filter_idem :
  forall (A : Type) (p : A -> bool) (l : list A), filter p (filter p l) = filter p l.
Proof.
  intros A p l. induction l as [| a l IH]; cbn; [reflexivity |].
  destruct (p a) eqn:E; cbn; [rewrite E, IH; reflexivity | exact IH].
Qed.

Lemma is_old_or_expired_false :
  forall now r,
    is_old_or_expired now r = false
    <-> now - days 30 <= Recommendation.created_at r
        /\ forall e, Recommendation.expires_at r = Some e -> now <= e.
Proof.
  intros now r. unfold is_old_or_expired. rewrite orb_false_iff, Z.ltb_ge.
  destruct (Recommendation.expires_at r) as [e |].
  - rewrite Z.ltb_ge. split.
    + intros [H1 H2]. split; [exact H1 |]. intros e' E. injection E as <-. exact H2.
    + intros [H1 H2]. split; [exact H1 | apply H2; reflexivity].
  - split.
    + intros [H1 _]. split; [exact H1 | discriminate].
    + intros [H1 _]. split; [exact H1 | reflexivity].
Qed.

Lemma order_by_desc_In :
  forall (A : Type) (key : A -> Q) (l : list A) (x : A),
    In x (order_by_desc key l) <-> In x l.
Proof.
  intros A key l x. destruct (order_by_desc_spec key l) as [Hperm _]. split.
  - apply Permutation_in. symmetry. exact Hperm.
  - apply Permutation_in. exact Hperm.
Qed.

Lemma get_queryset_In :
  forall now store active_only db r,
    In r (get_queryset now store active_only db)
    <-> In r (rows (recommendations db))
        /\ Recommendation.store r = store
        /\ (String.eqb (lower (match active_only with Some v => v | None => "true" end))
                       "true" = true ->
            is_active_at now r = true).
Proof.
  clear ContentBasedEngine.
  intros now store active_only db r. unfold get_queryset.
  rewrite order_by_desc_In.
  destruct (String.eqb _ "true").
  - rewrite !filter_In, Z.eqb_eq. intuition.
  - rewrite filter_In, Z.eqb_eq. intuition discriminate.
Qed.

(** X1 ([cleanup_old_recommendations]): the rows left in the
    recommendations table are exactly those created within the last 30 days
    whose expiry date, when they have one, is not in the past; primary keys
    stay unique and are not reused, and a second run at the same time
    deletes no further recommendation.  The feedback rows that go with a
    deleted recommendation are outside the statement. *)
Theorem cleanup_old_recommendations_spec :
  forall (now : Z) (db : Database),
    exists db',
      cleanup_old_recommendations now db = (Ok tt, db')
      /\ next_id (recommendations db') = next_id (recommendations db)
      /\ (forall r,
            In r (rows (recommendations db'))
            <-> In r (rows (recommendations db))
                /\ now - days 30 <= Recommendation.created_at r
                /\ forall e, Recommendation.expires_at r = Some e -> now <= e)
      /\ (table_wf (recommendations db) -> table_wf (recommendations db'))
      /\ exists db'',
           cleanup_old_recommendations now db' = (Ok tt, db'')
           /\ recommendations db'' = recommendations db'.
Proof.
  intros now db. eexists. split; [reflexivity |].
  split; [reflexivity |]. split; [| split].
  - intros r. cbn [recommendations set_recommendations rows].
    rewrite filter_In, negb_true_iff, is_old_or_expired_false. reflexivity.
  - intros [Hnd Hlt]. split; cbn [recommendations set_recommendations rows next_id].
    + apply NoDup_map_filter. exact Hnd.
    + intros r Hr. apply filter_In in Hr as [Hr _]. apply Hlt. exact Hr.
  - eexists. split; [reflexivity |].
    cbn [recommendations set_recommendations rows next_id].
    rewrite filter_idem. reflexivity.
Qed.

(** X2 ([cleanup_old_recommendations] before
    [RecommendationViewSet.get_queryset]): a listing read at or after the
    time of a clean-up shows only rows it showed before, and the default
    listing of active recommendations loses exactly the rows created more
    than 30 days before the clean-up. *)
Theorem active_listing_after_cleanup :
  forall (now now' : Z) (db : Database),
    now <= now' ->
    exists db',
      cleanup_old_recommendations now db = (Ok tt, db')
      /\ (forall store active_only r,
            In r (get_queryset now' store active_only db') ->
            In r (get_queryset now' store active_only db))
      /\ (forall store r,
            In r (get_queryset now' store None db')
            <-> In r (get_queryset now' store None db)
                /\ now - days 30 <= Recommendation.created_at r).
Proof.
  clear ContentBasedEngine.
  intros now now' db Hle. eexists. split; [reflexivity |]. split.
  - intros store active_only r. rewrite !get_queryset_In.
    cbn [recommendations set_recommendations rows].
    rewrite filter_In. intuition.
  - intros store r. rewrite !get_queryset_In.
    cbn [recommendations set_recommendations rows].
    rewrite filter_In, negb_true_iff, is_old_or_expired_false.
    change (String.eqb (lower "true") "true") with true.
    unfold is_active_at. split.
    + intros ((Hin & Hc & _) & Hs & Ha). repeat split; assumption.
    + intros ((Hin & Hs & Ha) & Hc). repeat split; try assumption.
      intros e E. specialize (Ha eq_refl). rewrite E in Ha.
      apply Z.ltb_lt in Ha. lia.
Qed.

Lemma same_key_fields :
  forall store user_id session product algo r,
    same_key store user_id session product algo r = true ->
    Recommendation.store r = store
    /\ Recommendation.user r = user_id
    /\ Recommendation.session_id r = session
    /\ Recommendation.product r = product
    /\ Recommendation.algorithm r = algo.
Proof.
  intros store user_id session product algo r H. unfold same_key in H.
  repeat match goal with
         | H : (_ && _)%bool = true |- _ => apply andb_true_iff in H; destruct H
         end.
  repeat match goal with
         | H : (_ =? _) = true |- _ => apply Z.eqb_eq in H
         | H : String.eqb _ _ = true |- _ => apply String.eqb_eq in H
         | H : option_eqb Z.eqb _ _ = true |- _ =>
             apply (reflect_iff _ _ (option_Z_eqb_spec _ _)) in H
         end.
  repeat split; assumption.
Qed.

Lemma store_recommendation_created_at :
  forall now store user_id session_id algorithm context rec db r1 db1,
    filter (same_key store user_id (or_default session_id EmptyString)
              (Product.id (Candidate.product rec)) (or_default algorithm "hybrid"))
           (rows (recommendations db)) = [] ->
    store_recommendation now store user_id session_id algorithm context rec db
    = (Ok r1, db1) ->
    Recommendation.created_at r1 = now.
Proof.
  intros now store user_id session_id algorithm context rec db r1 db1 Hf.
  unfold store_recommendation, bind, get_db, get_or_create, objects_get.
  rewrite Hf. destruct (user_fk_ok user_id db); cbn; intros E.
  - injection E as <- _. reflexivity.
  - discriminate.
Qed.

(** X3 (the upsert of [RecommendationService.get_recommendations] before
    [RecommendationViewSet.get_queryset] and [cleanup_old_recommendations]):
    the row an upsert returns is listed for its tenant by every read made
    less than 24 hours later, and by no default (active-only) read from then
    on.  A new row carries the time of the upsert as creation time, a
    refreshed row keeps its old one, and a clean-up run within the 24 hours
    keeps the row exactly when that creation time is at most 30 days old. *)
Theorem stored_recommendation_is_listed :
  forall (now store : Z) (user_id : option Z) (session_id algorithm : option string)
         (context : list (string * string)) (rec : Candidate.t) (db : Database),
    let key := same_key store user_id (or_default session_id EmptyString)
                 (Product.id (Candidate.product rec)) (or_default algorithm "hybrid") in
    table_wf (recommendations db) ->
    user_fk_ok user_id db = true ->
    (List.length (filter key (rows (recommendations db))) <= 1)%nat ->
    exists r1 db1,
      store_recommendation now store user_id session_id algorithm context rec db
      = (Ok r1, db1)
      /\ (forall now' active_only,
            now' < now + hours 24 -> In r1 (get_queryset now' store active_only db1))
      /\ (forall now',
            now + hours 24 <= now' -> ~ In r1 (get_queryset now' store None db1))
      /\ (filter key (rows (recommendations db)) = [] ->
          Recommendation.created_at r1 = now)
      /\ (forall r, filter key (rows (recommendations db)) = [r] ->
            Recommendation.created_at r1 = Recommendation.created_at r)
      /\ (forall now' db2,
            now' <= now + hours 24 ->
            cleanup_old_recommendations now' db1 = (Ok tt, db2) ->
            (In r1 (rows (recommendations db2))
             <-> now' - days 30 <= Recommendation.created_at r1)).
Proof.
  intros now store user_id session_id algorithm context rec db key Hwf Hfk Hlen.
  destruct (store_recommendation_spec now store user_id session_id algorithm context
              rec db Hwf Hfk Hlen)
    as (r1 & t1 & Hrun & Hwf1 & Hf1 & Hranked & Hold & Hnew).
  fold key in Hf1, Hold, Hnew.
  destruct (filter_singleton_In _ _ Hf1) as [Hin Hkey].
  apply same_key_fields in Hkey. destruct Hkey as (Hstore & _).
  destruct Hranked as (_ & _ & _ & _ & Hexp).
  exists r1, (set_recommendations t1 db). split; [exact Hrun |].
  split; [| split; [| split; [| split]]].
  - intros now' active_only Hlt. apply get_queryset_In.
    split; [exact Hin |]. split; [exact Hstore |]. intros _.
    unfold is_active_at. rewrite Hexp. apply Z.ltb_lt. exact Hlt.
  - intros now' Hge Hlisted. apply get_queryset_In in Hlisted.
    destruct Hlisted as (_ & _ & Ha). specialize (Ha eq_refl).
    unfold is_active_at in Ha. rewrite Hexp in Ha. apply Z.ltb_lt in Ha. lia.
  - intros Hf. eapply store_recommendation_created_at; [exact Hf | exact Hrun].
  - intros r Hf. apply (Hold r Hf).
  - intros now' db2 Hle Hclean.
    unfold cleanup_old_recommendations, bind, get_db, put_db in Hclean.
    injection Hclean as <-. cbn [recommendations set_recommendations rows].
    rewrite filter_In, negb_true_iff, is_old_or_expired_false. split.
    + intros (_ & Hc & _). exact Hc.
    + intros Hc. split; [exact Hin |]. split; [exact Hc |].
      intros e E. rewrite Hexp in E. injection E as <-. exact Hle.
Qed.

(* ------------------------------------------------------------------ *)
(** ** The feedback loop *)

Lemma sum_Z_shift : forall (l : list Z) (a : Z), fold_left Z.add l a = a + sum_Z l.
Proof.
  unfold sum_Z. induction l as [| x l IH]; intros a; cbn; [lia |].
  rewrite (IH (a + x)), (IH x). lia.
Qed.

Lemma sum_Z_cons : forall (x : Z) (l : list Z), sum_Z (x :: l) = x + sum_Z l.
Proof. intros x l. unfold sum_Z at 1. cbn. apply sum_Z_shift. Qed.

Lemma filter_pk_singleton :
  forall (A : Type) (MA : Model A) (l : list A) (r : A),
    NoDup (map pk l) -> In r l -> filter (fun x => pk x =? pk r) l = [r].
Proof.
  intros A MA l r. induction l as [| a l IH]; intros Hnd Hin; [destruct Hin |].
  inversion Hnd as [| ? ? Hnotin Hnd']; subst. cbn.
  destruct Hin as [-> | Hin].
  - rewrite Z.eqb_refl. f_equal. apply filter_none.
    intros x Hx. apply Z.eqb_neq. intros E. apply Hnotin.
    rewrite <- E. apply in_map. exact Hx.
  - destruct (pk a =? pk r) eqn:E; [| apply IH; assumption].
    exfalso. apply Z.eqb_eq in E. apply Hnotin. rewrite E. apply in_map. exact Hin.
Qed.

Lemma find_pk :
  forall (A : Type) (MA : Model A) (l : list A) (r : A),
    NoDup (map pk l) -> In r l -> find (fun x => pk x =? pk r) l = Some r.
Proof.
  intros A MA l r. induction l as [| a l IH]; intros Hnd Hin; [destruct Hin |].
  inversion Hnd as [| ? ? Hnotin Hnd']; subst. cbn.
  destruct Hin as [-> | Hin]; [rewrite Z.eqb_refl; reflexivity |].
  destruct (pk a =? pk r) eqn:E; [| apply IH; assumption].
  exfalso. apply Z.eqb_eq in E. apply Hnotin. rewrite E. apply in_map. exact Hin.
Qed.

Lemma related_user_stored :
  forall (db : Database) (user : User.t),
    NoDup (map User.id (users db)) -> In user (users db) ->
    related_user (User.id user) db = Ok user.
Proof.
  intros db user Hnd Hin. unfold related_user.
  pose proof (find_pk User_Model (users db) user Hnd Hin) as E.
  cbn [pk User_Model] in E. rewrite E. reflexivity.
Qed.

Lemma save_fields_one :
  forall (t : Table Recommendation.t) (r : Recommendation.t)
         (write : Recommendation.t -> Recommendation.t),
    table_wf t -> In r (rows t) ->
    save_fields (Recommendation.id r) write t
    = mkTable (map (fun x => if Recommendation.id x =? Recommendation.id r
                             then write r else x) (rows t))
              (next_id t).
Proof.
  intros t r write [Hnd _] Hin. unfold save_fields. f_equal.
  apply map_ext_in. intros x Hx.
  change (pk x) with (Recommendation.id x).
  destruct (Recommendation.id x =? Recommendation.id r) eqn:E; [| reflexivity].
  apply Z.eqb_eq in E.
  rewrite (pk_unique Recommendation_Model (rows t) x r Hnd Hx Hin E). reflexivity.
Qed.

Lemma sum_after_write :
  forall (g : Recommendation.t -> Z) (p : Recommendation.t -> bool)
         (l : list Recommendation.t) (r r' : Recommendation.t),
    NoDup (map Recommendation.id l) -> In r l -> p r' = p r ->
    sum_Z (map g (filter p (map (fun x => if Recommendation.id x =? Recommendation.id r
                                          then r' else x) l)))
    = sum_Z (map g (filter p l)) + (if p r then g r' - g r else 0).
Proof.
  intros g p l r r'. induction l as [| a l IH]; intros Hnd Hin Hp; [destruct Hin |].
  inversion Hnd as [| ? ? Hnotin Hnd']; subst.
  cbn [map filter]. destruct Hin as [-> | Hin].
  - rewrite Z.eqb_refl, Hp.
    rewrite map_unchanged.
    + destruct (p r); cbn [map]; rewrite ?sum_Z_cons; lia.
    + intros x Hx. cbv beta. destruct (Recommendation.id x =? Recommendation.id r) eqn:E;
        [| reflexivity].
      exfalso. apply Z.eqb_eq in E. apply Hnotin. rewrite <- E. apply in_map. exact Hx.
  - assert (E : (Recommendation.id a =? Recommendation.id r) = false).
    { apply Z.eqb_neq. intros E. apply Hnotin. rewrite E. apply in_map. exact Hin. }
    rewrite E. specialize (IH Hnd' Hin Hp).
    destruct (p a); cbn [map]; rewrite ?sum_Z_cons; lia.
Qed.

Lemma recommendation_profile_lookup_new :
  forall (s u n : Z),
    recommendation_profile_lookup (s, u)
      (with_pk n (UserRecommendationProfile.default s u)) = true.
Proof.
  intros s u n. unfold recommendation_profile_lookup. cbn. rewrite !Z.eqb_refl. reflexivity.
Qed.

Lemma _update_user_profile_run :
  forall (now : Z) (user : User.t) (db : Database),
    keyed_inv recommendation_profile_lookup (user_recommendation_profiles db) ->
    let k := (User.store user, User.id user) in
    let recs := recommendations_of user db in
    let shown := sum_Z (map Recommendation.shown_count recs) in
    let clicked := sum_Z (map Recommendation.click_count recs) in
    let purchased := sum_Z (map Recommendation.purchase_count recs) in
    exists found created t1,
      get_or_create (recommendation_profile_lookup k) true
        (UserRecommendationProfile.default (User.store user) (User.id user))
        (user_recommendation_profiles db) = (Ok (found, created), t1)
      /\ _update_user_profile now user db
         = (Ok tt,
            set_user_recommendation_profiles
              (if 0 <? shown then
                 save_row
                   (UserRecommendationProfile.set_rates
                      (inject_Z clicked / inject_Z shown * 100)%Q
                      (inject_Z purchased / inject_Z shown * 100)%Q
                      (UserRecommendationProfile.set_totals shown clicked purchased
                         (Some now) found))
                   t1
               else t1) db).
Proof.
  intros now user db Hinv k recs shown clicked purchased.
  destruct (@keyed_get_or_create _ _ UserRecommendationProfile_Model
              recommendation_profile_lookup profile_lookup_inj
              ZZ_dec (fun i a => eq_refl) (user_recommendation_profiles db) k
              (UserRecommendationProfile.default (User.store user) (User.id user))
              Hinv (recommendation_profile_lookup_new _ _ _))
    as (found & created & t1 & Hgoc & _).
  exists found, created, t1. split; [exact Hgoc |].
  unfold _update_user_profile, bind, get_db.
  change (fun p => (UserRecommendationProfile.store p =? User.store user)
                   && (UserRecommendationProfile.user p =? User.id user))
    with (recommendation_profile_lookup k).
  rewrite Hgoc. cbn [put_db lift fst].
  unfold update_performance_metrics.
  cbn [UserRecommendationProfile.total_recommendations_shown
       UserRecommendationProfile.total_recommendations_clicked
       UserRecommendationProfile.total_recommendations_purchased
       UserRecommendationProfile.set_totals
       recommendations set_user_recommendation_profiles].
  fold recs. fold (recommendations_of user db). fold recs. fold shown clicked purchased.
  destruct (0 <? shown); reflexivity.
Qed.

Lemma record_impression_run :
  forall (now : Z) (db : Database) (r : Recommendation.t),
    table_wf (recommendations db) -> In r (rows (recommendations db)) ->
    let r' := Recommendation.set_shown_count (Recommendation.shown_count r + 1) r in
    let db1 :=
      set_recommendations
        (mkTable (map (fun x => if Recommendation.id x =? Recommendation.id r
                                then r' else x) (rows (recommendations db)))
                 (next_id (recommendations db))) db in
    (Recommendation.user r = None ->
     record_impression now (Recommendation.id r) db = (Ok tt, db1))
    /\ (forall user db',
          Recommendation.user r = Some (User.id user) ->
          related_user (User.id user) db = Ok user ->
          _update_user_profile now user db1 = (Ok tt, db') ->
          record_impression now (Recommendation.id r) db = (Ok tt, db')).
Proof.
  intros now db r Hwf Hin r' db1.
  pose proof (filter_pk_singleton Recommendation_Model (rows (recommendations db)) r
                (proj1 Hwf) Hin) as Hget.
  cbn [pk Recommendation_Model] in Hget.
  assert (Hinc : increment_shown r db = (Ok r', db1)).
  { unfold increment_shown, bind, get_db, put_db, ret.
    cbn [pk Recommendation_Model Recommendation.id Recommendation.set_shown_count
         Recommendation.shown_count].
    rewrite (@save_fields_one (recommendations db) r _ Hwf Hin). reflexivity. }
  split.
  - intros Hu. unfold record_impression, try_except, bind, get_db, lift, objects_get.
    rewrite Hget, Hinc. cbn [Recommendation.user r' Recommendation.set_shown_count].
    rewrite Hu. reflexivity.
  - intros user db' Hu Hrel Hrun.
    unfold record_impression, try_except, bind, get_db, lift, objects_get.
    rewrite Hget, Hinc. cbn [Recommendation.user r' Recommendation.set_shown_count].
    rewrite Hu.
    change (related_user (User.id user) db1) with (related_user (User.id user) db).
    rewrite Hrel, Hrun. reflexivity.
Qed.

Lemma record_click_run :
  forall (now : Z) (db : Database) (r : Recommendation.t),
    table_wf (recommendations db) -> In r (rows (recommendations db)) ->
    let r' := Recommendation.set_click_count (Recommendation.click_count r + 1) r in
    let db1 :=
      set_recommendations
        (mkTable (map (fun x => if Recommendation.id x =? Recommendation.id r
                                then r' else x) (rows (recommendations db)))
                 (next_id (recommendations db))) db in
    (Recommendation.user r = None ->
     record_click now (Recommendation.id r) db = (Ok tt, db1))
    /\ (forall user db',
          Recommendation.user r = Some (User.id user) ->
          related_user (User.id user) db = Ok user ->
          _update_user_profile now user db1 = (Ok tt, db') ->
          record_click now (Recommendation.id r) db = (Ok tt, db')).
Proof.
  intros now db r Hwf Hin r' db1.
  pose proof (filter_pk_singleton Recommendation_Model (rows (recommendations db)) r
                (proj1 Hwf) Hin) as Hget.
  cbn [pk Recommendation_Model] in Hget.
  assert (Hinc : increment_click r db = (Ok r', db1)).
  { unfold increment_click, bind, get_db, put_db, ret.
    cbn [pk Recommendation_Model Recommendation.id Recommendation.set_click_count
         Recommendation.click_count].
    rewrite (@save_fields_one (recommendations db) r _ Hwf Hin). reflexivity. }
  split.
  - intros Hu. unfold record_click, try_except, bind, get_db, lift, objects_get.
    rewrite Hget, Hinc. cbn [Recommendation.user r' Recommendation.set_click_count].
    rewrite Hu. reflexivity.
  - intros user db' Hu Hrel Hrun.
    unfold record_click, try_except, bind, get_db, lift, objects_get.
    rewrite Hget, Hinc. cbn [Recommendation.user r' Recommendation.set_click_count].
    rewrite Hu.
    change (related_user (User.id user) db1) with (related_user (User.id user) db).
    rewrite Hrel, Hrun. reflexivity.
Qed.

Lemma write_keeps_wf :
  forall (t : Table Recommendation.t) (r r' : Recommendation.t),
    table_wf t -> In r (rows t) -> Recommendation.id r' = Recommendation.id r ->
    table_wf (mkTable (map (fun x => if Recommendation.id x =? Recommendation.id r
                                     then r' else x) (rows t))
                      (next_id t)).
Proof.
  intros t r r' Hwf Hin Hid.
  pose proof (@save_row_wf _ Recommendation_Model t r r' Hwf Hid Hin) as H.
  unfold save_row, save_fields in H. cbn [pk Recommendation_Model] in H.
  rewrite Hid in H. exact H.
Qed.

Lemma user_profile_after :
  forall (now : Z) (user : User.t) (db1 : Database),
    keyed_inv recommendation_profile_lookup (user_recommendation_profiles db1) ->
    let k := (User.store user, User.id user) in
    let recs := recommendations_of user db1 in
    let shown := sum_Z (map Recommendation.shown_count recs) in
    let clicked := sum_Z (map Recommendation.click_count recs) in
    let purchased := sum_Z (map Recommendation.purchase_count recs) in
    exists t',
      _update_user_profile now user db1
      = (Ok tt, set_user_recommendation_profiles t' db1)
      /\ keyed_inv recommendation_profile_lookup t'
      /\ (forall k', k' <> k ->
            filter (recommendation_profile_lookup k') (rows t')
            = filter (recommendation_profile_lookup k')
                     (rows (user_recommendation_profiles db1)))
      /\ (0 < shown ->
          exists p,
            filter (recommendation_profile_lookup k) (rows t') = [p]
            /\ UserRecommendationProfile.total_recommendations_shown p = shown
            /\ UserRecommendationProfile.total_recommendations_clicked p = clicked
            /\ UserRecommendationProfile.total_recommendations_purchased p = purchased
            /\ UserRecommendationProfile.overall_ctr p
               = (inject_Z clicked / inject_Z shown * 100)%Q
            /\ UserRecommendationProfile.overall_conversion_rate p
               = (inject_Z purchased / inject_Z shown * 100)%Q
            /\ UserRecommendationProfile.last_recommendation_at p = Some now)
      /\ (shown <= 0 ->
          (forall p,
             filter (recommendation_profile_lookup k)
                    (rows (user_recommendation_profiles db1)) = [p] ->
             t' = user_recommendation_profiles db1)
          /\ (filter (recommendation_profile_lookup k)
                     (rows (user_recommendation_profiles db1)) = [] ->
              filter (recommendation_profile_lookup k) (rows t')
              = [with_pk (next_id (user_recommendation_profiles db1))
                   (UserRecommendationProfile.default (User.store user) (User.id user))])).
Proof.
  intros now user db1 Hinv k recs shown clicked purchased.
  destruct (@_update_user_profile_run now user db1 Hinv)
    as (found & created & t1 & Hgoc & Hrun).
  fold k recs shown clicked purchased in Hgoc, Hrun.
  destruct (@keyed_get_or_create _ _ UserRecommendationProfile_Model
              recommendation_profile_lookup profile_lookup_inj
              ZZ_dec (fun i a => eq_refl) (user_recommendation_profiles db1) k
              (UserRecommendationProfile.default (User.store user) (User.id user))
              Hinv (recommendation_profile_lookup_new _ _ _))
    as (found' & created' & t1' & Hgoc' & Hinv1 & Hf1 & Hframe1 & Hcases).
  rewrite Hgoc in Hgoc'. injection Hgoc' as <- <- <-.
  destruct (0 <? shown) eqn:Hshown.
  - set (p' := UserRecommendationProfile.set_rates
                 (inject_Z clicked / inject_Z shown * 100)%Q
                 (inject_Z purchased / inject_Z shown * 100)%Q
                 (UserRecommendationProfile.set_totals shown clicked purchased
                    (Some now) found)) in *.
    destruct (@keyed_save_row _ _ UserRecommendationProfile_Model
                recommendation_profile_lookup profile_lookup_inj ZZ_dec
                t1 k found p' Hinv1 Hf1 eq_refl (fun k' => eq_refl))
      as (Hinv2 & Hf2 & Hframe2 & _).
    exists (save_row p' t1). split; [exact Hrun |]. split; [exact Hinv2 |].
    split; [| split].
    + intros k' Hne. rewrite Hframe2 by exact Hne. apply Hframe1. exact Hne.
    + intros _. exists p'. split; [exact Hf2 |]. repeat split.
    + intros Hle. apply Z.ltb_lt in Hshown. lia.
  - exists t1. split; [exact Hrun |]. split; [exact Hinv1 |].
    split; [exact Hframe1 |]. split.
    + intros Hpos. apply Z.ltb_ge in Hshown. lia.
    + intros _. split.
      * intros p Hp.
        destruct Hcases as [(_ & -> & _) | (_ & Hnone & _)];
          [reflexivity | rewrite Hnone in Hp; discriminate].
      * intros Hnone.
        destruct Hcases as [(_ & _ & Hsome) | (_ & _ & -> & _)];
          [rewrite Hnone in Hsome; discriminate | exact Hf1].
Qed.

Lemma set_user_recommendation_profiles_same :
  forall db, set_user_recommendation_profiles (user_recommendation_profiles db) db = db.
Proof. intros []. reflexivity. Qed.

Lemma feedback_shape :
  forall (now : Z) (db : Database) (r r' : Recommendation.t) (run : M unit),
    let db1 :=
      set_recommendations
        (mkTable (map (fun x => if Recommendation.id x =? Recommendation.id r
                                then r' else x) (rows (recommendations db)))
                 (next_id (recommendations db))) db in
    ((Recommendation.user r = None -> run db = (Ok tt, db1))
     /\ (forall user db',
           Recommendation.user r = Some (User.id user) ->
           related_user (User.id user) db = Ok user ->
           _update_user_profile now user db1 = (Ok tt, db') ->
           run db = (Ok tt, db'))) ->
    keyed_inv recommendation_profile_lookup (user_recommendation_profiles db) ->
    NoDup (map User.id (users db)) ->
    (forall uid, Recommendation.user r = Some uid ->
                 exists u, In u (users db) /\ User.id u = uid) ->
    exists t',
      run db = (Ok tt, set_user_recommendation_profiles t' db1)
      /\ (Recommendation.user r = None -> t' = user_recommendation_profiles db)
      /\ keyed_inv recommendation_profile_lookup t'.
Proof.
  intros now db r r' run db1 [Hanon Huser] Hinv Hnd Hres.
  destruct (Recommendation.user r) as [uid |] eqn:Hu.
  - destruct (Hres uid eq_refl) as (u & Hin & <-).
    destruct (@user_profile_after now u db1 Hinv) as (t' & Hrun & Hinv' & _).
    exists t'. split; [| split; [discriminate | exact Hinv']].
    apply (Huser u); [reflexivity | apply related_user_stored; assumption | exact Hrun].
  - exists (user_recommendation_profiles db). split; [| split; [reflexivity | exact Hinv]].
    rewrite Hanon by reflexivity.
    change (user_recommendation_profiles db) with (user_recommendation_profiles db1).
    rewrite set_user_recommendation_profiles_same. reflexivity.
Qed.

(** X4 ([RecommendationService.record_impression] and [record_click], with
    [Recommendation.increment_shown] and [increment_click]): feedback on a
    stored recommendation succeeds and adds one to the one counter of that
    one row; every other row and every other field is left as it was, no
    table but the recommendation profiles is written, and not even that one
    when the recommendation belongs to no user. *)
Theorem feedback_increments_one_counter :
  forall (now : Z) (db : Database) (r : Recommendation.t),
    table_wf (recommendations db) ->
    In r (rows (recommendations db)) ->
    keyed_inv recommendation_profile_lookup (user_recommendation_profiles db) ->
    NoDup (map User.id (users db)) ->
    users_resolve db ->
    let written r' :=
      mkTable (map (fun x => if Recommendation.id x =? Recommendation.id r
                             then r' else x) (rows (recommendations db)))
              (next_id (recommendations db)) in
    exists db1 db2,
      record_impression now (Recommendation.id r) db = (Ok tt, db1)
      /\ record_click now (Recommendation.id r) db = (Ok tt, db2)
      /\ recommendations db1
         = written (Recommendation.set_shown_count (Recommendation.shown_count r + 1) r)
      /\ recommendations db2
         = written (Recommendation.set_click_count (Recommendation.click_count r + 1) r)
      /\ db1 = set_user_recommendation_profiles (user_recommendation_profiles db1)
                 (set_recommendations (recommendations db1) db)
      /\ db2 = set_user_recommendation_profiles (user_recommendation_profiles db2)
                 (set_recommendations (recommendations db2) db)
      /\ (Recommendation.user r = None ->
          user_recommendation_profiles db1 = user_recommendation_profiles db
          /\ user_recommendation_profiles db2 = user_recommendation_profiles db)
      /\ table_wf (recommendations db1)
      /\ table_wf (recommendations db2).
Proof.
  intros now db r Hwf Hin Hinv Hnd Hres written.
  destruct (@feedback_shape now db r _ (record_impression now (Recommendation.id r))
              (@record_impression_run now db r Hwf Hin) Hinv Hnd
              (fun uid => Hres r uid Hin))
    as (t1 & Hrun1 & Hanon1 & _).
  destruct (@feedback_shape now db r _ (record_click now (Recommendation.id r))
              (@record_click_run now db r Hwf Hin) Hinv Hnd
              (fun uid => Hres r uid Hin))
    as (t2 & Hrun2 & Hanon2 & _).
  eexists. eexists. split; [exact Hrun1 |]. split; [exact Hrun2 |].
  split; [reflexivity |]. split; [reflexivity |].
  split; [reflexivity |]. split; [reflexivity |].
  split; [| split].
  - intros Hu. split; [apply Hanon1 | apply Hanon2]; exact Hu.
  - apply write_keeps_wf; [exact Hwf | exact Hin | reflexivity].
  - apply write_keeps_wf; [exact Hwf | exact Hin | reflexivity].
Qed.

Lemma sum_Z_nonneg :
  forall (A : Type) (g : A -> Z) (l : list A),
    (forall x, In x l -> 0 <= g x) -> 0 <= sum_Z (map g l).
Proof.
  intros A g l. induction l as [| a l IH]; intros H; [unfold sum_Z; cbn; lia |].
  cbn [map]. rewrite sum_Z_cons.
  assert (0 <= g a) by (apply H; left; reflexivity).
  assert (0 <= sum_Z (map g l)) by (apply IH; intros x Hx; apply H; right; exact Hx).
  lia.
Qed.

Lemma sums_after_write :
  forall (g : Recommendation.t -> Z) (db : Database) (user : User.t)
         (r r' : Recommendation.t),
    table_wf (recommendations db) -> In r (rows (recommendations db)) ->
    Recommendation.user r = Some (User.id user) ->
    Recommendation.user r' = Recommendation.user r ->
    sum_Z (map g (recommendations_of user
                    (set_recommendations
                       (mkTable (map (fun x => if Recommendation.id x =? Recommendation.id r
                                               then r' else x) (rows (recommendations db)))
                                (next_id (recommendations db))) db)))
    = sum_Z (map g (recommendations_of user db)) + (g r' - g r).
Proof.
  intros g db user r r' [Hnd _] Hin Hu Hu'.
  unfold recommendations_of. cbn [recommendations set_recommendations rows].
  rewrite sum_after_write; [| exact Hnd | exact Hin | rewrite Hu'; reflexivity].
  rewrite Hu.
  destruct (option_Z_eqb_spec (Some (User.id user)) (Some (User.id user)));
    [reflexivity | congruence].
Qed.

(** X5 ([RecommendationService.record_impression] with
    [_update_user_profile] and
    [UserRecommendationProfile.update_performance_metrics]): after an
    impression of a user's recommendation, the one profile row of that user
    holds the sums of the counters over all the user's recommendations, the
    impression included, both rates as percentages of the impressions, and
    the time of the call; the profiles of other users are untouched. *)
Theorem impression_updates_user_profile :
  forall (now : Z) (db : Database) (r : Recommendation.t) (user : User.t),
    table_wf (recommendations db) ->
    In r (rows (recommendations db)) ->
    keyed_inv recommendation_profile_lookup (user_recommendation_profiles db) ->
    NoDup (map User.id (users db)) ->
    In user (users db) ->
    Recommendation.user r = Some (User.id user) ->
    (forall x, In x (recommendations_of user db) -> 0 <= Recommendation.shown_count x) ->
    let k := (User.store user, User.id user) in
    let shown := sum_Z (map Recommendation.shown_count (recommendations_of user db)) + 1 in
    let clicked := sum_Z (map Recommendation.click_count (recommendations_of user db)) in
    let purchased :=
      sum_Z (map Recommendation.purchase_count (recommendations_of user db)) in
    exists db' p,
      record_impression now (Recommendation.id r) db = (Ok tt, db')
      /\ filter (recommendation_profile_lookup k) (rows (user_recommendation_profiles db'))
         = [p]
      /\ UserRecommendationProfile.total_recommendations_shown p = shown
      /\ UserRecommendationProfile.total_recommendations_clicked p = clicked
      /\ UserRecommendationProfile.total_recommendations_purchased p = purchased
      /\ UserRecommendationProfile.overall_ctr p
         = (inject_Z clicked / inject_Z shown * 100)%Q
      /\ UserRecommendationProfile.overall_conversion_rate p
         = (inject_Z purchased / inject_Z shown * 100)%Q
      /\ UserRecommendationProfile.last_recommendation_at p = Some now
      /\ shown = sum_Z (map Recommendation.shown_count (recommendations_of user db'))
      /\ (forall k', k' <> k ->
            filter (recommendation_profile_lookup k')
                   (rows (user_recommendation_profiles db'))
            = filter (recommendation_profile_lookup k')
                     (rows (user_recommendation_profiles db))).
Proof.
  intros now db r user Hwf Hin Hinv Hnd Huin Hu Hpos k shown clicked purchased.
  set (r' := Recommendation.set_shown_count (Recommendation.shown_count r + 1) r).
  set (db1 := set_recommendations
                (mkTable (map (fun x => if Recommendation.id x =? Recommendation.id r
                                        then r' else x) (rows (recommendations db)))
                         (next_id (recommendations db))) db).
  destruct (@user_profile_after now user db1 Hinv)
    as (t' & Hrun & _ & Hframe & Hsaved & _).
  fold k in Hframe, Hsaved.
  assert (Hs : sum_Z (map Recommendation.shown_count (recommendations_of user db1))
               = shown).
  { unfold db1. rewrite sums_after_write by (assumption || reflexivity).
    unfold shown, r'. cbn [Recommendation.shown_count Recommendation.set_shown_count]. lia. }
  assert (Hc : sum_Z (map Recommendation.click_count (recommendations_of user db1))
               = clicked).
  { unfold db1. rewrite sums_after_write by (assumption || reflexivity).
    unfold clicked, r'. cbn [Recommendation.click_count Recommendation.set_shown_count]. lia. }
  assert (Hp : sum_Z (map Recommendation.purchase_count (recommendations_of user db1))
               = purchased).
  { unfold db1. rewrite sums_after_write by (assumption || reflexivity).
    unfold purchased, r'.
    cbn [Recommendation.purchase_count Recommendation.set_shown_count]. lia. }
  rewrite Hs, Hc, Hp in Hsaved.
  destruct Hsaved as (p & Hf & H1 & H2 & H3 & H4 & H5 & H6).
  { unfold shown. pose proof (sum_Z_nonneg Recommendation.shown_count _ Hpos). lia. }
  exists (set_user_recommendation_profiles t' db1), p.
  split.
  { apply (proj2 (@record_impression_run now db r Hwf Hin) user);
      [exact Hu | apply related_user_stored; assumption | exact Hrun]. }
  split; [exact Hf |].
  repeat (split; [assumption |]).
  split; [symmetry; exact Hs |]. exact Hframe.
Qed.

(** X6 ([RecommendationService.record_click] with [_update_user_profile]
    and [UserRecommendationProfile.update_performance_metrics]): after a
    click on a user's recommendation the profile row of that user holds the
    summed counters, the click included, when the user's recommendations
    have been shown at least once.  When they have never been shown, the
    profile is not saved: a stored profile row stays as it was, the click
    not counted, and a missing one is created with its default values. *)
Theorem click_updates_user_profile :
  forall (now : Z) (db : Database) (r : Recommendation.t) (user : User.t),
    table_wf (recommendations db) ->
    In r (rows (recommendations db)) ->
    keyed_inv recommendation_profile_lookup (user_recommendation_profiles db) ->
    NoDup (map User.id (users db)) ->
    In user (users db) ->
    Recommendation.user r = Some (User.id user) ->
    let k := (User.store user, User.id user) in
    let shown := sum_Z (map Recommendation.shown_count (recommendations_of user db)) in
    let clicked :=
      sum_Z (map Recommendation.click_count (recommendations_of user db)) + 1 in
    let purchased :=
      sum_Z (map Recommendation.purchase_count (recommendations_of user db)) in
    exists db',
      record_click now (Recommendation.id r) db = (Ok tt, db')
      /\ clicked = sum_Z (map Recommendation.click_count (recommendations_of user db'))
      /\ (0 < shown ->
          exists p,
            filter (recommendation_profile_lookup k)
                   (rows (user_recommendation_profiles db')) = [p]
            /\ UserRecommendationProfile.total_recommendations_shown p = shown
            /\ UserRecommendationProfile.total_recommendations_clicked p = clicked
            /\ UserRecommendationProfile.total_recommendations_purchased p = purchased
            /\ UserRecommendationProfile.overall_ctr p
               = (inject_Z clicked / inject_Z shown * 100)%Q
            /\ UserRecommendationProfile.overall_conversion_rate p
               = (inject_Z purchased / inject_Z shown * 100)%Q
            /\ UserRecommendationProfile.last_recommendation_at p = Some now)
      /\ (shown <= 0 ->
          (forall p,
             filter (recommendation_profile_lookup k)
                    (rows (user_recommendation_profiles db)) = [p] ->
             user_recommendation_profiles db' = user_recommendation_profiles db)
          /\ (filter (recommendation_profile_lookup k)
                     (rows (user_recommendation_profiles db)) = [] ->
              filter (recommendation_profile_lookup k)
                     (rows (user_recommendation_profiles db'))
              = [with_pk (next_id (user_recommendation_profiles db))
                   (UserRecommendationProfile.default (User.store user) (User.id user))])).
Proof.
  intros now db r user Hwf Hin Hinv Hnd Huin Hu k shown clicked purchased.
  set (r' := Recommendation.set_click_count (Recommendation.click_count r + 1) r).
  set (db1 := set_recommendations
                (mkTable (map (fun x => if Recommendation.id x =? Recommendation.id r
                                        then r' else x) (rows (recommendations db)))
                         (next_id (recommendations db))) db).
  destruct (@user_profile_after now user db1 Hinv)
    as (t' & Hrun & _ & _ & Hsaved & Hstale).
  fold k in Hsaved, Hstale.
  assert (Hs : sum_Z (map Recommendation.shown_count (recommendations_of user db1))
               = shown).
  { unfold db1. rewrite sums_after_write by (assumption || reflexivity).
    unfold shown, r'. cbn [Recommendation.shown_count Recommendation.set_click_count]. lia. }
  assert (Hc : sum_Z (map Recommendation.click_count (recommendations_of user db1))
               = clicked).
  { unfold db1. rewrite sums_after_write by (assumption || reflexivity).
    unfold clicked, r'. cbn [Recommendation.click_count Recommendation.set_click_count]. lia. }
  assert (Hp : sum_Z (map Recommendation.purchase_count (recommendations_of user db1))
               = purchased).
  { unfold db1. rewrite sums_after_write by (assumption || reflexivity).
    unfold purchased, r'.
    cbn [Recommendation.purchase_count Recommendation.set_click_count]. lia. }
  rewrite Hs, Hc, Hp in Hsaved. rewrite Hs in Hstale.
  exists (set_user_recommendation_profiles t' db1).
  split.
  { apply (proj2 (@record_click_run now db r Hwf Hin) user);
      [exact Hu | apply related_user_stored; assumption | exact Hrun]. }
  split; [symmetry; exact Hc |]. split; [exact Hsaved |].
  intros Hle. destruct (Hstale Hle) as [Hkept Hnew]. split.
  - intros p Hp0. apply (Hkept p). exact Hp0.
  - exact Hnew.
Qed.

(* ------------------------------------------------------------------ *)
(** ** Trending products: bounds, frame and reruns *)

Lemma count_if_bounds :
  forall (A : Type) (f : A -> bool) (l : list A), 0 <= count_if f l <= count_all l.
Proof.
  intros A f l. unfold count_if, count_all.
  pose proof (filter_length_le f l). lia.
Qed.

Lemma trending_row_bounds :
  forall now store time_delta db item,
    In item (trending_data now store time_delta db) ->
    1 <= TrendingRow.interaction_count item
    /\ 0 <= TrendingRow.purchase_count item <= TrendingRow.interaction_count item
    /\ 0 <= TrendingRow.velocity item <= TrendingRow.interaction_count item.
Proof.
  intros now store time_delta db item Hin.
  destruct (trending_data_rows _ _ _ _ _ Hin) as (pid & -> & i & _ & _ & Hi).
  cbn [TrendingRow.interaction_count TrendingRow.purchase_count TrendingRow.velocity].
  split; [| split; apply count_if_bounds].
  unfold count_all.
  destruct (window_interactions store (now - time_delta) pid db); [destruct Hi |].
  cbn [List.length]. lia.
Qed.

(** X7 ([calculate_trending_products]): every entry a run writes has a rank
    between 1 and 50, a velocity between 0 and 1, and a score between the
    number of interactions it counts, which is at least 1, and eight times
    that number. *)
Theorem trending_entries_bounds :
  forall (now store_id : Z) (db : Database),
    In store_id (stores db) ->
    trending_inv (trending_products db) ->
    referential_integrity db ->
    exists msg db',
      calculate_trending_products now store_id db = (Ok msg, db')
      /\ forall w time_delta k item,
           In (w, time_delta) windows ->
           nth_error (trending_data now store_id time_delta db) k = Some item ->
           exists pid e,
             TrendingRow.product item = Some pid
             /\ trending_entries (trending_products db') store_id pid w = [e]
             /\ 1 <= TrendingProduct.rank e <= 50
             /\ (0 <= TrendingProduct.velocity e <= 1)%Q
             /\ 1 <= TrendingRow.interaction_count item
             /\ (inject_Z (TrendingRow.interaction_count item) <= TrendingProduct.score e)%Q
             /\ (TrendingProduct.score e
                 <= 8 * inject_Z (TrendingRow.interaction_count item))%Q.
Proof.
  intros now store_id db Hstore Hinv Href.
  destruct (calculate_trending_products_spec now store_id Hstore Hinv Href)
    as (msg & t' & Hrun & _ & Hrows).
  exists msg, (set_trending_products t' db). split; [exact Hrun |].
  intros w time_delta k item Hw Hk.
  destruct (Hrows w time_delta k item Hw Hk) as (pid & e & Hp & He & Hs & Hv & Hr).
  exists pid, e. split; [exact Hp |]. split; [exact He |].
  pose proof (trending_data_length now store_id time_delta db) as Hlen.
  assert (Hklt : (k < List.length (trending_data now store_id time_delta db))%nat).
  { apply nth_error_Some. rewrite Hk. discriminate. }
  destruct (trending_row_bounds _ _ _ _ _ (nth_error_In _ _ Hk)) as (Hic & Hpc & Hvc).
  split; [lia |]. split; [| split; [exact Hic |]].
  - rewrite Hv. unfold trending_velocity.
    rewrite Z.max_l by lia.
    assert (Hq : (0 < inject_Z (TrendingRow.interaction_count item))%Q).
    { rewrite <- (Zlt_Qlt 0). lia. }
    split.
    + apply Qle_shift_div_l; [exact Hq |]. rewrite Qmult_0_l.
      rewrite <- (Zle_Qle 0). lia.
    + apply Qle_shift_div_r; [exact Hq |]. rewrite Qmult_1_l.
      rewrite <- Zle_Qle. lia.
  - rewrite Hs. unfold trending_score. split.
    + rewrite <- Zle_Qle. lia.
    + change 8%Q with (inject_Z 8). rewrite <- inject_Z_mult, <- Zle_Qle. lia.
Qed.

Lemma save_row_same :
  forall (A : Type) (MA : Model A) (t : Table A) (r : A),
    NoDup (map pk (rows t)) -> In r (rows t) -> save_row r t = t.
Proof.
  intros A MA [l n] r Hnd Hin. unfold save_row, save_fields. cbn [rows next_id] in *.
  f_equal. apply map_unchanged. intros x Hx.
  destruct (pk x =? pk r) eqn:E; [| reflexivity].
  apply Z.eqb_eq in E. symmetry. apply (pk_unique MA l x r Hnd Hx Hin E).
Qed.

Lemma store_trending_noop :
  forall (now store : Z) (w : string) (rank : Z) (item : TrendingRow.t)
         (db : Database) (pid : Z) (p : Product.t) (e : TrendingProduct.t),
    trending_inv (trending_products db) ->
    TrendingRow.product item = Some pid ->
    get_product (Some pid) db = Some p ->
    trending_entries (trending_products db) store pid w = [e] ->
    TrendingProduct.score e = inject_Z (trending_score item) ->
    TrendingProduct.velocity e = trending_velocity item ->
    TrendingProduct.rank e = rank ->
    store_trending now store w (rank, item) db = (Ok tt, db).
Proof.
  intros now store w rank item db pid p e [[Hnd _] _] Hitem Hget He Hs Hv Hr.
  destruct (get_product_id _ _ Hget) as [Hid _].
  destruct (filter_singleton_In _ _ He) as [Hin _].
  unfold store_trending, bind, get_db, put_db, lift, ret, update_or_create, objects_get.
  rewrite Hitem, Hget, Hid.
  unfold trending_entries in He. rewrite He.
  assert (Hsame : TrendingProduct.set_defaults (inject_Z (trending_score item))
                    (trending_velocity item) rank e = e).
  { rewrite <- Hs, <- Hv, <- Hr. destruct e. reflexivity. }
  rewrite Hsame.
  rewrite (save_row_same TrendingProduct_Model (trending_products db) e Hnd Hin).
  rewrite set_trending_products_same. reflexivity.
Qed.

Lemma trending_window_noop :
  forall (now store : Z) (w : string) (db : Database) (data : list TrendingRow.t)
         (start : Z),
    trending_inv (trending_products db) ->
    (forall k item,
       nth_error data k = Some item ->
       exists pid p e,
         TrendingRow.product item = Some pid
         /\ get_product (Some pid) db = Some p
         /\ trending_entries (trending_products db) store pid w = [e]
         /\ TrendingProduct.score e = inject_Z (trending_score item)
         /\ TrendingProduct.velocity e = trending_velocity item
         /\ TrendingProduct.rank e = start + Z.of_nat k) ->
    for_each (enumerate_from start data) (store_trending now store w) db = (Ok tt, db).
Proof.
  intros now store w db data. induction data as [| item data IH]; intros start Hinv H.
  - reflexivity.
  - cbn [enumerate_from].
    destruct (H 0%nat item eq_refl) as (pid & p & e & Hp & Hget & He & Hs & Hv & Hr).
    rewrite for_each_cons_ok with (db1 := db).
    + apply IH; [exact Hinv |]. intros k item' Hk.
      destruct (H (S k) item' Hk) as (pid' & p' & e' & Hp' & Hget' & He' & Hs' & Hv' & Hr').
      exists pid', p', e'. repeat split; try assumption. lia.
    + eapply store_trending_noop; try eassumption. lia.
Qed.

Lemma trending_windows_noop :
  forall (now store : Z) (db : Database) (ws : list (string * Z)),
    trending_inv (trending_products db) ->
    (forall w time_delta k item,
       In (w, time_delta) ws ->
       nth_error (trending_data now store time_delta db) k = Some item ->
       exists pid p e,
         TrendingRow.product item = Some pid
         /\ get_product (Some pid) db = Some p
         /\ trending_entries (trending_products db) store pid w = [e]
         /\ TrendingProduct.score e = inject_Z (trending_score item)
         /\ TrendingProduct.velocity e = trending_velocity item
         /\ TrendingProduct.rank e = Z.of_nat k + 1) ->
    for_each ws
      (fun w =>
         db <- get_db ;;
         for_each (enumerate_from 1 (trending_data now store (snd w) db))
                  (store_trending now store (fst w))) db
    = (Ok tt, db).
Proof.
  intros now store db ws. induction ws as [| [w time_delta] ws IH]; intros Hinv H.
  - reflexivity.
  - rewrite for_each_cons_ok with (db1 := db).
    + apply IH; [exact Hinv |]. intros w' d' k item Hin Hk.
      apply (H w' d' k item); [right; exact Hin | exact Hk].
    + unfold bind, get_db. cbn [fst snd].
      apply trending_window_noop; [exact Hinv |]. intros k item Hk.
      destruct (H w time_delta k item (or_introl eq_refl) Hk)
        as (pid & p & e & Hp & Hget & He & Hs & Hv & Hr).
      exists pid, p, e. repeat split; try assumption. lia.
Qed.

(** X9 ([calculate_trending_products]): a run writes the trending table
    only and deletes no row of it.  The entries of other tenants, and those
    of the tenant for a product that is not among the current rows of the
    window, stay as they were, old rank and score included; for an unknown
    tenant the message says so and the database is unchanged. *)
Theorem trending_run_frame :
  forall (now store_id : Z) (db : Database),
    trending_inv (trending_products db) ->
    referential_integrity db ->
    exists msg db',
      calculate_trending_products now store_id db = (Ok msg, db')
      /\ db' = set_trending_products (trending_products db') db
      /\ (List.length (rows (trending_products db))
          <= List.length (rows (trending_products db')))%nat
      /\ (forall store' pid' w',
            ~ (store' = store_id
               /\ exists time_delta,
                    In (w', time_delta) windows
                    /\ In (Some pid')
                          (map TrendingRow.product
                               (trending_data now store_id time_delta db))) ->
            trending_entries (trending_products db') store' pid' w'
            = trending_entries (trending_products db) store' pid' w')
      /\ (~ In store_id (stores db) ->
          db' = db
          /\ msg = String.concat EmptyString
                     ["Store "; string_of_Z store_id; " not found"]).
Proof.
  intros now store_id db Hinv Href.
  destruct (trending_windows_frame now store_id windows Hinv Href)
    as (t' & Hrun & Hframe & Hlen).
  unfold calculate_trending_products.
  rewrite bind_ok with (a := db) (db' := db) by reflexivity.
  destruct (existsb (Z.eqb store_id) (stores db)) eqn:Hex.
  - rewrite bind_ok with (a := tt) (db' := set_trending_products t' db) by exact Hrun.
    unfold ret. eexists. eexists. split; [reflexivity |]. split; [reflexivity |].
    split; [exact Hlen |]. split; [exact Hframe |].
    intros Hnot. exfalso. apply Hnot.
    apply existsb_exists in Hex as (s & Hs & E). apply Z.eqb_eq in E. subst s. exact Hs.
  - unfold ret. eexists. eexists. split; [reflexivity |].
    split; [symmetry; apply set_trending_products_same |].
    split; [lia |]. split; [reflexivity |]. intros _. split; reflexivity.
Qed.

(* ------------------------------------------------------------------ *)
(** ** The behaviour profile task *)

Lemma behavior_profile_lookup_new :
  forall (s u n : Z),
    behavior_profile_lookup (s, u) (with_pk n (UserBehaviorProfile.default s u)) = true.
Proof.
  intros s u n. unfold behavior_profile_lookup. cbn. rewrite !Z.eqb_refl. reflexivity.
Qed.

Lemma update_user_behavior_profile_raises :
  forall (user_id : Z) (db : Database) (user : User.t),
    filter (fun u => User.id u =? user_id) (users db) = [user] ->
    keyed_inv behavior_profile_lookup (user_behavior_profiles db) ->
    let k := (User.store user, User.id user) in
    exists found t',
      update_user_behavior_profile user_id db
      = (Raise AttributeError, set_user_behavior_profiles t' db)
      /\ keyed_inv behavior_profile_lookup t'
      /\ filter (behavior_profile_lookup k) (rows t') = [found]
      /\ (forall k', k' <> k ->
            filter (behavior_profile_lookup k') (rows t')
            = filter (behavior_profile_lookup k') (rows (user_behavior_profiles db)))
      /\ (forall p,
            filter (behavior_profile_lookup k) (rows (user_behavior_profiles db)) = [p] ->
            found = p /\ t' = user_behavior_profiles db)
      /\ (filter (behavior_profile_lookup k) (rows (user_behavior_profiles db)) = [] ->
          found = with_pk (next_id (user_behavior_profiles db))
                    (UserBehaviorProfile.default (User.store user) (User.id user))).
Proof.
  intros user_id db user Huser Hinv k.
  destruct (@keyed_get_or_create _ _ UserBehaviorProfile_Model
              behavior_profile_lookup behavior_profile_lookup_inj
              ZZ_dec (fun i a => eq_refl) (user_behavior_profiles db) k
              (UserBehaviorProfile.default (User.store user) (User.id user))
              Hinv (behavior_profile_lookup_new _ _ _))
    as (found & created & t1 & Hgoc & Hinv1 & Hf1 & Hframe1 & Hcases).
  exists found, t1. split; [| split; [exact Hinv1 | split; [exact Hf1 |]]].
  - unfold update_user_behavior_profile, bind, get_db, objects_get.
    rewrite Huser.
    change (profile_key user) with (behavior_profile_lookup k).
    rewrite Hgoc. reflexivity.
  - split; [exact Hframe1 |]. split.
    + intros p Hp.
      destruct Hcases as [(_ & -> & Hsome) | (_ & Hnone & _)].
      * rewrite Hp in Hsome. injection Hsome as <-. split; reflexivity.
      * rewrite Hnone in Hp. discriminate.
    + intros Hnone.
      destruct Hcases as [(_ & _ & Hsome) | (_ & _ & -> & _)];
        [rewrite Hnone in Hsome; discriminate | reflexivity].
Qed.

(** C7 (the code departs from the claim).  For every user the store
    holds, [update_user_behavior_profile] leaves with [AttributeError] at
    [user.sessions], before any label is assigned or saved.  A stored
    profile of the user stays exactly as it was, labels included; a user
    without one is left with the row [get_or_create] inserted: counts 0,
    both labels blank and an average order value of 0, whatever the
    user's interactions are. *)
Theorem behavior_profile_labels_never_assigned :
  forall (user_id : Z) (db : Database) (user : User.t),
    filter (fun u => User.id u =? user_id) (users db) = [user] ->
    keyed_inv behavior_profile_lookup (user_behavior_profiles db) ->
    let k := (User.store user, User.id user) in
    exists profile db',
      update_user_behavior_profile user_id db = (Raise AttributeError, db')
      /\ db' = set_user_behavior_profiles (user_behavior_profiles db') db
      /\ filter (behavior_profile_lookup k) (rows (user_behavior_profiles db')) = [profile]
      /\ (forall p,
            filter (behavior_profile_lookup k) (rows (user_behavior_profiles db)) = [p] ->
            profile = p)
      /\ (filter (behavior_profile_lookup k) (rows (user_behavior_profiles db)) = [] ->
          UserBehaviorProfile.total_interactions profile = 0
          /\ UserBehaviorProfile.total_views profile = 0
          /\ UserBehaviorProfile.total_purchases profile = 0
          /\ UserBehaviorProfile.purchase_frequency profile = EmptyString
          /\ UserBehaviorProfile.browsing_pattern profile = EmptyString
          /\ UserBehaviorProfile.avg_order_value profile = 0.0%Q).
Proof.
  intros user_id db user Huser Hinv k.
  destruct (update_user_behavior_profile_raises user_id db Huser Hinv)
    as (found & t' & Hrun & _ & Hf & _ & Hold & Hnew).
  exists found, (set_user_behavior_profiles t' db).
  split; [exact Hrun |]. split; [reflexivity |]. split; [exact Hf |]. split.
  - intros p Hp. apply (Hold p Hp).
  - intros Hnone. rewrite (Hnew Hnone). repeat split.
Qed.

(** C8 (the code departs from the claim).  For every user the store
    holds, [update_user_behavior_profile] leaves with [AttributeError] at
    [user.sessions], before the categories are read: the preferred
    categories of a stored profile stay as they were, the table unchanged,
    and a user without a profile is left with an empty dict, whatever the
    user's interactions are. *)
Theorem preferred_categories_never_written :
  forall (user_id : Z) (db : Database) (user : User.t),
    filter (fun u => User.id u =? user_id) (users db) = [user] ->
    keyed_inv behavior_profile_lookup (user_behavior_profiles db) ->
    let k := (User.store user, User.id user) in
    exists profile db',
      update_user_behavior_profile user_id db = (Raise AttributeError, db')
      /\ interactions db' = interactions db
      /\ filter (behavior_profile_lookup k) (rows (user_behavior_profiles db')) = [profile]
      /\ (forall p,
            filter (behavior_profile_lookup k) (rows (user_behavior_profiles db)) = [p] ->
            UserBehaviorProfile.preferred_categories profile
            = UserBehaviorProfile.preferred_categories p
            /\ user_behavior_profiles db' = user_behavior_profiles db)
      /\ (filter (behavior_profile_lookup k) (rows (user_behavior_profiles db)) = [] ->
          UserBehaviorProfile.preferred_categories profile = []).
Proof.
  intros user_id db user Huser Hinv k.
  destruct (update_user_behavior_profile_raises user_id db Huser Hinv)
    as (found & t' & Hrun & _ & Hf & _ & Hold & Hnew).
  exists found, (set_user_behavior_profiles t' db).
  split; [exact Hrun |]. split; [reflexivity |]. split; [exact Hf |]. split.
  - intros p Hp. destruct (Hold p Hp) as [-> ->]. split; reflexivity.
  - intros Hnone. rewrite (Hnew Hnone). reflexivity.
Qed.

(* ------------------------------------------------------------------ *)
(** ** The candidate generators *)

Lemma flat_map_length_le :
  forall (A B : Type) (f : A -> list B) (l : list A),
    (forall x, (List.length (f x) <= 1)%nat) ->
    (List.length (flat_map f l) <= List.length l)%nat.
Proof.
  intros A B f l H. induction l as [| a l IH]; cbn [flat_map List.length]; [lia |].
  rewrite length_app. specialize (H a). lia.
Qed.

Lemma enumerate_from_length :
  forall (A : Type) (l : list A) (start : Z),
    List.length (enumerate_from start l) = List.length l.
Proof.
  intros A l start. rewrite <- (enumerate_from_snd l start) at 2.
  rewrite length_map. reflexivity.
Qed.

Lemma enumerate_from_In :
  forall (A : Type) (l : list A) (start : Z) (e : Z * A),
    In e (enumerate_from start l) ->
    start <= fst e < start + Z.of_nat (List.length l) /\ In (snd e) l.
Proof.
  intros A l start e Hin.
  apply In_nth_error in Hin as (k & Hk).
  destruct (enumerate_from_nth _ _ _ Hk) as [Hfst Hsnd].
  assert (Hlt : (k < List.length l)%nat).
  { apply nth_error_Some. rewrite Hsnd. discriminate. }
  split; [lia | eapply nth_error_In; exact Hsnd].
Qed.

Lemma product_in_false :
  forall (pid : Z) (s : list (option Z)),
    product_in (Some pid) s = false -> ~ In (Some pid) s.
Proof.
  intros pid s H Hin. unfold product_in in H.
  assert (existsb (fun q => option_eqb Z.eqb q (Some pid)) s = true).
  { apply existsb_exists. exists (Some pid). split; [exact Hin |].
    cbn. apply Z.eqb_refl. }
  congruence.
Qed.

Lemma get_product_Some :
  forall o db p, get_product o db = Some p ->
                 o = Some (Product.id p) /\ In p (products db).
Proof.
  intros [pid |] db p H; [| discriminate].
  destruct (get_product_id _ _ H) as [<- Hin]. split; [reflexivity | exact Hin].
Qed.

Lemma Qmin_unit_interval :
  forall q : Q, (0 < q)%Q -> (0 < Qmin q 1.0 <= 1)%Q.
Proof.
  intros q Hq. split.
  - apply Q.min_glb_lt; [exact Hq | reflexivity].
  - eapply Qle_trans; [apply Q.le_min_r |]. discriminate.
Qed.

(** X14 ([CollaborativeFilteringEngine.get_recommendations]): for a user
    the tenant knows, the engine returns at most [max_results] candidates,
    and never a product that user has interacted with: each candidate is a
    stored product that another user of the tenant interacted with, with a
    score above 0 and at most 1 and a rank from 1 to [max_results]. *)
Theorem collaborative_never_recommends_seen :
  forall (store now : Z) (uid : string) (session_id : option string)
         (max_results : nat) (context : list (string * string)) (db : Database)
         (user : User.t),
    filter (fun u => (User.store u =? store) && String.eqb (User.user_id u) uid)
           (users db) = [user] ->
    exists out,
      CollaborativeFilteringEngine store now (Some uid) session_id max_results context db
      = Ok out
      /\ (List.length out <= max_results)%nat
      /\ forall c, In c out ->
           (forall i, In i (interactions db) ->
                      Interaction.user i = Some (User.id user) ->
                      Interaction.product i <> Some (Product.id (Candidate.product c)))
           /\ (exists i u',
                 In i (interactions db)
                 /\ Interaction.store i = store
                 /\ Interaction.product i = Some (Product.id (Candidate.product c))
                 /\ In u' (users db)
                 /\ User.store u' = store
                 /\ User.id u' <> User.id user
                 /\ Interaction.user i = Some (User.id u'))
           /\ In (Candidate.product c) (products db)
           /\ (0 < Candidate.score c <= 1)%Q
           /\ 1 <= Candidate.rank c <= Z.of_nat max_results.
Proof.
  intros store now uid session_id max_results context db user Huser.
  unfold CollaborativeFilteringEngine.
  destruct uid as [| a s]; [exists []; split; [reflexivity | split; [cbn; lia | intros c []]] |].
  unfold objects_get. rewrite Huser.
  set (mine := distinct (option_eqb Z.eqb)
                 (map Interaction.product
                    (filter (fun i => option_eqb Z.eqb (Interaction.user i)
                                        (Some (User.id user)))
                            (interactions db)))).
  assert (Hmine : forall i, In i (interactions db) ->
                            Interaction.user i = Some (User.id user) ->
                            In (Interaction.product i) mine).
  { intros i Hi Hu. unfold mine.
    apply (distinct_In (option_eqb Z.eqb) option_Z_eqb_spec).
    apply in_map. apply filter_In. split; [exact Hi |].
    rewrite Hu. cbn. apply Z.eqb_refl. }
  destruct mine as [| m0 mine'] eqn:Emine;
    [exists []; split; [reflexivity | split; [cbn; lia | intros c []]] |].
  rewrite <- Emine in *. clear Emine m0 mine'. cbv zeta.
  match goal with
  | |- context [enumerate_from 1 (firstn max_results ?l)] => set (ordered := l)
  end.
  assert (Hlen : (List.length (firstn max_results ordered) <= max_results)%nat)
    by apply firstn_le_length.
  eexists. split; [reflexivity |]. split.
  - etransitivity; [apply flat_map_length_le |].
    + intros [rank item]. destruct (get_product (fst item) db); cbn; lia.
    + rewrite enumerate_from_length. exact Hlen.
  - intros c Hc. apply in_flat_map in Hc as ([rank item] & Hentry & Hc).
    destruct (get_product (fst item) db) as [product |] eqn:Hget; [| destruct Hc].
    destruct Hc as [<- | []].
    cbn [Candidate.product Candidate.score Candidate.rank].
    destruct (get_product_Some _ _ Hget) as [Hfst Hprod].
    apply enumerate_from_In in Hentry. cbn [fst snd] in Hentry.
    destruct Hentry as [Hrank Hitem].
    apply In_firstn in Hitem. unfold ordered in Hitem.
    apply order_by_desc_In in Hitem.
    apply in_map_iff in Hitem as ([k g] & <- & Hg).
    cbn [fst snd] in *. subst k.
    apply (group_by_In (option_eqb Z.eqb) Interaction.product option_Z_eqb_spec) in Hg.
    destruct Hg as [-> Hk]. apply in_map_iff in Hk as (i0 & Hp0 & Hi0).
    pose proof Hi0 as Hi0'. apply filter_In in Hi0 as [Hi0 Hcond].
    apply andb_true_iff in Hcond as [Hcond Hnew].
    apply andb_true_iff in Hcond as [Hstore Hsim].
    apply Z.eqb_eq in Hstore. apply negb_true_iff in Hnew. rewrite Hp0 in Hnew.
    apply product_in_false in Hnew.
    split; [| split; [| split; [exact Hprod | split]]].
    + intros i Hi Hu E. apply Hnew. rewrite <- E. apply Hmine; assumption.
    + apply existsb_exists in Hsim as ([u' n] & Hus & Hu). cbn [fst] in Hu.
      apply In_firstn in Hus. apply order_by_desc_In in Hus.
      apply filter_In in Hus as [Hus _].
      apply in_map_iff in Hus as (u0 & E & Hu0). injection E as -> _.
      apply filter_In in Hu0 as [Hu0 Hother].
      apply andb_true_iff in Hother as [Hs' Hid'].
      apply Z.eqb_eq in Hs'. apply negb_true_iff, Z.eqb_neq in Hid'.
      destruct (option_Z_eqb_spec (Interaction.user i0) (Some (User.id u')));
        [| discriminate].
      exists i0, u'. repeat (split; [assumption |]). assumption.
    + apply Qmin_unit_interval.
      apply Qlt_shift_div_l; [reflexivity |]. rewrite Qmult_0_l.
      rewrite <- (Zlt_Qlt 0).
      match goal with
      | |- 0 < count_all ?grp + count_if is_purchase ?grp * 3 =>
          pose proof (count_if_bounds is_purchase grp) as Hb;
          assert (Hone : 1 <= count_all grp);
          [ unfold count_all;
            assert (Hin0 : In i0 grp)
              by (apply filter_In; split;
                  [exact Hi0' | rewrite Hp0; cbn; apply Z.eqb_refl]);
            destruct grp; [destruct Hin0 | cbn [List.length]; lia]
          | lia ]
      end.
    + lia.
Qed.

Lemma StronglySorted_app :
  forall (A : Type) (R : A -> A -> Prop) (l1 l2 : list A),
    StronglySorted R l1 -> StronglySorted R l2 ->
    (forall x y, In x l1 -> In y l2 -> R x y) ->
    StronglySorted R (l1 ++ l2).
Proof.
  intros A R l1 l2 H1 H2 H. induction H1 as [| a l1 Hs IH Hall]; [exact H2 |].
  cbn [app]. constructor.
  - apply IH. intros x y Hx Hy. apply H; [right; exact Hx | exact Hy].
  - apply Forall_app. split; [exact Hall |].
    apply Forall_forall. intros y Hy. apply H; [left; reflexivity | exact Hy].
Qed.

Lemma StronglySorted_flat_map :
  forall (A B : Type) (R : A -> A -> Prop) (S : B -> B -> Prop) (f : A -> list B)
         (l : list A),
    (forall a, In a l -> StronglySorted S (f a)) ->
    (forall a b x y, In a l -> In b l -> R a b -> In x (f a) -> In y (f b) -> S x y) ->
    StronglySorted R l -> StronglySorted S (flat_map f l).
Proof.
  intros A B R S f l Hone Hpair Hs. induction Hs as [| a l Hs IH Hall]; [constructor |].
  cbn [flat_map]. apply StronglySorted_app.
  - apply Hone. left. reflexivity.
  - apply IH.
    + intros b Hb. apply Hone. right. exact Hb.
    + intros b c x y Hb Hc. apply Hpair; right; assumption.
  - intros x y Hx Hy. apply in_flat_map in Hy as (b & Hb & Hy).
    apply (Hpair a b); [left; reflexivity | right; exact Hb | | exact Hx | exact Hy].
    rewrite Forall_forall in Hall. apply Hall. exact Hb.
Qed.

Lemma enumerate_from_sorted :
  forall (A : Type) (R : A -> A -> Prop) (l : list A) (start : Z),
    StronglySorted R l ->
    StronglySorted (fun a b => fst a < fst b /\ R (snd a) (snd b))
                   (enumerate_from start l).
Proof.
  intros A R l start Hs. revert start.
  induction Hs as [| x l Hs IH Hall]; intros start; [constructor |].
  cbn [enumerate_from]. constructor; [apply IH |].
  apply Forall_forall. intros e He. apply enumerate_from_In in He as [Hfst Hsnd].
  cbn [fst snd]. split; [lia |]. rewrite Forall_forall in Hall. apply Hall. exact Hsnd.
Qed.

Lemma popularity_score_monotone :
  forall ca cb ra rb : Z,
    0 <= cb <= ca -> 1 <= ra < rb ->
    (Qmin (inject_Z cb / inject_Z rb / 100) 1.0
     <= Qmin (inject_Z ca / inject_Z ra / 100) 1.0)%Q.
Proof.
  intros ca cb ra rb Hc Hr. apply Q.min_le_compat_r.
  unfold Qdiv at 1 3. apply Qmult_le_compat_r; [| discriminate].
  assert (Hra : (0 < inject_Z ra)%Q) by (rewrite <- (Zlt_Qlt 0); lia).
  assert (Hrb : (0 < inject_Z rb)%Q) by (rewrite <- (Zlt_Qlt 0); lia).
  apply Qle_shift_div_r; [exact Hrb |].
  setoid_replace (inject_Z ca / inject_Z ra * inject_Z rb)%Q
    with (inject_Z ca * inject_Z rb / inject_Z ra)%Q
    by (field; intros E; rewrite E in Hra; discriminate).
  apply Qle_shift_div_l; [exact Hra |].
  rewrite <- !inject_Z_mult, <- Zle_Qle. nia.
Qed.

(** X15 ([PopularityBasedEngine.get_recommendations]): the engine never
    fails and returns at most [max_results] candidates, best first: along
    the list the scores do not increase and the ranks increase.  Each
    candidate is a stored product with an interaction of the tenant in the
    last 30 days, a score above 0 and at most 1, and a rank from 1 to
    [max_results]. *)
Theorem popularity_is_ranked_best_first :
  forall (store now : Z) (user_id session_id : option string) (max_results : nat)
         (context : list (string * string)) (db : Database),
    exists out,
      PopularityBasedEngine store now user_id session_id max_results context db = Ok out
      /\ (List.length out <= max_results)%nat
      /\ (forall c, In c out ->
            In (Candidate.product c) (products db)
            /\ (0 < Candidate.score c <= 1)%Q
            /\ 1 <= Candidate.rank c <= Z.of_nat max_results
            /\ exists i, In i (interactions db)
                         /\ Interaction.store i = store
                         /\ Interaction.product i
                            = Some (Product.id (Candidate.product c))
                         /\ now - days 30 <= Interaction.created_at i)
      /\ StronglySorted
           (fun a b => (Candidate.score b <= Candidate.score a)%Q
                       /\ Candidate.rank a < Candidate.rank b) out.
Proof.
  intros store now user_id session_id max_results context db.
  unfold PopularityBasedEngine. cbv zeta.
  match goal with
  | |- context [firstn (max_results * 2) ?l] => set (ordered := l)
  end.
  set (shown := firstn max_results (firstn (max_results * 2) ordered)).
  assert (Hlen : (List.length shown <= max_results)%nat) by apply firstn_le_length.
  assert (Hitem : forall item, In item shown ->
                    1 <= snd item
                    /\ exists i, In i (interactions db)
                                 /\ Interaction.store i = store
                                 /\ Interaction.product i = fst item
                                 /\ now - days 30 <= Interaction.created_at i).
  { intros item Hin. unfold shown in Hin. do 2 apply In_firstn in Hin.
    unfold ordered in Hin. apply order_by_desc_In in Hin.
    apply in_map_iff in Hin as ([k g] & <- & Hg). cbn [fst snd].
    apply (group_by_In (option_eqb Z.eqb) Interaction.product option_Z_eqb_spec) in Hg.
    destruct Hg as [-> Hk]. apply in_map_iff in Hk as (i0 & Hp0 & Hi0).
    pose proof Hi0 as Hi0'. apply filter_In in Hi0 as [Hi0 Hcond].
    apply andb_true_iff in Hcond as [Hcond _].
    apply andb_true_iff in Hcond as [Hstore Hsince].
    apply Z.eqb_eq in Hstore. apply Z.leb_le in Hsince. split.
    - match goal with
      | |- 1 <= count_all ?grp + count_if is_purchase ?grp * 5 =>
          pose proof (count_if_bounds is_purchase grp) as Hb;
          assert (Hone : 1 <= count_all grp);
          [ unfold count_all;
            assert (Hin0 : In i0 grp)
              by (apply filter_In; split;
                  [exact Hi0' | rewrite Hp0; destruct k; cbn; [apply Z.eqb_refl | reflexivity]]);
            destruct grp; [destruct Hin0 | cbn [List.length]; lia]
          | lia ]
      end.
    - exists i0. repeat split; assumption. }
  assert (Hsorted : StronglySorted
                      (fun a b : option Z * Z => snd b <= snd a) shown).
  { unfold shown. do 2 apply StronglySorted_firstn.
    eapply StronglySorted_weaken; [| apply (proj2 (order_by_desc_spec _ _))].
    intros a b Hab. cbv beta in Hab. rewrite <- Zle_Qle in Hab. exact Hab. }
  eexists. split; [reflexivity |]. split; [| split].
  - etransitivity; [apply flat_map_length_le |].
    + intros [rank item]. destruct (get_product (fst item) db); cbn; lia.
    + rewrite enumerate_from_length. exact Hlen.
  - intros c Hc. apply in_flat_map in Hc as ([rank item] & Hentry & Hc).
    destruct (get_product (fst item) db) as [product |] eqn:Hget; [| destruct Hc].
    destruct Hc as [<- | []].
    cbn [Candidate.product Candidate.score Candidate.rank].
    destruct (get_product_Some _ _ Hget) as [Hfst Hprod].
    apply enumerate_from_In in Hentry. cbn [fst snd] in Hentry.
    destruct Hentry as [Hrank Hin].
    destruct (Hitem item Hin) as (Hcount & i & Hi & Hs & Hp & Hc).
    split; [exact Hprod |]. split; [| split; [lia |]].
    + apply Qmin_unit_interval.
      apply Qlt_shift_div_l; [reflexivity |]. rewrite Qmult_0_l.
      apply Qlt_shift_div_l; [rewrite <- (Zlt_Qlt 0); lia |]. rewrite Qmult_0_l.
      rewrite <- (Zlt_Qlt 0). lia.
    + exists i. rewrite <- Hfst. repeat split; assumption.
  - apply StronglySorted_flat_map
      with (R := fun a b : Z * (option Z * Z) =>
                   fst a < fst b /\ snd (snd b) <= snd (snd a)).
    + intros [rank item] _. destruct (get_product (fst item) db);
        repeat constructor.
    + intros [ra ia] [rb ib] x y Ha Hb [Hr Hc] Hx Hy. cbn [fst snd] in Hr, Hc.
      destruct (get_product (fst ia) db); [| destruct Hx].
      destruct (get_product (fst ib) db); [| destruct Hy].
      destruct Hx as [<- | []]. destruct Hy as [<- | []].
      cbn [Candidate.score Candidate.rank].
      apply enumerate_from_In in Ha, Hb. cbn [fst snd] in Ha, Hb.
      destruct Ha as [Hra Hia], Hb as [Hrb Hib].
      destruct (Hitem ia Hia) as [Hca _]. destruct (Hitem ib Hib) as [Hcb _].
      split; [apply popularity_score_monotone; lia | exact Hr].
    + apply (@enumerate_from_sorted _ (fun a b : option Z * Z => snd b <= snd a)).
      exact Hsorted.
Qed.

Lemma merged_inv_nil : merged_inv [].
Proof. split; [constructor | intros pid data H; discriminate]. Qed.

Lemma hybrid_products_distinct :
  forall (engines_ : list (string * Engine)) (now : Z)
         (user_id session_id : option string) (max_results : nat)
         (context : list (string * string)) (db : Database),
    exists out,
      HybridRecommendationEngine engines_ now user_id session_id max_results context db
      = Ok out
      /\ (List.length out <= max_results)%nat
      /\ NoDup (map (fun c => Product.id (Candidate.product c)) out).
Proof.
  intros engines_ now user_id session_id max_results context db.
  unfold HybridRecommendationEngine. cbv zeta.
  set (results :=
         map (fun e => (fst e, snd e now user_id session_id (max_results * 2)%nat context db))
             engines_).
  set (all := fold_left add_engine results []).
  pose proof (collect_inv results merged_inv_nil) as [Hnd Hent]. fold all in Hnd, Hent.
  set (final := sort_desc (fun rec : Product.t * (Q * list string) => fst (snd rec))
                  (map (fun entry : Z * Merged.t =>
                          (Merged.product (snd entry),
                           (combined_score (Merged.scores (snd entry)),
                            Merged.explanations (snd entry)))) all)).
  assert (Hfind : forall entry, In entry all ->
                                dict_find Z.eqb all (fst entry) = Some (snd entry)).
  { intros [pid data] Hin. apply (dict_find_In Z.eqb Z.eqb_spec); assumption. }
  eexists. split; [reflexivity |]. split.
  - rewrite length_map, enumerate_from_length. apply firstn_le_length.
  - rewrite map_map.
    assert (E : map (fun x : Z * (Product.t * (Q * list string)) =>
                       Product.id
                         (Candidate.product
                            (let '(rank, rec) := x in
                             Candidate.mk (fst rec) (fst (snd rec)) rank
                               (_combine_explanations (snd (snd rec))))))
                    (enumerate_from 1 (firstn max_results final))
                = map (fun rec => Product.id (fst rec)) (firstn max_results final)).
    { rewrite <- (enumerate_from_snd (firstn max_results final) 1) at 2.
      rewrite map_map. apply map_ext. intros [rank rec]. reflexivity. }
    rewrite E, map_firstn_comm. apply NoDup_firstn.
    eapply Permutation_NoDup.
    + apply Permutation_map. apply sort_desc_perm.
    + rewrite map_map. cbn [fst].
      rewrite (map_ext_in _ fst); [exact Hnd |].
      intros entry Hin. apply (Hent _ _ (Hfind entry Hin)).
Qed.

(** C3. In the output of the hybrid engine the score of every product is
    the average of the scores of the generators that proposed it, weighted
    collaborative 0.40, content 0.35, popularity 0.25 (0.1 for any other
    generator) and divided by the sum of the weights of those generators;
    a product only the popularity generator proposed has exactly its
    popularity score; the list is in descending order of score and its
    ranks count 1, 2, 3, ... without gaps.  The output is the merge of what
    the generators proposed: it lists no product twice, and a product that
    some generator proposed is in it, unless [max_results] products whose
    combined scores are at least as high fill it. *)
Theorem hybrid_weighted_average :
  forall (engines_ : list (string * Engine)) (now : Z)
         (user_id session_id : option string) (max_results : nat)
         (context : list (string * string)) (db : Database),
    NoDup (map fst engines_) ->
    let results :=
      map (fun e => (fst e, snd e now user_id session_id (max_results * 2)%nat context db))
          engines_ in
    exists out,
      HybridRecommendationEngine engines_ now user_id session_id max_results context db
      = Ok out
      /\ (forall c, In c out ->
            let contrib := contributions (Product.id (Candidate.product c)) results in
            contrib <> []
            /\ (Candidate.score c == spec_weighted_average contrib)%Q
            /\ (forall s, contrib = [("popularity", s)] -> (Candidate.score c == s)%Q))
      /\ StronglySorted (fun a b => (Candidate.score b <= Candidate.score a)%Q) out
      /\ (forall k c, nth_error out k = Some c -> Candidate.rank c = Z.of_nat k + 1)
      /\ NoDup (map (fun c => Product.id (Candidate.product c)) out)
      /\ (forall pid,
            contributions pid results <> [] ->
            (exists c, In c out /\ Product.id (Candidate.product c) = pid)
            \/ (List.length out = max_results
                /\ forall c, In c out ->
                     (spec_weighted_average (contributions pid results)
                      <= Candidate.score c)%Q)).
Proof.
  intros engines_ now user_id session_id max_results context db Hnd results.
  destruct (hybrid_products_distinct engines_ now user_id session_id max_results
              context db) as (out' & Hrun' & _ & Hdistinct).
  unfold HybridRecommendationEngine in Hrun'. cbv zeta in Hrun'. fold results in Hrun'.
  unfold HybridRecommendationEngine. fold results.
  set (all := fold_left add_engine results []) in *.
  set (final := sort_desc _ _) in *.
  injection Hrun' as <-.
  eexists. split; [reflexivity |].
  assert (Hinv : merged_inv all).
  { apply collect_inv. apply merged_inv_nil. }
  assert (Hscores : forall pid, scores_of all pid = contributions pid results).
  { intros pid. unfold all. rewrite collect_scores.
    - reflexivity.
    - unfold results. rewrite map_map. cbn. exact Hnd.
    - intros name _ []. }
  assert (Hsorted : StronglySorted
                      (fun a b : Product.t * (Q * list string) =>
                         (fst (snd b) <= fst (snd a))%Q) final).
  { unfold final. apply sort_desc_sorted. }
  split; [| split; [| split; [| split]]].
  - intros c Hc. apply in_map_iff in Hc. destruct Hc as ([rank rec] & <- & Hin).
    assert (Hrec : In rec final).
    { apply In_firstn with (n := max_results).
      rewrite <- (enumerate_from_snd (firstn max_results final) 1).
      change rec with (snd (rank, rec)). apply in_map. exact Hin. }
    unfold final in Hrec.
    apply (Permutation_in _ (Permutation_sym (sort_desc_perm _ _))) in Hrec.
    apply in_map_iff in Hrec. destruct Hrec as ([pid data] & <- & Hent).
    destruct Hinv as [Hkeys Hdata].
    pose proof (dict_find_In Z.eqb Z.eqb_spec _ _ _ Hkeys Hent) as Hfind.
    destruct (Hdata pid data Hfind) as [Hpid Hne].
    cbn. rewrite Hpid, <- Hscores. unfold scores_of. rewrite Hfind.
    split; [exact Hne |]. split; [apply combined_score_spec; exact Hne |].
    intros s ->. apply combined_score_popularity_only.
  - apply StronglySorted_map
      with (R := fun a b : Z * (Product.t * (Q * list string)) =>
                   (fst (snd (snd b)) <= fst (snd (snd a)))%Q).
    + intros [ra a] [rb b] H. exact H.
    + apply enumerate_from_StronglySorted
        with (R := fun a b : Product.t * (Q * list string) =>
                     (fst (snd b) <= fst (snd a))%Q).
      apply StronglySorted_firstn. exact Hsorted.
  - intros k c Hk. rewrite nth_error_map in Hk.
    destruct (nth_error (enumerate_from 1 (firstn max_results final)) k)
      as [[rank rec] |] eqn:E; [| discriminate].
    injection Hk as <-. apply enumerate_from_nth in E.
    destruct E as [E _]. cbn [fst] in E. cbn [Candidate.rank]. lia.
  - exact Hdistinct.
  - intros pid Hne. rewrite <- Hscores in Hne |- *. unfold scores_of in Hne |- *.
    destruct (dict_find Z.eqb all pid) as [data |] eqn:Hfind; [| congruence].
    destruct Hinv as [Hkeys Hdata]. destruct (Hdata pid data Hfind) as [Hpid _].
    set (x := (Merged.product data,
               (combined_score (Merged.scores data), Merged.explanations data))).
    assert (Hx : In x final).
    { unfold final. eapply Permutation_in; [apply sort_desc_perm |].
      apply in_map_iff. exists (pid, data). split; [reflexivity |].
      apply (dict_find_Some_In Z.eqb Z.eqb_spec). exact Hfind. }
    rewrite <- (firstn_skipn max_results final) in Hx, Hsorted.
    apply in_app_or in Hx. destruct Hx as [Hx | Hx].
    + left. rewrite <- (enumerate_from_snd (firstn max_results final) 1) in Hx.
      apply in_map_iff in Hx. destruct Hx as ([rank rec] & E & Hin). cbn in E. subst rec.
      eexists. split.
      * apply in_map_iff. exists (rank, x). split; [reflexivity | exact Hin].
      * cbn. exact Hpid.
    + right. split.
      * rewrite length_map, enumerate_from_length, length_firstn.
        assert (Hlen : (0 < List.length (skipn max_results final))%nat).
        { destruct (skipn max_results final); [contradiction | cbn; lia]. }
        rewrite length_skipn in Hlen. lia.
      * intros c Hc. apply in_map_iff in Hc. destruct Hc as ([rank rec] & <- & Hin).
        assert (Hrec : In rec (firstn max_results final)).
        { rewrite <- (enumerate_from_snd (firstn max_results final) 1).
          change rec with (snd (rank, rec)). apply in_map. exact Hin. }
        pose proof (@StronglySorted_app_In _ _ _ _ Hsorted _ _ Hrec Hx) as HR.
        cbn in HR |- *. eapply Qle_trans; [| exact HR].
        apply Qle_lteq. right. symmetry. apply combined_score_spec.
        exact Hne.
Qed.

(* ------------------------------------------------------------------ *)
(** ** The recommendation service: storing what the engine returns *)

Lemma store_recommendation_keyed :
  forall (now store : Z) (u : option Z) (session_id algorithm : option string)
         (context : list (string * string)) (rec : Candidate.t) (db : Database),
    keyed_inv recommendation_lookup (recommendations db) ->
    user_fk_ok u db = true ->
    let k := (store, u, or_default session_id EmptyString,
              Product.id (Candidate.product rec), or_default algorithm "hybrid") in
    exists r1 t1,
      store_recommendation now store u session_id algorithm context rec db
      = (Ok r1, set_recommendations t1 db)
      /\ keyed_inv recommendation_lookup t1
      /\ filter (recommendation_lookup k) (rows t1) = [r1]
      /\ ranked_as rec context now r1
      /\ (forall k', k' <> k ->
            filter (recommendation_lookup k') (rows t1)
            = filter (recommendation_lookup k') (rows (recommendations db)))
      /\ (List.length (rows (recommendations db)) <= List.length (rows t1))%nat.
Proof.
  intros now store u session_id algorithm context rec db Hinv Hfk k.
  set (new := Recommendation.mk 0 store u (or_default session_id EmptyString)
                (Product.id (Candidate.product rec)) (or_default algorithm "hybrid")
                (Candidate.score rec) (Candidate.rank rec) context
                (Candidate.explanation rec) 0 0 0 now (Some (now + hours 24))).
  destruct (@keyed_get_or_create _ _ Recommendation_Model recommendation_lookup
              recommendation_lookup_inj recommendation_key_dec (fun i a => eq_refl)
              (recommendations db) k new Hinv (same_key_refl_new _ _ _ _ _ _ _ _ _ _ _ _ _ _ _))
    as (found & created & t1 & Hgoc & Hinv1 & Hf1 & Hframe1 & Hcases).
  unfold store_recommendation, bind, get_db.
  change (same_key store u (or_default session_id EmptyString)
            (Product.id (Candidate.product rec)) (or_default algorithm "hybrid"))
    with (recommendation_lookup k).
  fold new. rewrite Hfk, Hgoc. cbn [put_db lift].
  destruct Hcases as [(-> & -> & Hsome) | (-> & Hnone & -> & ->)].
  - set (r1 := Recommendation.set_ranking (Candidate.score rec) (Candidate.rank rec)
                 (Candidate.explanation rec) context (Some (now + hours 24)) found).
    destruct (@keyed_save_row _ _ Recommendation_Model recommendation_lookup
                recommendation_lookup_inj recommendation_key_dec
                (recommendations db) k found r1 Hinv Hsome eq_refl)
      as (Hinv2 & Hf2 & Hframe2 & Hlen2).
    { intros [[[[s' u'] e'] p'] a']. apply same_key_set_ranking. }
    exists r1, (save_row r1 (recommendations db)).
    split; [reflexivity |]. split; [exact Hinv2 |]. split; [exact Hf2 |].
    split; [repeat split |]. split; [exact Hframe2 | lia].
  - eexists. eexists. split; [reflexivity |]. split; [exact Hinv1 |].
    split; [exact Hf1 |]. split; [repeat split |]. split; [exact Hframe1 |].
    cbn [rows]. rewrite length_app. lia.
Qed.

Lemma store_loop :
  forall (now store : Z) (u : option Z) (user_id session_id algorithm : option string)
         (context : list (string * string)) (recs : list Candidate.t) (db : Database),
    user_column user_id = Ok u ->
    user_fk_ok u db = true ->
    keyed_inv recommendation_lookup (recommendations db) ->
    NoDup (map (fun c => Product.id (Candidate.product c)) recs) ->
    let key rec := (store, u, or_default session_id EmptyString,
                    Product.id (Candidate.product rec), or_default algorithm "hybrid") in
    exists stored t',
      map_M (fun rec =>
               user <- lift (user_column user_id) ;;
               store_recommendation now store user session_id algorithm context rec)
            recs db
      = (Ok stored, set_recommendations t' db)
      /\ keyed_inv recommendation_lookup t'
      /\ Forall2 (fun rec r =>
                    ranked_as rec context now r
                    /\ filter (recommendation_lookup (key rec)) (rows t') = [r])
                 recs stored
      /\ (forall k', (forall rec, In rec recs -> k' <> key rec) ->
            filter (recommendation_lookup k') (rows t')
            = filter (recommendation_lookup k') (rows (recommendations db)))
      /\ (List.length (rows (recommendations db)) <= List.length (rows t'))%nat.
Proof.
  intros now store u user_id session_id algorithm context recs.
  induction recs as [| rec recs IH]; intros db Hcol Hfk Hinv Hnd key.
  - exists [], (recommendations db). cbn [map_M]. unfold ret.
    split; [destruct db; reflexivity |]. split; [exact Hinv |].
    split; [constructor |]. split; [reflexivity | lia].
  - inversion Hnd as [| ? ? Hnotin Hnd']; subst.
    destruct (@store_recommendation_keyed now store u session_id algorithm context rec
                db Hinv Hfk) as (r1 & t1 & Hrun1 & Hinv1 & Hf1 & Hranked & Hframe1 & Hlen1).
    destruct (IH (set_recommendations t1 db) Hcol Hfk Hinv1 Hnd')
      as (stored & t' & Hrun & Hinv' & Hall & Hframe & Hlen).
    fold key in Hf1, Hframe1. cbv zeta in Hall, Hframe. fold key in Hall, Hframe.
    exists (r1 :: stored), t'.
    assert (Hfresh : forall rec', In rec' recs -> key rec <> key rec').
    { intros rec' Hin E. apply Hnotin. unfold key in E. injection E as E.
      rewrite E. apply (in_map (fun c => Product.id (Candidate.product c))). exact Hin. }
    split; [| split; [exact Hinv' | split; [| split]]].
    + cbn [map_M].
      rewrite bind_ok with (a := r1) (db' := set_recommendations t1 db).
      * rewrite bind_ok with (a := stored)
                             (db' := set_recommendations t' (set_recommendations t1 db))
          by exact Hrun.
        reflexivity.
      * unfold bind, lift. rewrite Hcol. exact Hrun1.
    + constructor; [| exact Hall]. split; [exact Hranked |].
      rewrite (Hframe (key rec) Hfresh). exact Hf1.
    + intros k' Hk'. rewrite Hframe.
      * apply Hframe1. apply Hk'. left. reflexivity.
      * intros rec' Hin. apply Hk'. right. exact Hin.
    + cbn [recommendations set_recommendations] in Hlen. lia.
Qed.

(** X17 ([RecommendationService.get_recommendations], default algorithm):
    when the user column resolves to a stored user or to none, the call
    succeeds and returns one stored row per candidate of the hybrid engine,
    in the engine's order: the row kept under the candidate's key, with the
    candidate's score, rank and explanation and an expiry 24 hours ahead.
    Only the recommendations table is written, no row is deleted, and rows
    under other keys stay as they were. *)
Theorem get_recommendations_stores_engine_output :
  forall (store now : Z) (user_id session_id : option string) (max_results : nat)
         (context : list (string * string)) (db : Database) (u : option Z),
    user_column user_id = Ok u ->
    user_fk_ok u db = true ->
    keyed_inv recommendation_lookup (recommendations db) ->
    let key rec := (store, u, or_default session_id EmptyString,
                    Product.id (Candidate.product rec), "hybrid") in
    exists out stored db',
      HybridRecommendationEngine (engines store) now user_id session_id max_results
        context db = Ok out
      /\ get_recommendations store now user_id session_id max_results context None db
         = (Ok stored, db')
      /\ (List.length stored <= max_results)%nat
      /\ db' = set_recommendations (recommendations db') db
      /\ keyed_inv recommendation_lookup (recommendations db')
      /\ Forall2 (fun rec r =>
                    ranked_as rec context now r
                    /\ filter (recommendation_lookup (key rec))
                              (rows (recommendations db')) = [r])
                 out stored
      /\ (forall k', (forall rec, In rec out -> k' <> key rec) ->
            filter (recommendation_lookup k') (rows (recommendations db'))
            = filter (recommendation_lookup k') (rows (recommendations db)))
      /\ (List.length (rows (recommendations db))
          <= List.length (rows (recommendations db')))%nat.
Proof.
  intros store now user_id session_id max_results context db u Hcol Hfk Hinv key.
  destruct (hybrid_products_distinct (engines store) now user_id session_id max_results
              context db) as (out & Hout & Hlen & Hnodup).
  destruct (@store_loop now store u user_id session_id None context out db
              Hcol Hfk Hinv Hnodup)
    as (stored & t' & Hrun & Hinv' & Hall & Hframe & Hgrow).
  exists out, stored, (set_recommendations t' db).
  split; [exact Hout |]. split; [| split; [| split; [reflexivity | split; [exact Hinv' |]]]].
  - unfold get_recommendations, bind at 1, get_db.
    change (select_engine store None) with (HybridRecommendationEngine (engines store)).
    unfold bind at 1, lift at 1. rewrite Hout. exact Hrun.
  - rewrite <- (Forall2_length Hall). exact Hlen.
  - split; [exact Hall |]. split; [exact Hframe | exact Hgrow].
Qed.

(* ------------------------------------------------------------------ *)
(** ** Model activation *)

Lemma deactivate_spec :
  forall (self r0 : MLModel.t),
    let r := if (MLModel.store r0 =? MLModel.store self)
                && String.eqb (MLModel.model_type r0) (MLModel.model_type self)
                && MLModel.is_active r0
             then MLModel.set_is_active false r0 else r0 in
    MLModel.id r = MLModel.id r0
    /\ (MLModel.store r = MLModel.store self ->
        MLModel.model_type r = MLModel.model_type self ->
        MLModel.is_active r = false)
    /\ (MLModel.store r0 <> MLModel.store self
        \/ MLModel.model_type r0 <> MLModel.model_type self
        \/ MLModel.is_active r0 = false ->
        r = r0).
Proof.
  intros self r0.
  destruct (Z.eqb_spec (MLModel.store r0) (MLModel.store self)) as [Es | Es];
    destruct (String.eqb_spec (MLModel.model_type r0) (MLModel.model_type self))
      as [Et | Et];
    destruct (MLModel.is_active r0) eqn:Ea; cbn [andb];
    cbn [MLModel.set_is_active MLModel.id MLModel.store MLModel.model_type
         MLModel.is_active];
    (split; [reflexivity |]); (split; [congruence || (intros; reflexivity) |]);
    try (intros _; reflexivity).
  intros [H | [H | H]]; congruence.
Qed.

(** X18 ([MLModel.activate]): in a table with unique keys, after a model
    is activated it is the only active model of its tenant and type: it is
    stored active with status 'active' (written over the row with its key,
    or added when there is none), every other model of that tenant and type
    is inactive, and the models of other tenants or types, and those
    already inactive, are left as they were. *)
Theorem activate_leaves_one_active_model :
  forall (self : MLModel.t) (table : list MLModel.t),
    NoDup (map MLModel.id table) ->
    let self' := fst (MLModel.activate self table) in
    let table' := snd (MLModel.activate self table) in
    MLModel.is_active self' = true
    /\ MLModel.status self' = "active"
    /\ MLModel.id self' = MLModel.id self
    /\ In self' table'
    /\ NoDup (map MLModel.id table')
    /\ (forall m, In m table' ->
                  MLModel.store m = MLModel.store self ->
                  MLModel.model_type m = MLModel.model_type self ->
                  MLModel.is_active m = true -> m = self')
    /\ (forall m, In m table ->
                  MLModel.id m <> MLModel.id self ->
                  MLModel.store m <> MLModel.store self
                  \/ MLModel.model_type m <> MLModel.model_type self
                  \/ MLModel.is_active m = false ->
                  In m table')
    /\ (List.length table <= List.length table' <= List.length table + 1)%nat.
Proof.
  intros self table Hnd. unfold MLModel.activate. cbv zeta. cbn [fst snd].
  set (deactivate := fun r : MLModel.t =>
                       if (MLModel.store r =? MLModel.store self)
                          && String.eqb (MLModel.model_type r) (MLModel.model_type self)
                          && MLModel.is_active r
                       then MLModel.set_is_active false r else r).
  set (self' := MLModel.mk (MLModel.id self) (MLModel.store self)
                  (MLModel.model_type self) (MLModel.version self) "active" true).
  set (table1 := map deactivate table).
  assert (Hids : map MLModel.id table1 = map MLModel.id table).
  { unfold table1. rewrite map_map. apply map_ext. intros r0.
    apply (deactivate_spec self r0). }
  assert (Hoff : forall m, In m table1 ->
                           MLModel.store m = MLModel.store self ->
                           MLModel.model_type m = MLModel.model_type self ->
                           MLModel.is_active m = false).
  { intros m Hm. apply in_map_iff in Hm as (r0 & <- & _).
    apply (deactivate_spec self r0). }
  assert (Hkept : forall m, In m table ->
                            MLModel.store m <> MLModel.store self
                            \/ MLModel.model_type m <> MLModel.model_type self
                            \/ MLModel.is_active m = false ->
                            In m table1).
  { intros m Hm Hc. apply in_map_iff. exists m. split; [| exact Hm].
    apply (deactivate_spec self m). exact Hc. }
  split; [reflexivity |]. split; [reflexivity |]. split; [reflexivity |].
  destruct (existsb (fun r => MLModel.id r =? MLModel.id self) table1) eqn:Hex.
  - set (write := fun r : MLModel.t => if MLModel.id r =? MLModel.id self then self' else r).
    assert (Hwids : map MLModel.id (map write table1) = map MLModel.id table1).
    { rewrite map_map. apply map_ext. intros r. unfold write.
      destruct (Z.eqb_spec (MLModel.id r) (MLModel.id self)) as [E | E];
        [rewrite E |]; reflexivity. }
    split; [| split; [| split; [| split]]].
    + apply existsb_exists in Hex as (r & Hr & E).
      apply in_map_iff. exists r. split; [| exact Hr]. unfold write. rewrite E. reflexivity.
    + rewrite Hwids, Hids. exact Hnd.
    + intros m Hm Hs Ht Ha. apply in_map_iff in Hm as (r & <- & Hr). unfold write in *.
      destruct (MLModel.id r =? MLModel.id self); [reflexivity |].
      rewrite (Hoff r Hr Hs Ht) in Ha. discriminate.
    + intros m Hm Hid Hc. apply in_map_iff. exists m. split; [| apply Hkept; assumption].
      unfold write. apply Z.eqb_neq in Hid. rewrite Hid. reflexivity.
    + unfold table1. rewrite !length_map. lia.
  - split; [| split; [| split; [| split]]].
    + apply in_or_app. right. left. reflexivity.
    + rewrite map_app, Hids. cbn [map MLModel.id self'].
      apply NoDup_app; [exact Hnd | constructor; [intros [] | constructor] |].
      intros k Hk [E | []]. subst k. rewrite <- Hids in Hk.
      apply in_map_iff in Hk as (r & Hid & Hr).
      assert (existsb (fun r => MLModel.id r =? MLModel.id self) table1 = true).
      { apply existsb_exists. exists r. split; [exact Hr | apply Z.eqb_eq; exact Hid]. }
      congruence.
    + intros m Hm Hs Ht Ha. apply in_app_or in Hm as [Hm | [<- | []]]; [| reflexivity].
      rewrite (Hoff m Hm Hs Ht) in Ha. discriminate.
    + intros m Hm _ Hc. apply in_or_app. left. apply Hkept; assumption.
    + unfold table1. rewrite length_app, length_map. cbn [List.length]. lia.
Qed.

(* ------------------------------------------------------------------ *)
(** ** The product context of an interaction *)

(** X19 ([Interaction.save]): saving an interaction whose product, if it
    has one, is stored fills a blank product category, and with it the
    price, from the product, and never overwrites a category already set;
    the tenant, user, product, type and value are written as given, and
    saving again against the same products computes the same category,
    price and weight.  The key and the creation time are assigned by the
    database on insert and are not part of the statement. *)
Theorem interaction_save_snapshots_product :
  forall (products : list Product.t) (self : Interaction.t),
    (forall pid, Interaction.product self = Some pid ->
                 exists p, find (fun p => Product.id p =? pid) products = Some p) ->
    let saved := Interaction.save products self in
    (let again := Interaction.save products saved in
     Interaction.product_category again = Interaction.product_category saved
     /\ Interaction.product_price again = Interaction.product_price saved
     /\ Interaction.weight again = Interaction.weight saved)
    /\ (Interaction.product_category self <> EmptyString ->
        Interaction.product_category saved = Interaction.product_category self
        /\ Interaction.product_price saved = Interaction.product_price self)
    /\ (forall pid p,
          Interaction.product_category self = EmptyString ->
          Interaction.product self = Some pid ->
          find (fun p => Product.id p =? pid) products = Some p ->
          Interaction.product_category saved = Product.category p
          /\ Interaction.product_price saved = Product.price p)
    /\ (Interaction.product self = None ->
        Interaction.product_category saved = Interaction.product_category self
        /\ Interaction.product_price saved = Interaction.product_price self)
    /\ Interaction.store saved = Interaction.store self
    /\ Interaction.user saved = Interaction.user self
    /\ Interaction.product saved = Interaction.product self
    /\ Interaction.interaction_type saved = Interaction.interaction_type self
    /\ Interaction.value saved = Interaction.value self.
Proof.
  intros products self Hfk saved. unfold saved, Interaction.save.
  destruct (Interaction.product self) as [pid |] eqn:Hp.
  - destruct (Hfk pid eq_refl) as (p & Hfind). rewrite Hfind.
    destruct (String.eqb_spec (Interaction.product_category self) EmptyString) as [Hc | Hc].
    + cbn [Interaction.set_weight Interaction.set_product_context Interaction.product
           Interaction.product_category Interaction.product_price
           Interaction.interaction_type Interaction.id Interaction.store Interaction.user
           Interaction.value Interaction.created_at].
      rewrite Hp, Hfind.
      split; [destruct (String.eqb (Product.category p) EmptyString);
              repeat split; reflexivity |].
      split; [intros Hne; congruence |].
      split; [intros pid' p' _ E Hf; injection E as <-; rewrite Hfind in Hf;
              injection Hf as <-; split; reflexivity |].
      split; [discriminate |]. repeat split.
    + cbn [Interaction.set_weight Interaction.product Interaction.product_category
           Interaction.product_price Interaction.interaction_type Interaction.id
           Interaction.store Interaction.user Interaction.value Interaction.created_at].
      rewrite Hp, Hfind.
      destruct (String.eqb_spec (Interaction.product_category self) EmptyString);
        [congruence |].
      cbn [Interaction.set_weight Interaction.interaction_type].
      split; [repeat split; reflexivity |]. split; [intros _; split; reflexivity |].
      split; [intros pid' p' E; congruence |].
      split; [discriminate |]. repeat split.
  - cbn [Interaction.set_weight Interaction.product Interaction.product_category
         Interaction.product_price Interaction.interaction_type Interaction.id
         Interaction.store Interaction.user Interaction.value Interaction.created_at].
    rewrite Hp. cbn [Interaction.set_weight Interaction.interaction_type].
    split; [repeat split; reflexivity |]. split; [intros _; split; reflexivity |].
    split; [discriminate |]. split; [intros _; split; reflexivity |]. repeat split.
Qed.

(* ------------------------------------------------------------------ *)
(** ** Deleting old interactions *)

Lemma filter_filter_implies :
  forall (A : Type) (f g : A -> bool) (l : list A),
    (forall x, f x = true -> g x = true) -> filter f (filter g l) = filter f l.
Proof.
  intros A f g l H. induction l as [| a l IH]; cbn [filter]; [reflexivity |].
  destruct (g a) eqn:Eg; cbn [filter].
  - rewrite IH. reflexivity.
  - destruct (f a) eqn:Ef; [| exact IH].
    rewrite (H a Ef) in Eg. discriminate.
Qed.

(** X20 ([cleanup_old_interactions] before [calculate_trending_products]
    and [PopularityBasedEngine.get_recommendations]): deleting the
    interactions older than 730 days removes exactly those and reports their
    number, and writes no other table; the interactions that a ranking query
    reads for a window starting at or after the cut-off (every trending
    window and the 30 days of the popularity engine, run at or after the
    clean-up) are the same rows, in the same order, as before it. *)
Theorem cleanup_old_interactions_keeps_recent_views :
  forall (now0 : Z) (db : Database),
    exists msg db',
      cleanup_old_interactions now0 db = (Ok msg, db')
      /\ db' = set_interactions (interactions db') db
      /\ (forall i, In i (interactions db')
                    <-> In i (interactions db)
                        /\ now0 - days 730 <= Interaction.created_at i)
      /\ msg = String.concat EmptyString
                 ["Deleted ";
                  string_of_Z (count_all (interactions db) - count_all (interactions db'));
                  " old interactions"]
      /\ (forall store since_date,
            now0 - days 730 <= since_date ->
            filter (fun i => (Interaction.store i =? store)
                             && (since_date <=? Interaction.created_at i)
                             && is_some (Interaction.product i))
                   (interactions db')
            = filter (fun i => (Interaction.store i =? store)
                               && (since_date <=? Interaction.created_at i)
                               && is_some (Interaction.product i))
                     (interactions db))
      /\ (forall store since_date pid,
            now0 - days 730 <= since_date ->
            window_interactions store since_date pid db'
            = window_interactions store since_date pid db).
Proof.
  intros now0 db.
  unfold cleanup_old_interactions, bind, get_db, put_db, ret.
  eexists. eexists. split; [reflexivity |]. split; [reflexivity |].
  cbn [interactions set_interactions].
  assert (Hkeep : forall store since_date,
             now0 - days 730 <= since_date ->
             filter (fun i => (Interaction.store i =? store)
                              && (since_date <=? Interaction.created_at i)
                              && is_some (Interaction.product i))
                    (filter (fun i => negb (Interaction.created_at i <? now0 - days 730))
                            (interactions db))
             = filter (fun i => (Interaction.store i =? store)
                                && (since_date <=? Interaction.created_at i)
                                && is_some (Interaction.product i))
                      (interactions db)).
  { intros store since_date Hs. apply filter_filter_implies. intros i Hi.
    apply andb_true_iff in Hi as [Hi _]. apply andb_true_iff in Hi as [_ Hi].
    apply Z.leb_le in Hi. apply negb_true_iff. apply Z.ltb_ge. lia. }
  split; [| split; [| split]].
  - intros i. rewrite filter_In, negb_true_iff, Z.ltb_ge. reflexivity.
  - assert (E : count_if (fun i => Interaction.created_at i <? now0 - days 730)
                         (interactions db)
                = count_all (interactions db)
                  - count_all (filter (fun i => negb (Interaction.created_at i
                                                      <? now0 - days 730))
                                      (interactions db))).
    { unfold count_if, count_all.
      pose proof (filter_length (fun i => Interaction.created_at i <? now0 - days 730)
                    (interactions db)) as Hlen.
      cbv beta in Hlen. lia. }
    rewrite E. reflexivity.
  - exact Hkeep.
  - intros store since_date pid Hs. unfold window_interactions.
    cbn [interactions set_interactions]. rewrite Hkeep by exact Hs. reflexivity.
Qed.

End Queries.

(* ------------------------------------------------------------------ *)
(** ** Trending products: a second run *)

(** X8 ([calculate_trending_products]): a second run for the same tenant at
    the same time, with no interaction recorded in between, returns the same
    message and writes nothing, provided its ranking queries return their
    rows in the order the first run saw them.  Rows of equal interaction
    count may come back in another order, and then the ranks of the tied
    products are rewritten; hence the two runs have each their own order, and
    the condition is a hypothesis. *)
Theorem trending_rerun_changes_nothing :
  forall (order1 order2 : forall A : Type, (A -> Q) -> list A -> list A)
         (now store_id : Z) (db : Database),
    (forall (A : Type) (key : A -> Q) (l : list A),
       is_order_by_desc key l (order1 A key l)) ->
    (forall w time_delta,
       In (w, time_delta) windows ->
       trending_data order2 now store_id time_delta db
       = trending_data order1 now store_id time_delta db) ->
    In store_id (stores db) ->
    trending_inv (trending_products db) ->
    referential_integrity db ->
    exists msg db1,
      calculate_trending_products order1 now store_id db = (Ok msg, db1)
      /\ calculate_trending_products order2 now store_id db1 = (Ok msg, db1).
Proof.
  intros order1 order2 now store_id db Horder Hsame Hstore Hinv Href.
  destruct (@calculate_trending_products_spec order1 Horder now store_id db
              Hstore Hinv Href)
    as (msg & t' & Hrun & Hinv' & Hrows).
  exists msg, (set_trending_products t' db). split; [exact Hrun |].
  assert (Hmsg : msg = String.concat EmptyString
                         ["Trending products calculated for store ";
                          string_of_Z store_id]).
  { assert (Hex : existsb (Z.eqb store_id) (stores db) = true).
    { apply existsb_exists. exists store_id. split; [exact Hstore | apply Z.eqb_refl]. }
    unfold calculate_trending_products in Hrun.
    rewrite bind_ok with (a := db) (db' := db) in Hrun by reflexivity.
    rewrite Hex in Hrun. unfold bind at 1 in Hrun.
    destruct (for_each windows _ db) as [[[] | ex] db2]; [| discriminate].
    unfold ret in Hrun. injection Hrun as <- _. reflexivity. }
  assert (Hex : existsb (Z.eqb store_id) (stores (set_trending_products t' db)) = true).
  { apply existsb_exists. exists store_id. split; [exact Hstore | apply Z.eqb_refl]. }
  unfold calculate_trending_products.
  rewrite bind_ok with (a := set_trending_products t' db)
                       (db' := set_trending_products t' db) by reflexivity.
  rewrite Hex.
  rewrite bind_ok with (a := tt) (db' := set_trending_products t' db).
  - unfold ret. rewrite Hmsg. reflexivity.
  - apply trending_windows_noop; [exact Hinv' |].
    intros w time_delta k item Hw Hk.
    change (trending_data order2 now store_id time_delta (set_trending_products t' db))
      with (trending_data order2 now store_id time_delta db) in Hk.
    rewrite (Hsame w time_delta Hw) in Hk.
    destruct (Hrows w time_delta k item Hw Hk) as (pid & e & Hp & He & Hs & Hv & Hr).
    destruct (@trending_data_resolves order1 Horder _ _ _ _ item Href (nth_error_In _ _ Hk))
      as (pid' & p & Hp' & Hget).
    rewrite Hp in Hp'. injection Hp' as <-.
    exists pid, p, e. repeat split; assumption.
Qed.

(* ================================================================== *)
(** * The properties on concrete stores *)

Lemma stable_order_spec :
  forall (A : Type) (key : A -> Q) (l : list A),
    is_order_by_desc key l (stable_order key l).
Proof. intros A key l. apply sort_desc_is_order_by_desc. Qed.

Lemma empty_table_wf :
  forall (A : Type) (M : Model A), table_wf (@empty_table A).
Proof. intros A M. split; [constructor | intros r []]. Qed.

Lemma empty_trending_inv : trending_inv empty_table.
Proof.
  split; [apply empty_table_wf |]. intros store product w. cbn. lia.
Qed.

Lemma trending_db_integrity : referential_integrity trending_db.
Proof.
  intros i pid Hin Hp. unfold trending_db, example_db in Hin.
  cbn [interactions In] in Hin.
  repeat (destruct Hin as [E | Hin];
          [subst i; vm_compute in Hp; injection Hp as <-;
           first [ exists P1; split; [left; reflexivity | reflexivity]
                 | exists P2; split; [right; left; reflexivity | reflexivity] ] |]).
  contradiction.
Qed.

(** C4 on two purchases that differ in everything but their type. *)
Lemma engagement_weight_function_of_type_witness :
  let i1 := Interaction.mk 1 1 (Some 7) (Some 1) "purchase" 50%Q 1.0%Q None EmptyString 100 in
  let i2 := Interaction.mk 2 2 None None "purchase" 30%Q 0.3%Q None "x" 900 in
  Interaction.interaction_type i2 = Interaction.interaction_type i1
  /\ Interaction.weight (Interaction.save [] i2)
     = Interaction.weight (Interaction.save [P1; P2] i1).
Proof.
  intros i1 i2. split; [reflexivity |].
  exact (proj2 (proj2 (proj2 (engagement_weight_function_of_type [P1; P2] i1)))
               [] i2 eq_refl).
Defined.

(** C6 as first stated fails: after three impressions and one click the
    click-through rate read is 100/3, not the fraction 1/3. *)
Lemma rates_are_not_fractions :
  ~ (Recommendation.click_through_rate shown_thrice
     == inject_Z (Recommendation.click_count shown_thrice)
        / inject_Z (Recommendation.shown_count shown_thrice))%Q.
Proof. vm_compute. intros H. discriminate H. Qed.

Lemma rates_are_percentages_witness :
  Recommendation.shown_count shown_thrice <> 0
  /\ (Recommendation.click_through_rate shown_thrice
      == inject_Z 1 / inject_Z 3 * 100)%Q
  /\ (Recommendation.conversion_rate shown_thrice
      == inject_Z 0 / inject_Z 3 * 100)%Q.
Proof.
  assert (H : Recommendation.shown_count shown_thrice <> 0) by discriminate.
  split; [exact H |].
  exact (proj2 (rates_are_percentages shown_thrice) H).
Defined.

(** C10 on a store without recommendations. *)
Lemma feedback_on_unknown_id_is_noop_witness :
  (forall r, In r (rows (recommendations scenario_db)) -> Recommendation.id r <> 5)
  /\ record_impression 1000 5 scenario_db = (Ok tt, scenario_db)
  /\ record_click 1000 5 scenario_db = (Ok tt, scenario_db).
Proof.
  assert (H : forall r, In r (rows (recommendations scenario_db)) ->
                        Recommendation.id r <> 5) by (intros r []).
  split; [exact H |].
  exact (@feedback_on_unknown_id_is_noop 1000 5 scenario_db H).
Defined.

(** C9 on a user who exists and has no interaction yet. *)
Lemma collaborative_empty_without_history_witness :
  filter (fun u => (User.store u =? 1) && String.eqb (User.user_id u) "u7")
         (users (example_db [])) = [example_user]
  /\ (forall i, In i (interactions (example_db [])) ->
                Interaction.user i <> Some (User.id example_user))
  /\ CollaborativeFilteringEngine stable_order 1 1000 (Some "u7") None 10%nat []
       (example_db [])
     = Ok [].
Proof.
  assert (H1 : filter (fun u => (User.store u =? 1) && String.eqb (User.user_id u) "u7")
                      (users (example_db [])) = [example_user]) by reflexivity.
  assert (H2 : forall i, In i (interactions (example_db [])) ->
                         Interaction.user i <> Some (User.id example_user))
    by (intros i []).
  split; [exact H1 |]. split; [exact H2 |].
  apply (@collaborative_empty_without_history stable_order 1 1000 (Some "u7") None
           10%nat [] (example_db [])).
  right. right. exists "u7", example_user. split; [reflexivity |].
  split; [exact H1 | exact H2].
Defined.

(** C3 on two generators that agree on one product, and one that fails:
    the product both proposed comes first, with the average of its two
    scores weighted 0.25 and 0.40; the product only the popularity
    generator proposed keeps its popularity score. *)
Lemma hybrid_weighted_average_witness :
  NoDup (map fst example_engines)
  /\ exists c1 c2,
       HybridRecommendationEngine example_engines 1000 None (Some "s1") 10%nat []
         scenario_db = Ok [c1; c2]
       /\ Candidate.product c1 = P2 /\ Candidate.rank c1 = 1
       /\ (Candidate.score c1 == (0.2 * 0.25 + 0.9 * 0.4) / (0.25 + 0.4))%Q
       /\ Candidate.product c2 = P1 /\ Candidate.rank c2 = 2
       /\ (Candidate.score c2 == 0.5)%Q.
Proof.
  assert (Hnd : NoDup (map fst example_engines)).
  { cbn. repeat constructor; cbn; intuition discriminate. }
  split; [exact Hnd |].
  destruct (@hybrid_weighted_average example_engines 1000 None (Some "s1") 10%nat []
              scenario_db Hnd)
    as (out & Hrun & Hscore & _ & Hrank & _ & Hcover).
  destruct (Hcover 2) as [(c1 & Hin1 & Hid1) | [Hlen _]]; [vm_compute; discriminate | |].
  - destruct (Hcover 1) as [(c2 & Hin2 & Hid2) | [Hlen _]]; [vm_compute; discriminate | |].
    + assert (Hout : exists a b, out = [a; b]
                                 /\ Candidate.product a = P2 /\ Candidate.product b = P1).
      { vm_compute in Hrun. injection Hrun as <-. eexists. eexists.
        split; [reflexivity |]. split; reflexivity. }
      destruct Hout as (a & b & -> & Ha & Hb).
      exists a, b. split; [exact Hrun |].
      destruct (Hscore a (or_introl eq_refl)) as (_ & Hsa & _).
      destruct (Hscore b (or_intror (or_introl eq_refl))) as (_ & _ & Hsb).
      rewrite Ha in Hsa. rewrite Hb in Hsb.
      split; [exact Ha |]. split; [apply (Hrank 0%nat); reflexivity |].
      split; [rewrite Hsa; vm_compute; reflexivity |].
      split; [exact Hb |]. split; [apply (Hrank 1%nat); reflexivity |].
      apply Hsb. reflexivity.
    + exfalso. vm_compute in Hrun. injection Hrun as <-. discriminate.
  - exfalso. vm_compute in Hrun. injection Hrun as <-. discriminate.
Defined.

(** C2 as first stated fails: in the one-hour window P1 (three views) gets
    rank 1 with score 3 and P2 (two purchases) gets rank 2 with score 16,
    so the score rises with the rank. *)
Lemma trending_rank_not_by_score :
  exists e1 e2,
    In e1 (rows (trending_products
                   (snd (calculate_trending_products stable_order example_now 1
                           trending_db))))
    /\ In e2 (rows (trending_products
                      (snd (calculate_trending_products stable_order example_now 1
                              trending_db))))
    /\ TrendingProduct.store e1 = 1 /\ TrendingProduct.store e2 = 1
    /\ TrendingProduct.calculation_window e1 = "1h"
    /\ TrendingProduct.calculation_window e2 = "1h"
    /\ TrendingProduct.rank e1 = 1 /\ TrendingProduct.rank e2 = 2
    /\ (TrendingProduct.score e1 == 3)%Q /\ (TrendingProduct.score e2 == 16)%Q
    /\ (TrendingProduct.score e1 < TrendingProduct.score e2)%Q.
Proof.
  exists (TrendingProduct.mk 1 1 1 (inject_Z 3) (0 # 3) 1 "1h" example_now),
         (TrendingProduct.mk 2 1 2 (inject_Z 16) (2 # 2) 2 "1h" example_now).
  split; [vm_compute; tauto |]. split; [vm_compute; tauto |].
  repeat split; reflexivity.
Qed.

(** C2 (as amended) on three views of P1 and two purchases of P2 in the
    last hour: two rows, P1 with rank 1 and P2 with rank 2. *)
Lemma trending_ranks_follow_interaction_count_witness :
  In 1 (stores trending_db)
  /\ trending_inv (trending_products trending_db)
  /\ referential_integrity trending_db
  /\ exists msg db' e1 e2,
       calculate_trending_products stable_order example_now 1 trending_db
       = (Ok msg, db')
       /\ List.length (trending_data stable_order example_now 1 (hours 1) trending_db)
          = 2%nat
       /\ trending_entries (trending_products db') 1 1 "1h" = [e1]
       /\ TrendingProduct.rank e1 = 1
       /\ trending_entries (trending_products db') 1 2 "1h" = [e2]
       /\ TrendingProduct.rank e2 = 2.
Proof.
  assert (Hstore : In 1 (stores trending_db)) by (left; reflexivity).
  split; [exact Hstore |]. split; [exact empty_trending_inv |].
  split; [exact trending_db_integrity |].
  destruct (@trending_ranks_follow_interaction_count stable_order stable_order_spec
              example_now 1 trending_db Hstore empty_trending_inv trending_db_integrity)
    as (msg & db' & Hrun & Hwin & _).
  destruct (Hwin "1h" (hours 1) (or_introl eq_refl)) as (Hlen & _ & _ & Hrank & _).
  assert (H0 : nth_error (trending_data stable_order example_now 1 (hours 1) trending_db) 0
               = Some (TrendingRow.mk (Some 1) 3 0 0)) by (vm_compute; reflexivity).
  assert (H1 : nth_error (trending_data stable_order example_now 1 (hours 1) trending_db) 1
               = Some (TrendingRow.mk (Some 2) 2 2 2)) by (vm_compute; reflexivity).
  destruct (Hrank 0%nat _ H0) as (p1 & e1 & Hp1 & _ & He1 & Hr1).
  destruct (Hrank 1%nat _ H1) as (p2 & e2 & Hp2 & _ & He2 & Hr2).
  cbn [TrendingRow.product] in Hp1, Hp2.
  injection Hp1 as <-. injection Hp2 as <-.
  exists msg, db', e1, e2. split; [exact Hrun |].
  split; [rewrite Hlen; vm_compute; reflexivity |].
  split; [exact He1 |]. split; [exact Hr1 |]. split; [exact He2 | exact Hr2].
Defined.

(** C5 on two purchases of P2 ten minutes ago, in the window of one hour:
    score 2 + 5 * 2 + 2 * 2 = 16 and velocity 2 / 2. *)
Lemma trending_score_and_velocity_witness :
  In 1 (stores trending_db)
  /\ trending_inv (trending_products trending_db)
  /\ referential_integrity trending_db
  /\ exists msg db' e,
       calculate_trending_products stable_order example_now 1 trending_db
       = (Ok msg, db')
       /\ trending_entries (trending_products db') 1 2 "1h" = [e]
       /\ TrendingProduct.score e = inject_Z 16
       /\ (TrendingProduct.velocity e == 1)%Q
       /\ (trending_velocity (TrendingRow.mk (Some 1%Z) 0%Z 3%Z 3%Z) == 3)%Q.
Proof.
  assert (Hstore : In 1 (stores trending_db)) by (left; reflexivity).
  split; [exact Hstore |]. split; [exact empty_trending_inv |].
  split; [exact trending_db_integrity |].
  destruct (@trending_score_and_velocity stable_order stable_order_spec
              example_now 1 trending_db Hstore empty_trending_inv trending_db_integrity)
    as (msg & db' & Hrun & _ & Hmade & Hguard & _).
  assert (Hlen : (List.length (window_products 1 (example_now - hours 1) trending_db)
                  <= 50)%nat) by (vm_compute; lia).
  assert (Hi : In (example_interaction 4 None 2 "purchase" 30%Q (example_now - 600000000))
                  (window_interactions 1 (example_now - hours 1) 2 trending_db))
    by (vm_compute; auto).
  destruct (Hmade "1h" (hours 1) 2 _ (or_introl eq_refl) Hlen Hi) as (e & He & Hs & Hv).
  exists msg, db', e. split; [exact Hrun |]. split; [exact He |].
  split; [rewrite Hs; vm_compute; reflexivity |].
  split; [eapply Qeq_trans; [exact Hv | vm_compute; reflexivity] |].
  eapply Qeq_trans; [apply Hguard; cbn; lia | reflexivity].
Defined.

(* ------------------------------------------------------------------ *)
(** ** The further properties on concrete stores *)

Lemma empty_keyed_inv :
  forall (A K : Type) (M : Model A) (lookup : K -> A -> bool),
    keyed_inv lookup (@empty_table A).
Proof.
  intros A K M lookup. split; [apply empty_table_wf |]. intros k. cbn. lia.
Qed.

Lemma feedback_db_wf : table_wf (recommendations feedback_db).
Proof.
  split.
  - cbn. constructor; [intros [] | constructor].
  - intros r [<- | []]. cbn. lia.
Qed.

Lemma feedback_db_users : NoDup (map User.id (users feedback_db)).
Proof. cbn. constructor; [intros [] | constructor]. Qed.

Lemma feedback_db_resolves : users_resolve feedback_db.
Proof.
  intros r uid [<- | []] E. injection E as <-.
  exists example_user. split; [left; reflexivity | reflexivity].
Qed.

(** X2 on a clean-up at time 1000 and a read at time 2000. *)
Lemma active_listing_after_cleanup_witness :
  1000 <= 2000
  /\ exists db',
       cleanup_old_recommendations 1000 feedback_db = (Ok tt, db')
       /\ forall store active_only r,
            In r (get_queryset stable_order 2000 store active_only db') ->
            In r (get_queryset stable_order 2000 store active_only feedback_db).
Proof.
  assert (H : 1000 <= 2000) by lia.
  split; [exact H |].
  destruct (@active_listing_after_cleanup stable_order stable_order_spec 1000 2000
              feedback_db H) as (db' & Hrun & Hsub & _).
  exists db'. split; [exact Hrun | exact Hsub].
Defined.

(** X3 on a first upsert for an anonymous session, read 1000 microseconds
    later. *)
Lemma stored_recommendation_is_listed_witness :
  table_wf (recommendations scenario_db)
  /\ user_fk_ok None scenario_db = true
  /\ exists r1 db1,
       store_recommendation 1000 1 None (Some "s1") None [] example_candidate scenario_db
       = (Ok r1, db1)
       /\ In r1 (get_queryset stable_order 2000 1 None db1)
       /\ Recommendation.created_at r1 = 1000.
Proof.
  assert (Hwf : table_wf (recommendations scenario_db))
    by apply (empty_table_wf Recommendation_Model).
  split; [exact Hwf |]. split; [reflexivity |].
  destruct (@stored_recommendation_is_listed stable_order stable_order_spec 1000 1 None
              (Some "s1") None [] example_candidate scenario_db Hwf eq_refl
              (Nat.le_0_l 1))
    as (r1 & db1 & Hrun & Hlisted & _ & Hnew & _).
  exists r1, db1. split; [exact Hrun |]. split.
  - apply Hlisted. reflexivity.
  - apply Hnew. reflexivity.
Defined.

(** X4 on the recommendation of user 7. *)
Lemma feedback_increments_one_counter_witness :
  table_wf (recommendations feedback_db)
  /\ In user_recommendation (rows (recommendations feedback_db))
  /\ keyed_inv recommendation_profile_lookup (user_recommendation_profiles feedback_db)
  /\ NoDup (map User.id (users feedback_db))
  /\ users_resolve feedback_db
  /\ exists db1 db2,
       record_impression 1000 1 feedback_db = (Ok tt, db1)
       /\ record_click 1000 1 feedback_db = (Ok tt, db2)
       /\ table_wf (recommendations db1)
       /\ table_wf (recommendations db2).
Proof.
  assert (Hin : In user_recommendation (rows (recommendations feedback_db)))
    by (left; reflexivity).
  assert (Hinv : keyed_inv recommendation_profile_lookup
                   (user_recommendation_profiles feedback_db))
    by apply (empty_keyed_inv UserRecommendationProfile_Model).
  split; [exact feedback_db_wf |]. split; [exact Hin |]. split; [exact Hinv |].
  split; [exact feedback_db_users |]. split; [exact feedback_db_resolves |].
  destruct (@feedback_increments_one_counter 1000 feedback_db user_recommendation
              feedback_db_wf Hin Hinv feedback_db_users feedback_db_resolves)
    as (db1 & db2 & H1 & H2 & _ & _ & _ & _ & _ & Hwf1 & Hwf2).
  exists db1, db2.
  split; [exact H1 |]. split; [exact H2 |]. split; [exact Hwf1 | exact Hwf2].
Defined.

(** X5 on the first impression of the recommendation of user 7. *)
Lemma impression_updates_user_profile_witness :
  table_wf (recommendations feedback_db)
  /\ In user_recommendation (rows (recommendations feedback_db))
  /\ keyed_inv recommendation_profile_lookup (user_recommendation_profiles feedback_db)
  /\ NoDup (map User.id (users feedback_db))
  /\ In example_user (users feedback_db)
  /\ Recommendation.user user_recommendation = Some (User.id example_user)
  /\ (forall x, In x (recommendations_of example_user feedback_db) ->
                0 <= Recommendation.shown_count x)
  /\ exists db' p,
       record_impression 1000 1 feedback_db = (Ok tt, db')
       /\ filter (recommendation_profile_lookup (1, 7))
                 (rows (user_recommendation_profiles db')) = [p]
       /\ UserRecommendationProfile.total_recommendations_shown p = 1
       /\ UserRecommendationProfile.last_recommendation_at p = Some 1000.
Proof.
  assert (Hin : In user_recommendation (rows (recommendations feedback_db)))
    by (left; reflexivity).
  assert (Hinv : keyed_inv recommendation_profile_lookup
                   (user_recommendation_profiles feedback_db))
    by apply (empty_keyed_inv UserRecommendationProfile_Model).
  assert (Huser : In example_user (users feedback_db)) by (left; reflexivity).
  assert (Hpos : forall x, In x (recommendations_of example_user feedback_db) ->
                           0 <= Recommendation.shown_count x).
  { intros x Hx. vm_compute in Hx. destruct Hx as [<- | []]. cbn. lia. }
  split; [exact feedback_db_wf |]. split; [exact Hin |]. split; [exact Hinv |].
  split; [exact feedback_db_users |]. split; [exact Huser |]. split; [reflexivity |].
  split; [exact Hpos |].
  destruct (@impression_updates_user_profile 1000 feedback_db user_recommendation
              example_user feedback_db_wf Hin Hinv feedback_db_users Huser eq_refl Hpos)
    as (db' & p & Hrun & Hf & Hshown & _ & _ & _ & _ & Hlast & _).
  exists db', p. split; [exact Hrun |]. split; [exact Hf |].
  split; [exact Hshown | exact Hlast].
Defined.

(** X6 on a click on the recommendation of user 7 before any impression:
    the profile row is created with its default values. *)
Lemma click_updates_user_profile_witness :
  table_wf (recommendations feedback_db)
  /\ In user_recommendation (rows (recommendations feedback_db))
  /\ keyed_inv recommendation_profile_lookup (user_recommendation_profiles feedback_db)
  /\ NoDup (map User.id (users feedback_db))
  /\ In example_user (users feedback_db)
  /\ Recommendation.user user_recommendation = Some (User.id example_user)
  /\ exists db',
       record_click 1000 1 feedback_db = (Ok tt, db')
       /\ filter (recommendation_profile_lookup (1, 7))
                 (rows (user_recommendation_profiles db'))
          = [with_pk 1 (UserRecommendationProfile.default 1 7)].
Proof.
  assert (Hin : In user_recommendation (rows (recommendations feedback_db)))
    by (left; reflexivity).
  assert (Hinv : keyed_inv recommendation_profile_lookup
                   (user_recommendation_profiles feedback_db))
    by apply (empty_keyed_inv UserRecommendationProfile_Model).
  assert (Huser : In example_user (users feedback_db)) by (left; reflexivity).
  split; [exact feedback_db_wf |]. split; [exact Hin |]. split; [exact Hinv |].
  split; [exact feedback_db_users |]. split; [exact Huser |]. split; [reflexivity |].
  destruct (@click_updates_user_profile 1000 feedback_db user_recommendation
              example_user feedback_db_wf Hin Hinv feedback_db_users Huser eq_refl)
    as (db' & Hrun & _ & _ & Hstale).
  exists db'. split; [exact Hrun |].
  apply Hstale; [vm_compute; discriminate | reflexivity].
Defined.

(** X7 on three views of P1 and two purchases of P2. *)
Lemma trending_entries_bounds_witness :
  In 1 (stores trending_db)
  /\ trending_inv (trending_products trending_db)
  /\ referential_integrity trending_db
  /\ exists msg db',
       calculate_trending_products stable_order example_now 1 trending_db
       = (Ok msg, db').
Proof.
  assert (Hstore : In 1 (stores trending_db)) by (left; reflexivity).
  split; [exact Hstore |]. split; [exact empty_trending_inv |].
  split; [exact trending_db_integrity |].
  destruct (@trending_entries_bounds stable_order stable_order_spec
              example_now 1 trending_db Hstore empty_trending_inv trending_db_integrity)
    as (msg & db' & Hrun & _).
  exists msg, db'. exact Hrun.
Defined.

(** X8 on the same store, the second run with an order that breaks ties
    the other way: no two products of a window tie there. *)
Lemma trending_rerun_changes_nothing_witness :
  (forall w time_delta,
     In (w, time_delta) windows ->
     trending_data reversed_order example_now 1 time_delta trending_db
     = trending_data stable_order example_now 1 time_delta trending_db)
  /\ In 1 (stores trending_db)
  /\ trending_inv (trending_products trending_db)
  /\ referential_integrity trending_db
  /\ exists msg db1,
       calculate_trending_products stable_order example_now 1 trending_db
       = (Ok msg, db1)
       /\ calculate_trending_products reversed_order example_now 1 db1 = (Ok msg, db1)
       /\ List.length (rows (trending_products db1)) = 8%nat.
Proof.
  assert (Hsame : forall w time_delta,
             In (w, time_delta) windows ->
             trending_data reversed_order example_now 1 time_delta trending_db
             = trending_data stable_order example_now 1 time_delta trending_db).
  { intros w time_delta Hw. unfold windows in Hw. cbn [In] in Hw.
    repeat (destruct Hw as [E | Hw];
            [injection E as _ <-; vm_compute; reflexivity |]).
    contradiction. }
  assert (Hstore : In 1 (stores trending_db)) by (left; reflexivity).
  split; [exact Hsame |]. split; [exact Hstore |]. split; [exact empty_trending_inv |].
  split; [exact trending_db_integrity |].
  destruct (@trending_rerun_changes_nothing stable_order reversed_order example_now 1
              trending_db stable_order_spec Hsame Hstore empty_trending_inv
              trending_db_integrity)
    as (msg & db1 & Hrun1 & Hrun2).
  exists msg, db1. split; [exact Hrun1 |]. split; [exact Hrun2 |].
  vm_compute in Hrun1. injection Hrun1 as _ <-. reflexivity.
Defined.

(** X9 on a tenant the store does not know. *)
Lemma trending_run_frame_witness :
  trending_inv (trending_products trending_db)
  /\ referential_integrity trending_db
  /\ exists msg,
       calculate_trending_products stable_order example_now 2 trending_db
       = (Ok msg, trending_db).
Proof.
  split; [exact empty_trending_inv |]. split; [exact trending_db_integrity |].
  destruct (@trending_run_frame stable_order stable_order_spec
              example_now 2 trending_db empty_trending_inv trending_db_integrity)
    as (msg & db' & Hrun & _ & _ & _ & Hunknown).
  exists msg.
  destruct Hunknown as [E _].
  - intros [E | []]. discriminate E.
  - rewrite E in Hrun. exact Hrun.
Defined.

(** X14 on user u7 of tenant 1, whose neighbour u8 bought P2: the engine
    proposes P2, which u7 never touched and u8 did. *)
Lemma collaborative_never_recommends_seen_witness :
  filter (fun u => (User.store u =? 1) && String.eqb (User.user_id u) "u7")
         (users neighbour_db) = [example_user]
  /\ exists c,
       CollaborativeFilteringEngine stable_order 1 1000 (Some "u7") None 10%nat []
         neighbour_db = Ok [c]
       /\ Candidate.product c = P2
       /\ (forall i, In i (interactions neighbour_db) ->
                     Interaction.user i = Some 7 -> Interaction.product i <> Some 2)
       /\ exists i u',
            In i (interactions neighbour_db)
            /\ Interaction.product i = Some 2
            /\ In u' (users neighbour_db)
            /\ User.id u' <> 7
            /\ Interaction.user i = Some (User.id u').
Proof.
  split; [reflexivity |].
  destruct (@collaborative_never_recommends_seen stable_order stable_order_spec 1 1000
              "u7" None 10%nat [] neighbour_db example_user eq_refl)
    as (out & Hrun & _ & Hall).
  assert (Hout : exists c, out = [c] /\ Candidate.product c = P2).
  { vm_compute in Hrun. injection Hrun as <-. eexists. split; reflexivity. }
  destruct Hout as (c & -> & Hc).
  exists c. split; [exact Hrun |]. split; [exact Hc |].
  destruct (Hall c (or_introl eq_refl))
    as (Hunseen & (i & u' & Hi & _ & Hp & Hu' & _ & Hid & Hiu) & _).
  rewrite Hc in Hunseen, Hp.
  split; [exact Hunseen |].
  exists i, u'. repeat (split; [assumption |]). assumption.
Defined.

(** X17 on an anonymous request against the scenario. *)
Lemma get_recommendations_stores_engine_output_witness :
  user_column None = Ok None
  /\ user_fk_ok None scenario_db = true
  /\ keyed_inv recommendation_lookup (recommendations scenario_db)
  /\ exists stored db',
       get_recommendations stable_order no_content_engine 1 1000 None (Some "s1")
         10%nat [] None scenario_db = (Ok stored, db')
       /\ (List.length stored <= 10)%nat
       /\ keyed_inv recommendation_lookup (recommendations db').
Proof.
  assert (Hinv : keyed_inv recommendation_lookup (recommendations scenario_db))
    by apply (empty_keyed_inv Recommendation_Model).
  split; [reflexivity |]. split; [reflexivity |]. split; [exact Hinv |].
  destruct (@get_recommendations_stores_engine_output stable_order no_content_engine
              1 1000 None (Some "s1") 10%nat [] scenario_db None eq_refl eq_refl Hinv)
    as (out & stored & db' & _ & Hrun & Hlen & _ & Hinv' & _).
  exists stored, db'. split; [exact Hrun |]. split; [exact Hlen | exact Hinv'].
Defined.

(** X18 on the activation of the second model of tenant 1. *)
Lemma activate_leaves_one_active_model_witness :
  NoDup (map MLModel.id example_models)
  /\ snd (MLModel.activate (MLModel.mk 2 1 "collaborative_filtering" "20240201_000000"
                              "ready" false) example_models)
     = [ MLModel.mk 1 1 "collaborative_filtering" "20240101_000000" "active" false;
         MLModel.mk 2 1 "collaborative_filtering" "20240201_000000" "active" true;
         MLModel.mk 3 2 "collaborative_filtering" "20240101_000000" "active" true ]
  /\ NoDup (map MLModel.id
                (snd (MLModel.activate
                        (MLModel.mk 2 1 "collaborative_filtering" "20240201_000000"
                           "ready" false) example_models))).
Proof.
  assert (Hnd : NoDup (map MLModel.id example_models)).
  { cbn. repeat constructor; cbn; intuition discriminate. }
  split; [exact Hnd |]. split; [reflexivity |].
  exact (proj1 (proj2 (proj2 (proj2 (proj2
           (@activate_leaves_one_active_model
              (MLModel.mk 2 1 "collaborative_filtering" "20240201_000000" "ready" false)
              example_models Hnd)))))).
Defined.

(** X19 on a first view of P1: the category and price of P1 are copied,
    the weight is that of a view, and a second save computes the same. *)
Lemma interaction_save_snapshots_product_witness :
  (forall pid, Interaction.product unsaved_view = Some pid ->
               exists p, find (fun p => Product.id p =? pid) [P1; P2] = Some p)
  /\ let saved := Interaction.save [P1; P2] unsaved_view in
     Interaction.product_category saved = "books"
     /\ Interaction.product_price saved = Some 50%Q
     /\ Interaction.product_category (Interaction.save [P1; P2] saved) = "books"
     /\ Interaction.weight (Interaction.save [P1; P2] saved) = Interaction.weight saved.
Proof.
  assert (Hfk : forall pid, Interaction.product unsaved_view = Some pid ->
                            exists p, find (fun p => Product.id p =? pid) [P1; P2] = Some p).
  { intros pid E. injection E as <-. exists P1. reflexivity. }
  split; [exact Hfk |].
  destruct (@interaction_save_snapshots_product [P1; P2] unsaved_view Hfk)
    as ((Hcat & _ & Hweight) & _ & Hfill & _).
  destruct (Hfill 1 P1 eq_refl eq_refl eq_refl) as [Hc Hp].
  cbv zeta. split; [exact Hc |]. split; [exact Hp |].
  split; [rewrite Hcat; exact Hc | exact Hweight].
Defined.

(** X20 on a clean-up three years after the trending example: its five
    interactions go, the view made ninety-five days before stays. *)
Lemma cleanup_old_interactions_keeps_recent_views_witness :
  exists db',
    cleanup_old_interactions later_now aged_db
    = (Ok "Deleted 5 old interactions", db')
    /\ interactions db'
       = [example_interaction 6 None 2 "view" 1.0%Q (later_now - days 95)]
    /\ window_interactions 1 (later_now - days 7) 2 db'
       = window_interactions 1 (later_now - days 7) 2 aged_db.
Proof.
  destruct (cleanup_old_interactions_keeps_recent_views later_now aged_db)
    as (msg & db' & Hrun & _ & _ & _ & _ & Hwindow).
  exists db'.
  assert (E : cleanup_old_interactions later_now aged_db
              = (Ok "Deleted 5 old interactions",
                 set_interactions
                   [example_interaction 6 None 2 "view" 1.0%Q (later_now - days 95)]
                   aged_db))
    by (vm_compute; reflexivity).
  rewrite E in Hrun. injection Hrun as <- <-.
  split; [reflexivity |]. split; [reflexivity |].
  apply Hwindow. vm_compute. discriminate.
Defined.

(** X15 on the store of the trending example, under the stable order. *)
Lemma popularity_is_ranked_best_first_witness :
  (forall (A : Type) (key : A -> Q) (l : list A),
      is_order_by_desc key l (stable_order key l))
  /\ exists out,
       PopularityBasedEngine stable_order 1 example_now None None 10%nat [] trending_db
       = Ok out
       /\ (List.length out <= 10)%nat
       /\ StronglySorted
            (fun a b => (Candidate.score b <= Candidate.score a)%Q
                        /\ Candidate.rank a < Candidate.rank b) out.
Proof.
  split; [exact stable_order_spec |].
  destruct (@popularity_is_ranked_best_first stable_order stable_order_spec 1 example_now
              None None 10%nat [] trending_db)
    as (out & Hrun & Hlen & _ & Hsorted).
  exists out. split; [exact Hrun |]. split; [exact Hlen | exact Hsorted].
Defined.

(** C7 on the scenario: two views and one purchase of 50 by user 7.  The
    task raises, and the profile it leaves counts no interaction and has
    no purchase frequency. *)
Lemma behavior_profile_labels_never_assigned_witness :
  filter (fun u => User.id u =? 7) (users scenario_db) = [example_user]
  /\ keyed_inv behavior_profile_lookup (user_behavior_profiles scenario_db)
  /\ List.length (interactions scenario_db) = 3%nat
  /\ exists profile db',
       update_user_behavior_profile 7 scenario_db = (Raise AttributeError, db')
       /\ filter (behavior_profile_lookup (1, 7)) (rows (user_behavior_profiles db'))
          = [profile]
       /\ UserBehaviorProfile.total_interactions profile = 0
       /\ UserBehaviorProfile.total_purchases profile = 0
       /\ UserBehaviorProfile.purchase_frequency profile = EmptyString
       /\ UserBehaviorProfile.avg_order_value profile = 0.0%Q.
Proof.
  assert (Hinv : keyed_inv behavior_profile_lookup (user_behavior_profiles scenario_db))
    by apply (empty_keyed_inv UserBehaviorProfile_Model).
  split; [reflexivity |]. split; [exact Hinv |]. split; [reflexivity |].
  destruct (@behavior_profile_labels_never_assigned 7 scenario_db example_user
              eq_refl Hinv)
    as (profile & db' & Hrun & _ & Hf & _ & Hnew).
  exists profile, db'. split; [exact Hrun |]. split; [exact Hf |].
  destruct (Hnew eq_refl) as (H1 & _ & H3 & H4 & _ & H6).
  split; [exact H1 |]. split; [exact H3 |]. split; [exact H4 | exact H6].
Defined.

(** C8 on user 7 with one interaction in each of eleven categories: the
    task raises, and the profile it leaves prefers no category. *)
Lemma preferred_categories_never_written_witness :
  filter (fun u => User.id u =? 7) (users ties_db) = [example_user]
  /\ keyed_inv behavior_profile_lookup (user_behavior_profiles ties_db)
  /\ List.length (interactions ties_db) = 11%nat
  /\ exists profile db',
       update_user_behavior_profile 7 ties_db = (Raise AttributeError, db')
       /\ filter (behavior_profile_lookup (1, 7)) (rows (user_behavior_profiles db'))
          = [profile]
       /\ UserBehaviorProfile.preferred_categories profile = [].
Proof.
  assert (Hinv : keyed_inv behavior_profile_lookup (user_behavior_profiles ties_db))
    by apply (empty_keyed_inv UserBehaviorProfile_Model).
  split; [reflexivity |]. split; [exact Hinv |]. split; [reflexivity |].
  destruct (@preferred_categories_never_written 7 ties_db example_user eq_refl Hinv)
    as (profile & db' & Hrun & _ & Hf & _ & Hnew).
  exists profile, db'. split; [exact Hrun |]. split; [exact Hf |].
  exact (Hnew eq_refl).
Defined.

(** C1 on user u7 of tenant 1, a stored user, asking for popular products
    while two products have recent interactions. *)
Lemma named_user_upsert_raises_witness :
  filter (fun u => (User.store u =? 1) && String.eqb (User.user_id u) "u7")
         (users trending_db) = [example_user]
  /\ has_letter "u7" = true
  /\ (exists rec recs,
        select_engine stable_order no_content_engine 1 (Some "popularity") example_now
          (Some "u7") None 10%nat [] trending_db = Ok (rec :: recs))
  /\ get_recommendations stable_order no_content_engine 1 example_now (Some "u7") None
       10%nat [] (Some "popularity") trending_db
     = (Raise ValueError, trending_db)
  /\ rows (recommendations trending_db) = [].
Proof.
  assert (Hid : has_letter "u7" = true) by reflexivity.
  split; [reflexivity |]. split; [exact Hid |].
  assert (Hengine : exists rec recs,
             select_engine stable_order no_content_engine 1 (Some "popularity") example_now
               (Some "u7") None 10%nat [] trending_db = Ok (rec :: recs)).
  { eexists. eexists. vm_compute. reflexivity. }
  split; [exact Hengine |]. split; [| reflexivity].
  destruct Hengine as (rec & recs & Hengine).
  exact (@named_user_upsert_raises stable_order no_content_engine 1 example_now "u7" None
           10%nat [] (Some "popularity") trending_db rec recs Hid Hengine).
Defined.
